(** * Verification of the vesuvius multiresolution image store

    A shallow embedding of [vesuvius/utils.py], [vesuvius/image.py] and
    [vesuvius/volume.py]: the slice utilities, the level-of-detail index
    resolver ([__getitem__]), the handle constructor ([__init__]) and the
    two pyramid builders ([build_from_image], [build_from_tiffdir]).

    Python integers are [Z]; [//] is [Z.div] (both round toward minus
    infinity).  Exceptions are values of [exn]; every fallible function
    returns a [result].  The zarr store the builders write is an explicit
    state (the destination, [option zgroup]) threaded through the build.
    The external collaborators (image decoding, resampling) are section
    variables; numpy and zarr are modelled as far as the builders use
    them.  The real numbers serve only to state what
    [ceil(log2(..))] denotes. *)

From Equations Require Import Equations.
From Stdlib Require Import ZArith List String Ascii Bool Lia Reals Lra.
Import ListNotations.
Open Scope Z_scope.

(** ** Exceptions *)

(** The messages of the [PapyrusDataException]s the package raises.  The
    f-string arguments that the claims depend on are kept as arguments. *)
Inductive papyrus_msg : Type :=
| MustIndexWithSlices            (* "Must index with slices" *)
| CannotUseStepSlices            (* "Cannot use step slices on downsampled data" *)
| TooManyIndices                 (* "Too many indices for array" *)
| LastIndexMustBeInteger         (* "The last index must be an integer ..." *)
| CannotIndexNegative            (* "Cannot index negative sampled images" *)
| OnlyNDownsampled (n : Z)       (* f"Only {scale_levels} downsampled images in this library" *)
| MissingImageFile (z : Z)       (* f"Missing image file {z} from {tiffdirpath}" *)
| ZarrPathExists                 (* "Provided zarr path ... already exists. ..." *)
| ZarrPathDoesNotExist.          (* "Provided zarr path ... does not exist. ..." *)

(** Exceptions: the package's own, and the built-in ones the modelled
    statements can raise. *)
Inductive exn : Type :=
| PapyrusDataException (m : papyrus_msg)
| AttributeError
| TypeError
| ValueError
| KeyError
| OverflowError
| ZeroDivisionError
| UnboundLocalError.

Inductive result (A : Type) : Type :=
| Ok (a : A)
| Raise (e : exn).
Arguments Ok {A} a.
Arguments Raise {A} e.

Definition bind {A B : Type} (r : result A) (k : A -> result B) : result B :=
  match r with
  | Ok a => k a
  | Raise e => Raise e
  end.

Notation "x <- r ;; k" := (bind r (fun x => k))
  (at level 61, r at next level, right associativity).

(** ** Selectors *)

(** What a caller can put in one position of an index tuple: a Python
    [int], a [slice] with its three optional fields, any other object,
    or a [bool].  [bool] is a subclass of [int]: [isinstance(True, int)]
    holds, [True] compares and divides as [1] and [False] as [0], but
    they format as "True" and "False". *)
Inductive selector : Type :=
| SInt (i : Z)
| SSlice (start stop step : option Z)
| SOther
| SBool (b : bool).

(** [isinstance(s, int)] *)
Definition isinstance_int (s : selector) : bool :=
  match s with
  | SInt _ | SBool _ => true
  | _ => false
  end.

Definition CHUNK_SIZE : Z := 1024.

(** ** utils.py *)

Definition option_floordiv (b : option Z) (d : Z) : option Z :=
  match b with
  | None => None
  | Some v => Some (v / d)
  end.

(** [downsample_slice(item, scale)].  [scale] is a non-negative integer
    (the docstring's condition; [__getitem__] has checked it). *)
Definition downsample_slice (item : selector) (scale : Z) : result selector :=
  if scale =? 0 then Ok item
  else
    match item with
    | SInt i => Ok (SInt (i / 2 ^ scale))
    | SBool b => Ok (SInt (Z.b2z b / 2 ^ scale))
    | SOther => Raise (PapyrusDataException MustIndexWithSlices)
    | SSlice start stop step =>
        match step with
        | Some _ => Raise (PapyrusDataException CannotUseStepSlices)
        | None =>
            Ok (SSlice (option_floordiv start (2 ^ scale))
                       (option_floordiv stop (2 ^ scale)) None)
        end
    end.

(** [get_slice_size(item, dimsize)].  Reading [item.step] of an object that
    is not a slice raises [AttributeError]. *)
Definition get_slice_size (item : selector) (dimsize : Z) : result Z :=
  match item with
  | SSlice start stop step =>
      match step with
      | Some _ => Raise (PapyrusDataException CannotUseStepSlices)
      | None =>
          let start := match start with None => 0 | Some s => s end in
          let stop := match stop with None => dimsize | Some s => s end in
          Ok (stop - start)
      end
  | _ => Raise AttributeError
  end.

(** ** The level-selection loop of [__getitem__]

    [while (scale < self.scale_levels) and scale_size > (CHUNK_SIZE // 4):
         scale += 1; scale_size = scale_size // 2]
    The loop state is the pair [(scale, scale_size)]; it terminates because
    [scale_levels - scale] decreases. *)
Equations? lod_loop (scale_levels scale scale_size : Z) : Z * Z
  by wf (Z.to_nat (scale_levels - scale)) lt :=
  lod_loop scale_levels scale scale_size
    with Sumbool.sumbool_of_bool
           ((scale <? scale_levels) && (scale_size >? CHUNK_SIZE / 4)) => {
    | left _ := lod_loop scale_levels (scale + 1) (scale_size / 2);
    | right _ := (scale, scale_size) }.
Proof.
  apply andb_prop in e. destruct e as [H _].
  apply Z.ltb_lt in H. lia.
Qed.

(** ** The read a resolved request performs

    [self.zarr.<array>.__getitem__(selectors)].  The read itself belongs to
    the store; the resolver's result is which array is read and with which
    selectors.  [Named b] is the array [b]; [Downsampled b k] is the array
    named [f"{b}_downsampled{k}"]. *)
Inductive array_name : Type :=
| Named (base : string)
| Downsampled (base : string) (scale : Z).

Record read : Type := mkRead {
  read_array : array_name;
  read_key : list selector
}.

(** ** image.py: the handle and its resolver *)
Module PapyrusImage.

(** The fields [__init__] sets on [self] that [__getitem__] uses. *)
Record handle : Type := mkHandle {
  multiscale : bool;
  shape : Z * Z;
  scale_levels : Z
}.

Definition subimage (scale : Z) : array_name :=
  if scale =? 0 then Named "image" else Downsampled "image" scale.

(** The part of [__getitem__] after the [if/elif/else] on [len(key)]:
    the checks on [scale], then the rebased read. *)
Definition getitem_at (self : handle) (x y scale : selector) : result read :=
  match scale with
  | SInt scale =>
      if scale <? 0 then Raise (PapyrusDataException CannotIndexNegative)
      else if scale >? scale_levels self
      then Raise (PapyrusDataException (OnlyNDownsampled (scale_levels self)))
      else
        x' <- downsample_slice x scale ;;
        y' <- downsample_slice y scale ;;
        Ok (mkRead (subimage scale) [x'; y'])
  | SBool b =>
      (* the checks and [downsample_slice] read a [bool] as 0 or 1; the
         f-string names "image_downsampledTrue", which no store holds:
         [self.zarr.__getattr__] raises [AttributeError] *)
      if Z.b2z b <? 0 then Raise (PapyrusDataException CannotIndexNegative)
      else if Z.b2z b >? scale_levels self
      then Raise (PapyrusDataException (OnlyNDownsampled (scale_levels self)))
      else
        x' <- downsample_slice x (Z.b2z b) ;;
        y' <- downsample_slice y (Z.b2z b) ;;
        if b then Raise AttributeError
        else Ok (mkRead (Named "image") [x'; y'])
  | _ => Raise (PapyrusDataException LastIndexMustBeInteger)
  end.

(** [PapyrusImage.__getitem__(self, key)], [key] a tuple. *)
Definition getitem (self : handle) (key : list selector) : result read :=
  match key with
  | [x; y] =>
      if isinstance_int x || isinstance_int y
      then Ok (mkRead (Named "image") key)
      else
        sx <- get_slice_size x (fst (shape self)) ;;
        sy <- get_slice_size y (snd (shape self)) ;;
        let scale_size := Z.max sx sy in
        let scale := fst (lod_loop (scale_levels self) 0 scale_size) in
        getitem_at self x y (SInt scale)
  | [x; y; scale] => getitem_at self x y scale
  | _ => Raise (PapyrusDataException TooManyIndices)
  end.

End PapyrusImage.

(** ** volume.py: the handle and its resolver *)
Module PapyrusVolume.

Record handle : Type := mkHandle {
  multiscale : bool;
  shape : Z * Z * Z;
  scale_levels : Z
}.

Definition subimage (scale : Z) : array_name :=
  if scale =? 0 then Named "volume" else Downsampled "volume" scale.

Definition getitem_at (self : handle) (x y z scale : selector) : result read :=
  match scale with
  | SInt scale =>
      if scale <? 0 then Raise (PapyrusDataException CannotIndexNegative)
      else if scale >? scale_levels self
      then Raise (PapyrusDataException (OnlyNDownsampled (scale_levels self)))
      else
        x' <- downsample_slice x scale ;;
        y' <- downsample_slice y scale ;;
        z' <- downsample_slice z scale ;;
        Ok (mkRead (subimage scale) [x'; y'; z'])
  | SBool b =>
      if Z.b2z b <? 0 then Raise (PapyrusDataException CannotIndexNegative)
      else if Z.b2z b >? scale_levels self
      then Raise (PapyrusDataException (OnlyNDownsampled (scale_levels self)))
      else
        x' <- downsample_slice x (Z.b2z b) ;;
        y' <- downsample_slice y (Z.b2z b) ;;
        z' <- downsample_slice z (Z.b2z b) ;;
        if b then Raise AttributeError
        else Ok (mkRead (Named "volume") [x'; y'; z'])
  | _ => Raise (PapyrusDataException LastIndexMustBeInteger)
  end.

(** [PapyrusVolume.__getitem__(self, key)], [key] a tuple. *)
Definition getitem (self : handle) (key : list selector) : result read :=
  match key with
  | [x; y; z] =>
      if isinstance_int x || isinstance_int y || isinstance_int z
      then Ok (mkRead (Named "volume") key)
      else
        sx <- get_slice_size x (fst (fst (shape self))) ;;
        sy <- get_slice_size y (snd (fst (shape self))) ;;
        sz <- get_slice_size z (snd (shape self)) ;;
        let scale_size := Z.max (Z.max sx sy) sz in
        let scale := fst (lod_loop (scale_levels self) 0 scale_size) in
        getitem_at self x y z (SInt scale)
  | [x; y; z; scale] => getitem_at self x y z scale
  | _ => Raise (PapyrusDataException TooManyIndices)
  end.

End PapyrusVolume.

(** ** numpy: dtypes, [min_scalar_type], [find_common_type]

    The builders call numpy on the decoded pixels.  The model covers
    boolean and integer images (masks, labels, 8- and 16-bit scans): the
    elements of an array are integers, and a decoded source has one of the
    dtypes of [int_dtype]. *)
Inductive int_dtype : Type :=
| bool8 | int8 | uint8 | int16 | uint16 | int32 | uint32 | int64 | uint64.

Inductive dtype : Type :=
| Int (t : int_dtype)
| float16 | float32 | float64.

Definition int_dtype_eqb (a b : int_dtype) : bool :=
  match a, b with
  | bool8, bool8 | int8, int8 | uint8, uint8 | int16, int16
  | uint16, uint16 | int32, int32 | uint32, uint32 | int64, int64
  | uint64, uint64 => true
  | _, _ => false
  end.

Definition dtype_eqb (a b : dtype) : bool :=
  match a, b with
  | Int x, Int y => int_dtype_eqb x y
  | float16, float16 | float32, float32 | float64, float64 => true
  | _, _ => false
  end.

(** The least and greatest value a dtype of the model holds exactly
    (for the float types: the integers below [2^mantissa]). *)
Definition dtype_min (d : dtype) : Z :=
  match d with
  | Int bool8 | Int uint8 | Int uint16 | Int uint32 | Int uint64 => 0
  | Int int8 => - 2 ^ 7
  | Int int16 => - 2 ^ 15
  | Int int32 => - 2 ^ 31
  | Int int64 => - 2 ^ 63
  | float16 => - 2 ^ 11
  | float32 => - 2 ^ 24
  | float64 => - 2 ^ 53
  end.

Definition dtype_max (d : dtype) : Z :=
  match d with
  | Int bool8 => 1
  | Int uint8 => 2 ^ 8 - 1
  | Int uint16 => 2 ^ 16 - 1
  | Int uint32 => 2 ^ 32 - 1
  | Int uint64 => 2 ^ 64 - 1
  | Int int8 => 2 ^ 7 - 1
  | Int int16 => 2 ^ 15 - 1
  | Int int32 => 2 ^ 31 - 1
  | Int int64 => 2 ^ 63 - 1
  | float16 => 2 ^ 11
  | float32 => 2 ^ 24
  | float64 => 2 ^ 53
  end.

Definition represents (d : dtype) (v : Z) : Prop :=
  dtype_min d <= v <= dtype_max d.

(** Storage width in bits. *)
Definition itemsize (d : dtype) : Z :=
  match d with
  | Int bool8 | Int int8 | Int uint8 => 8
  | Int int16 | Int uint16 | float16 => 16
  | Int int32 | Int uint32 | float32 => 32
  | Int int64 | Int uint64 | float64 => 64
  end.

(** [np.min_scalar_type(v)] for [v] an element of an array of dtype [src]:
    a boolean stays boolean; a non-negative integer gets the smallest
    unsigned type that holds it, a negative one the smallest signed type.
    (The elements of an integer array lie within 64 bits.) *)
Definition min_scalar_type (src : int_dtype) (v : Z) : dtype :=
  match src with
  | bool8 => Int bool8
  | _ =>
      if 0 <=? v then
        if v <=? 2 ^ 8 - 1 then Int uint8
        else if v <=? 2 ^ 16 - 1 then Int uint16
        else if v <=? 2 ^ 32 - 1 then Int uint32
        else Int uint64
      else
        if - 2 ^ 7 <=? v then Int int8
        else if - 2 ^ 15 <=? v then Int int16
        else if - 2 ^ 31 <=? v then Int int32
        else Int int64
  end.

(** [np.can_cast(a, b)] under the default "safe" rule. *)
Definition can_cast (a b : dtype) : bool :=
  match a, b with
  | Int bool8, _ => true
  | _, Int bool8 => false
  | Int (uint8 | uint16 | uint32 | uint64),
    Int (uint8 | uint16 | uint32 | uint64) => itemsize a <=? itemsize b
  | Int (uint8 | uint16 | uint32 | uint64),
    Int (int8 | int16 | int32 | int64) => itemsize a <? itemsize b
  | Int (int8 | int16 | int32 | int64),
    Int (int8 | int16 | int32 | int64) => itemsize a <=? itemsize b
  | Int (int8 | int16 | int32 | int64),
    Int (uint8 | uint16 | uint32 | uint64) => false
  | Int (int8 | uint8), (float16 | float32 | float64) => true
  | Int (int16 | uint16), (float32 | float64) => true
  | Int (int16 | uint16), float16 => false
  | Int (int32 | uint32 | int64 | uint64), float64 => true
  | Int (int32 | uint32 | int64 | uint64), (float16 | float32) => false
  | (float16 | float32 | float64), Int _ => false
  | (float16 | float32 | float64), (float16 | float32 | float64) =>
      itemsize a <=? itemsize b
  end.

(** The order in which [np.find_common_type] tries the candidate types. *)
Definition test_types : list dtype :=
  [Int bool8; Int int8; Int uint8; Int int16; Int uint16; Int int32;
   Int uint32; Int int64; Int uint64; float16; float32; float64].

(** [np.find_common_type([a, b], [])]: the first candidate both cast to.
    Every type of the model casts to one of them when [a] and [b] are
    integer types, so the [None] of numpy is not reached from
    [get_min_datatype]; it is [float64] here. *)
Definition find_common_type (a b : dtype) : dtype :=
  match find (fun t => can_cast a t && can_cast b t) test_types with
  | Some t => t
  | None => float64
  end.

(** ** Arrays *)

(** A two-dimensional numpy array: dtype, shape and the elements in
    row-major order.  [D] is the type its dtype is taken from. *)
Record ndarray (D : Type) : Type := mkArray {
  nd_dtype : D;
  nd_shape : Z * Z;
  nd_data : list Z
}.
Arguments mkArray {D} _ _ _.
Arguments nd_dtype {D} _.
Arguments nd_shape {D} _.
Arguments nd_data {D} _.

(** [array.min()] and [array.max()]; of an empty array they raise
    [ValueError]. *)
Definition array_min {D} (array : ndarray D) : result Z :=
  match nd_data array with
  | [] => Raise ValueError
  | v :: vs => Ok (fold_left Z.min vs v)
  end.

Definition array_max {D} (array : ndarray D) : result Z :=
  match nd_data array with
  | [] => Raise ValueError
  | v :: vs => Ok (fold_left Z.max vs v)
  end.

(** [get_min_datatype(array)] of utils.py. *)
Definition get_min_datatype (array : ndarray int_dtype) : result dtype :=
  lo <- array_min array ;;
  hi <- array_max array ;;
  let dtype :=
    find_common_type (min_scalar_type (nd_dtype array) lo)
                     (min_scalar_type (nd_dtype array) hi) in
  if dtype_eqb dtype (Int uint8) && ((hi =? 0) || (hi =? 1))
  then Ok (Int bool8)
  else Ok dtype.

(** [array.astype(d)]: the elements are kept (the casts the builders
    perform are to a type that holds them). *)
Definition astype {D} (d : dtype) (array : ndarray D) : ndarray dtype :=
  mkArray d (nd_shape array) (nd_data array).

(** *** Basic slicing, [array[xslice, yslice]]

    [xlims] and [ylims] are [None] or a pair [(min, max)] whose members
    may themselves be [None]; the builders turn them into
    [slice(min, max, None)]. *)
Definition lims : Type := option (option Z * option Z).

(** Python's adjustment of one slice bound against a length. *)
Definition adjust_index (n : Z) (b : option Z) (default : Z) : Z :=
  match b with
  | None => default
  | Some v => if v <? 0 then Z.max 0 (v + n) else Z.min v n
  end.

(** The half-open interval of indices [slice(min, max, None)] selects on
    an axis of length [n]. *)
Definition slice_indices (n : Z) (l : lims) : Z * Z :=
  match l with
  | None => (0, n)
  | Some (lo, hi) =>
      let start := adjust_index n lo 0 in
      let stop := adjust_index n hi n in
      (start, Z.max start stop)
  end.

Definition range (start stop : Z) : list Z :=
  map (fun i => start + Z.of_nat i) (seq 0 (Z.to_nat (stop - start))).

Definition sublist {A} (start stop : Z) (l : list A) : list A :=
  firstn (Z.to_nat (stop - start)) (skipn (Z.to_nat start) l).

Definition getitem2 {D} (array : ndarray D) (xlims ylims : lims) : ndarray D :=
  let '(h, w) := nd_shape array in
  let '(x0, x1) := slice_indices h xlims in
  let '(y0, y1) := slice_indices w ylims in
  mkArray (nd_dtype array) (x1 - x0, y1 - y0)
    (flat_map (fun r => sublist (r * w + y0) (r * w + y1) (nd_data array))
              (range x0 x1)).

(** ** The number of scale levels

    [int(max(np.ceil(np.log2(shape[0] / (chunk_size[0] // 1))),
             np.ceil(np.log2(shape[1] / (chunk_size[1] // 1)))))]

    The values [np.ceil(np.log2(..))] takes are [nan], [-inf] and the
    integers.  For [0 < a] and [0 < b], [ceil_log2_ratio a b] is the
    integer [ceil(log2(a / b))], that is the [k] with
    [2^(k-1) < a / b <= 2^k] ([ceil_log2_ratio_spec] in the integers,
    [ceil_log2_ratio_real] with the real logarithm).  The floating point
    evaluation is taken to return that integer: a quotient of integers
    below [2^40] that is not a power of two is further from the next one
    than the rounding of the division and of the logarithm can bridge. *)
Inductive fval : Type :=
| NaN
| NegInf
| Fin (k : Z).

Definition ceil_log2_ratio (a b : Z) : Z :=
  if b <=? a then Z.log2_up ((a + b - 1) / b) else - Z.log2 (b / a).

(** [np.ceil(np.log2(a / b))] for Python integers [a >= 0] and [b]:
    [a / 0] raises; the logarithm of a negative quotient is [nan], of
    zero [-inf]. *)
Definition ceil_log2_div (a b : Z) : result fval :=
  if b =? 0 then Raise ZeroDivisionError
  else if a =? 0 then Ok NegInf
  else if b <? 0 then Ok NaN
  else Ok (Fin (ceil_log2_ratio a b)).

(** [y > x] on these values. *)
Definition fval_gt (y x : fval) : bool :=
  match y, x with
  | NaN, _ | _, NaN => false
  | NegInf, _ => false
  | Fin _, NegInf => true
  | Fin b, Fin a => b >? a
  end.

(** The built-in [max(x, y)]: [y] if [y > x], else [x]. *)
Definition fval_max (x y : fval) : fval :=
  if fval_gt y x then y else x.

(** [int(v)] *)
Definition int_of_fval (v : fval) : result Z :=
  match v with
  | NaN => Raise ValueError
  | NegInf => Raise OverflowError
  | Fin k => Ok k
  end.

(** The value both builders store as [scale_levels]. *)
Definition compute_scale_levels (shape chunk_size : Z * Z) : result Z :=
  l0 <- ceil_log2_div (fst shape) (fst chunk_size / 1) ;;
  l1 <- ceil_log2_div (snd shape) (snd chunk_size / 1) ;;
  scale_levels <- int_of_fval (fval_max l0 l1) ;;
  Ok (Z.min 10 scale_levels).

(** ** The zarr store

    A group holds named arrays and a dictionary of attributes.  An array
    records the metadata it was created with and the planes written to it
    (one plane for an image, one per depth index for a volume). *)
Record zarray : Type := mkZarray {
  za_shape : list Z;
  za_chunks : list Z;
  za_dtype : dtype;
  za_fill_value : Z;
  za_planes : list (list Z)
}.

Inductive attr : Type :=
| ABool (b : bool)
| AInt (n : Z).

Record zgroup : Type := mkGroup {
  arrays : list (array_name * zarray);
  attrs : list (string * attr)
}.

Definition array_name_eqb (a b : array_name) : bool :=
  match a, b with
  | Named x, Named y => String.eqb x y
  | Downsampled x i, Downsampled y j => String.eqb x y && (i =? j)
  | _, _ => false
  end.

(** [zarr.group(store=store, overwrite=True)] on a fresh path. *)
Definition empty_group : zgroup := mkGroup [] [].

(** Dictionary update and lookup, on association lists whose first
    binding of a key is the current one. *)
Definition set_array (root : zgroup) (name : array_name) (a : zarray) : zgroup :=
  mkGroup ((name, a) :: filter (fun p => negb (array_name_eqb (fst p) name)) (arrays root))
          (attrs root).

Definition get_array (root : zgroup) (name : array_name) : option zarray :=
  option_map snd (find (fun p => array_name_eqb (fst p) name) (arrays root)).

(** [root.attrs[key] = value] *)
Definition attrs_set (root : zgroup) (key : string) (value : attr) : zgroup :=
  mkGroup (arrays root)
          ((key, value) :: filter (fun p => negb (String.eqb (fst p) key)) (attrs root)).

(** [root.attrs[key]], a [KeyError] when absent. *)
Definition attrs_get (root : zgroup) (key : string) : result attr :=
  match find (fun p => String.eqb (fst p) key) (attrs root) with
  | Some (_, v) => Ok v
  | None => Raise KeyError
  end.

(** Truth value and integer value of an attribute ([True] is [1]). *)
Definition truthy (v : attr) : bool :=
  match v with
  | ABool b => b
  | AInt n => negb (n =? 0)
  end.

Definition attr_int (v : attr) : Z :=
  match v with
  | ABool b => Z.b2z b
  | AInt n => n
  end.

(** [root.array(name=.., data=.., chunks=.., fill_value=0, ..)]: the new
    array takes shape and dtype from [data].  The model is that of
    non-zero chunk sizes (the default is 1024): with a chunk size of 0
    zarr creates the array and raises [ZeroDivisionError] while it
    writes the data, which this function, being total, does not show. *)
Definition root_array (root : zgroup) (name : array_name)
    (data : ndarray dtype) (chunks : Z * Z) : zgroup :=
  set_array root name
    (mkZarray [fst (nd_shape data); snd (nd_shape data)]
              [fst chunks; snd chunks] (nd_dtype data) 0 [nd_data data]).

(** [root.zeros(name=.., shape=.., chunks=.., dtype=.., ..)]: an array of
    zeros.  zarr's [dtype] parameter defaults to [None], which numpy
    reads as [float64]. *)
Definition root_zeros (root : zgroup) (name : array_name)
    (shape : Z * Z * Z) (chunks : Z * Z * Z) (dtype : option dtype) : zgroup :=
  let '(s0, s1, s2) := shape in
  let '(c0, c1, c2) := chunks in
  set_array root name
    (mkZarray [s0; s1; s2] [c0; c1; c2]
              (match dtype with Some d => d | None => float64 end) 0
              (repeat (repeat 0 (Z.to_nat (s0 * s1))) (Z.to_nat s2))).

(** The state of a build: the destination path holds no store ([None])
    or a group; [raised] is the exception the build ended with, if any. *)
Record outcome : Type := mkOutcome {
  dest : option zgroup;
  raised : option exn
}.

(** ** image.py: [build_from_image] and [__init__] *)
Section ImageBuild.

(** [skimage.transform.rescale(img, 1 / 2 ** scale, preserve_range=True,
    anti_aliasing=aa)]: the resample provider, given [img], [scale] and
    [aa].  It returns a [float64] array, here its shape and its elements
    as the [.astype] that follows leaves them.  The provider is taken to
    return; an exception of the library is not modelled. *)
Variable rescale : ndarray dtype -> Z -> bool -> (Z * Z) * list Z.

(** One iteration of [for scale in range(1, scale_levels + 1)]. *)
Definition add_downsampled_image (img_data : ndarray dtype) (chunk_size : Z * Z)
    (root : zgroup) (scale : Z) : zgroup :=
  let anti_aliasing := negb (dtype_eqb (nd_dtype img_data) (Int bool8)) in
  let r := rescale img_data scale anti_aliasing in
  let resized_img := astype (nd_dtype img_data) (mkArray float64 (fst r) (snd r)) in
  root_array root (Downsampled "image" scale) resized_img chunk_size.

(** [PapyrusImage.build_from_image(imagepath, zarrpath, chunk_size,
    multiscale, xlims, ylims)].  [zarr_path] is what [zarrpath] holds
    before the call and [img] the decoded image. *)
Definition build_from_image (zarr_path : option zgroup)
    (img : ndarray int_dtype) (chunk_size : option (Z * Z))
    (multiscale : bool) (xlims ylims : lims) : outcome :=
  let chunk_size :=
    match chunk_size with None => (CHUNK_SIZE, CHUNK_SIZE) | Some c => c end in
  match zarr_path with
  | Some _ => mkOutcome zarr_path (Some (PapyrusDataException ZarrPathExists))
  | None =>
      match get_min_datatype img with
      | Raise e => mkOutcome None (Some e)
      | Ok min_dtype =>
          let img_data := astype min_dtype img in
          let img_data := getitem2 img_data xlims ylims in
          let root := root_array empty_group (Named "image") img_data chunk_size in
          let root := attrs_set root "multiscale" (ABool multiscale) in
          if multiscale then
            match compute_scale_levels (nd_shape img_data) chunk_size with
            | Raise e => mkOutcome (Some root) (Some e)
            | Ok scale_levels =>
                let root := attrs_set root "scale_levels" (AInt scale_levels) in
                mkOutcome
                  (Some (fold_left (add_downsampled_image img_data chunk_size)
                                   (range 1 (scale_levels + 1)) root))
                  None
            end
          else mkOutcome (Some root) None
      end
  end.

End ImageBuild.

Module ImageHandle.
Import PapyrusImage.

(** [PapyrusImage.__init__(self, zarrpath)] with [imagepath=None]:
    opening an existing store. *)
Definition init (zarr_path : option zgroup) : result handle :=
  match zarr_path with
  | None => Raise (PapyrusDataException ZarrPathDoesNotExist)
  | Some root =>
      multiscale <- attrs_get root "multiscale" ;;
      match get_array root (Named "image") with
      | None => Raise AttributeError
      | Some image =>
          let shape := (nth 0 (za_shape image) 0, nth 1 (za_shape image) 0) in
          if truthy multiscale then
            scale_levels <- attrs_get root "scale_levels" ;;
            Ok (mkHandle (truthy multiscale) shape (attr_int scale_levels))
          else Ok (mkHandle (truthy multiscale) shape 0)
      end
  end.

End ImageHandle.

Module VolumeHandle.
Import PapyrusVolume.

(** [PapyrusVolume.__init__(self, zarrpath)] with [tiffdirpath=None]. *)
Definition init (zarr_path : option zgroup) : result handle :=
  match zarr_path with
  | None => Raise (PapyrusDataException ZarrPathDoesNotExist)
  | Some root =>
      multiscale <- attrs_get root "multiscale" ;;
      match get_array root (Named "volume") with
      | None => Raise AttributeError
      | Some volume =>
          let shape :=
            (nth 0 (za_shape volume) 0, nth 1 (za_shape volume) 0,
             nth 2 (za_shape volume) 0) in
          if truthy multiscale then
            scale_levels <- attrs_get root "scale_levels" ;;
            Ok (mkHandle (truthy multiscale) shape (attr_int scale_levels))
          else Ok (mkHandle (truthy multiscale) shape 0)
      end
  end.

End VolumeHandle.

(** ** volume.py: [build_from_tiffdir] *)

(** *** The directory scan

    [{int(f.split(".")[0]): os.path.join(tiffdirpath, f)
      for f in os.listdir(tiffdirpath)
      if f.endswith(".tif") and f.split(".")[0].isdigit()}]

    The path [os.path.join(tiffdirpath, f)] is represented by the name
    [f].  The model is that of ASCII names ([ascii_name]): on them
    [str.isdigit()] holds of the non-empty strings of "0" to "9" and
    [int()] reads such a string in base ten.  Python's [str.isdigit()]
    also accepts digits of other scripts and superscripts, on which
    [int()] returns a key or raises [ValueError]; a name with such a
    character before its first dot is outside the model, which reads
    its bytes as non-digits. *)
Fixpoint ascii_name (s : string) : bool :=
  match s with
  | EmptyString => true
  | String c s' => (nat_of_ascii c <? 128)%nat && ascii_name s'
  end.

(** A character [str.isdigit()] accepts, among the ASCII characters. *)
Definition is_digit (c : ascii) : bool :=
  let n := Z.of_nat (nat_of_ascii c) in (48 <=? n) && (n <=? 57).

(** [s.split(".")[0]]: the characters before the first dot. *)
Fixpoint stem (s : string) : string :=
  match s with
  | EmptyString => EmptyString
  | String c s' => if Ascii.eqb c "."%char then EmptyString else String c (stem s')
  end.

Fixpoint all_digits (s : string) : bool :=
  match s with
  | EmptyString => true
  | String c s' => is_digit c && all_digits s'
  end.

(** [s.isdigit()], for an ASCII string [s]. *)
Definition isdigit (s : string) : bool :=
  negb (String.eqb s EmptyString) && all_digits s.

Fixpoint int_of_digits (acc : Z) (s : string) : Z :=
  match s with
  | EmptyString => acc
  | String c s' => int_of_digits (10 * acc + (Z.of_nat (nat_of_ascii c) - 48)) s'
  end.

Definition endswith (s suffix : string) : bool :=
  let n := String.length s in
  let m := String.length suffix in
  Nat.leb m n && String.eqb (substring (n - m) m s) suffix.

(** A dictionary with integer keys; the first binding of a key is the
    current one. *)
Definition dict : Type := list (Z * string).

Definition dict_set (d : dict) (k : Z) (v : string) : dict :=
  (k, v) :: filter (fun p => negb (fst p =? k)) d.

Definition dict_in (k : Z) (d : dict) : bool :=
  existsb (fun p => fst p =? k) d.

Definition dict_get (d : dict) (k : Z) : result string :=
  match find (fun p => fst p =? k) d with
  | Some (_, v) => Ok v
  | None => Raise KeyError
  end.

Definition keys (d : dict) : list Z := map fst d.

(** The built-in [min] and [max] of a sequence; [ValueError] when it is
    empty. *)
Definition min_of (l : list Z) : result Z :=
  match l with
  | [] => Raise ValueError
  | v :: vs => Ok (fold_left Z.min vs v)
  end.

Definition max_of (l : list Z) : result Z :=
  match l with
  | [] => Raise ValueError
  | v :: vs => Ok (fold_left Z.max vs v)
  end.

Definition scan_tiffdir (listdir : list string) : dict :=
  fold_left
    (fun imgfiles imgfile =>
       if endswith imgfile ".tif" && isdigit (stem imgfile)
       then dict_set imgfiles (int_of_digits 0 (stem imgfile)) imgfile
       else imgfiles)
    listdir [].

(** [np.arange(start, stop, step=step)] on integers; a [step] of [None]
    is 1, a [step] of 0 raises. *)
Definition arange (start stop : Z) (step : option Z) : result (list Z) :=
  let step := match step with None => 1 | Some s => s end in
  if step =? 0 then Raise ZeroDivisionError
  else
    let len := Z.max 0 (- ((start - stop) / step)) in
    Ok (map (fun i => start + i * step) (range 0 len)).

(** The first [z] of [zrange] that is not a key of [imgfiles]:
    [for z in zrange: if z not in imgfiles: raise ...]. *)
Definition first_missing (imgfiles : dict) (zrange : list Z) : option Z :=
  find (fun z => negb (dict_in z imgfiles)) zrange.

(** [enumerate(l)] *)
Definition enumerate {A} (l : list A) : list (Z * A) :=
  combine (range 0 (Z.of_nat (List.length l))) l.

(** [a[:, :, z] = img_data] on a stored array: plane [z] is replaced.
    The planes of a stack are taken to have the shape of the array (the
    store's check of the shapes is not modelled). *)
Fixpoint set_nth {A} (n : nat) (v : A) (l : list A) : list A :=
  match n, l with
  | _, [] => []
  | O, _ :: l' => v :: l'
  | S n', x :: l' => x :: set_nth n' v l'
  end.

Definition write_plane (root : zgroup) (name : array_name) (z : Z)
    (data : list Z) : zgroup :=
  match get_array root name with
  | None => root
  | Some a =>
      set_array root name
        (mkZarray (za_shape a) (za_chunks a) (za_dtype a) (za_fill_value a)
                  (set_nth (Z.to_nat z) data (za_planes a)))
  end.

(** [a[:, :, z]] of a stored array. *)
Definition read_plane (a : zarray) (z : Z) : ndarray dtype :=
  mkArray (za_dtype a) (nth 0 (za_shape a) 0, nth 1 (za_shape a) 0)
          (nth (Z.to_nat z) (za_planes a) []).

(** [np.arange(n)[::step]] for a positive [step]. *)
Definition strided (n step : Z) : list Z :=
  map (fun i => i * step) (range 0 ((n + step - 1) / step)).

Section VolumeBuild.

(** [tifffile.imread(path)]: the decode layer. *)
Variable imread : string -> ndarray int_dtype.

(** [skimage.transform.rescale], as for the image builder. *)
Variable rescale : ndarray dtype -> Z -> bool -> (Z * Z) * list Z.

(** The loop [for z_index, img_index in enumerate(zrange)] that loads
    the slices.  The state is the group, the flag [init] and the
    [img_data] of the last iteration. *)
Fixpoint load_slices (imgfiles : dict) (xlims ylims : lims)
    (chunk_size : Z * Z * Z) (len_zrange : Z) (items : list (Z * Z))
    (root : zgroup) (init : bool) (img_data : option (ndarray int_dtype))
    : zgroup * option (ndarray int_dtype) * option exn :=
  match items with
  | [] => (root, img_data, None)
  | (z_index, img_index) :: rest =>
      match dict_get imgfiles img_index with
      | Raise e => (root, img_data, Some e)
      | Ok imgfile =>
          let img_data := getitem2 (imread imgfile) xlims ylims in
          let root :=
            if init
            then root_zeros root (Named "volume")
                   (fst (nd_shape img_data), snd (nd_shape img_data), len_zrange)
                   chunk_size (Some (Int (nd_dtype img_data)))
            else root in
          let root := write_plane root (Named "volume") z_index (nd_data img_data) in
          load_slices imgfiles xlims ylims chunk_size len_zrange rest
                      root false (Some img_data)
      end
  end.

(** The inner loop [for new_zindex, old_zindex in enumerate(ds_zrange)]
    of one scale.  [root.zeros] is called without a [dtype]. *)
Fixpoint downsample_planes (scale : Z) (chunk_size : Z * Z * Z)
    (len_ds_zrange : Z) (items : list (Z * Z)) (root : zgroup) (init : bool)
    : zgroup :=
  match items with
  | [] => root
  | (new_zindex, old_zindex) :: rest =>
      match get_array root (Named "volume") with
      | None => root
      | Some volume =>
          let img_data := read_plane volume old_zindex in
          let r := rescale img_data scale true in
          let resized_img :=
            astype (nd_dtype img_data) (mkArray float64 (fst r) (snd r)) in
          let root :=
            if init
            then root_zeros root (Downsampled "volume" scale)
                   (fst (nd_shape resized_img), snd (nd_shape resized_img),
                    len_ds_zrange)
                   chunk_size None
            else root in
          let root :=
            write_plane root (Downsampled "volume" scale) new_zindex
                        (nd_data resized_img) in
          downsample_planes scale chunk_size len_ds_zrange rest root false
      end
  end.

(** One iteration of [for scale in range(1, scale_levels + 1)]. *)
Definition add_downsampled_volume (chunk_size : Z * Z * Z) (len_zrange : Z)
    (root : zgroup) (scale : Z) : zgroup :=
  let ds_zrange := strided len_zrange (2 ^ scale) in
  downsample_planes scale chunk_size (Z.of_nat (List.length ds_zrange))
                    (enumerate ds_zrange) root true.

(** The requested depth indices.  With [zlims] given the source calls
    [range(zstart, zstop, step=zstride)]; the built-in [range] takes no
    keyword arguments, so that call raises [TypeError]. *)
Definition zrange_of (imgfiles : dict) (zlims : lims) (zstride : option Z)
    : result (list Z) :=
  match zlims with
  | None =>
      lo <- min_of (keys imgfiles) ;;
      hi <- max_of (keys imgfiles) ;;
      arange lo (hi + 1) zstride
  | Some (zstart, zstop) =>
      let zstart := match zstart with None => 0 | Some z => z end in
      zstop <- match zstop with
               | None => hi <- max_of (keys imgfiles) ;; Ok (hi + 1)
               | Some z => Ok z
               end ;;
      Raise TypeError
  end.

(** [PapyrusVolume.build_from_tiffdir(tiffdirpath, zarrpath, chunk_size,
    multiscale, xlims, ylims, zlims, zstride)].  [zarr_path] is what
    [zarrpath] holds before the call and [listdir] the names in
    [tiffdirpath]. *)
Definition build_from_tiffdir (zarr_path : option zgroup)
    (listdir : list string) (chunk_size : option (Z * Z * Z))
    (multiscale : bool) (xlims ylims zlims : lims) (zstride : option Z)
    : outcome :=
  let chunk_size :=
    match chunk_size with
    | None => (CHUNK_SIZE, CHUNK_SIZE, 1)
    | Some c => c
    end in
  match zarr_path with
  | Some _ => mkOutcome zarr_path (Some (PapyrusDataException ZarrPathExists))
  | None =>
      let imgfiles := scan_tiffdir listdir in
      match zrange_of imgfiles zlims zstride with
      | Raise e => mkOutcome None (Some e)
      | Ok zrange =>
          match first_missing imgfiles zrange with
          | Some z => mkOutcome None (Some (PapyrusDataException (MissingImageFile z)))
          | None =>
              let len_zrange := Z.of_nat (List.length zrange) in
              let '(root, img_data, e) :=
                load_slices imgfiles xlims ylims chunk_size len_zrange
                            (enumerate zrange) empty_group true None in
              match e with
              | Some e => mkOutcome (Some root) (Some e)
              | None =>
                  let root := attrs_set root "multiscale" (ABool multiscale) in
                  if multiscale then
                    match img_data with
                    | None => mkOutcome (Some root) (Some UnboundLocalError)
                    | Some img_data =>
                        match compute_scale_levels (nd_shape img_data)
                                (fst (fst chunk_size), snd (fst chunk_size)) with
                        | Raise e => mkOutcome (Some root) (Some e)
                        | Ok scale_levels =>
                            let root :=
                              attrs_set root "scale_levels" (AInt scale_levels) in
                            mkOutcome
                              (Some (fold_left
                                       (add_downsampled_volume chunk_size len_zrange)
                                       (range 1 (scale_levels + 1)) root))
                              None
                        end
                    end
                  else mkOutcome (Some root) None
              end
          end
      end
  end.

End VolumeBuild.

(** ** Predicates used in the statements *)

(** The level the spec describes for a dominant span [size]: the first
    level, counting from 0 and not beyond [scale_levels], at which the
    span halved that many times no longer exceeds a quarter chunk. *)
Definition selected_level (scale_levels size level : Z) : Prop :=
  0 <= level <= scale_levels
  /\ (forall j, 0 <= j < level -> size / 2 ^ j > CHUNK_SIZE / 4)
  /\ (level < scale_levels -> size / 2 ^ level <= CHUNK_SIZE / 4).

(** The selectors of a resolved range request: both bounds divided by
    [2^level], absent bounds kept. *)
Definition rebased (start stop : option Z) (level : Z) : selector :=
  SSlice (option_floordiv start (2 ^ level)) (option_floordiv stop (2 ^ level)) None.

(** The span of a range on an axis of the given extent:
    stop-or-extent minus start-or-zero. *)
Definition span (start stop : option Z) (extent : Z) : Z :=
  match stop with Some s => s | None => extent end
  - match start with Some s => s | None => 0 end.

(** A selector of the request domain: an integer or a range without step. *)
Definition scalar_or_range (s : selector) : bool :=
  match s with
  | SInt _ | SSlice _ _ None => true
  | _ => false
  end.

Definition is_slice (s : selector) : bool :=
  match s with
  | SSlice _ _ _ => true
  | _ => false
  end.

Definition has_step (s : selector) : bool :=
  match s with
  | SSlice _ _ (Some _) => true
  | _ => false
  end.

Definition is_downsampled_name (base : string) (n : array_name) : bool :=
  match n with
  | Downsampled b _ => String.eqb b base
  | Named _ => false
  end.

(** [a / b <= 2^k] for positive integers [a] and [b], without leaving
    the integers. *)
Definition ratio_le_pow2 (a b k : Z) : Prop :=
  if 0 <=? k then a <= b * 2 ^ k else a * 2 ^ (- k) <= b.

(** The spec's formula,
    [min(10, ceil(log2(max_d(level0.shape[d] / chunk_size[d]))))]:
    the logarithm is taken once, of the larger of the two quotients
    (compared by cross-multiplication). *)
Definition spec_scale_levels (shape chunk_size : Z * Z) : result Z :=
  let '(s0, s1) := shape in
  let '(c0, c1) := chunk_size in
  l <- (if s1 * c0 <=? s0 * c1 then ceil_log2_div s0 c0 else ceil_log2_div s1 c1) ;;
  k <- int_of_fval l ;;
  Ok (Z.min 10 k).

(** ** Concrete collaborators for the worked examples *)

(** A resample provider: nearest-neighbour decimation by [2^scale]. *)
Definition decimate (img : ndarray dtype) (scale : Z) (anti_aliasing : bool)
    : (Z * Z) * list Z :=
  let '(h, w) := nd_shape img in
  let f := 2 ^ scale in
  (((h + f - 1) / f, (w + f - 1) / f),
   flat_map (fun r => map (fun c => nth (Z.to_nat (r * w + c)) (nd_data img) 0)
                          (strided w f))
            (strided h f)).

(** A decode layer: every file decodes to the same 4 x 4 [uint16] plane. *)
Definition constant_plane (path : string) : ndarray int_dtype :=
  mkArray uint16 (4, 4) (repeat 300 16).

(** The decimal name [f"{n}.tif"] of a slice, for [0 <= n < 100]. *)
Definition digit (d : Z) : ascii := ascii_of_nat (Z.to_nat (48 + d)).

Definition tif_name (n : Z) : string :=
  if n <? 10 then String (digit n) ".tif"
  else String (digit (n / 10)) (String (digit (n mod 10)) ".tif").

(** A directory holding the slices [0 .. 99] except [57]. *)
Definition stack_without_57 : list string :=
  map tif_name (filter (fun n => negb (n =? 57)) (range 0 100)).

(** The chunk shape [build_from_image] works with:
    [(CHUNK_SIZE, CHUNK_SIZE)] when [chunk_size] is [None]. *)
Definition image_chunks (chunk_size : option (Z * Z)) : Z * Z :=
  match chunk_size with None => (CHUNK_SIZE, CHUNK_SIZE) | Some c => c end.

(** [d] holds both [lo] and [hi], and no dtype that holds both is
    narrower. *)
Definition narrowest_for (d : dtype) (lo hi : Z) : Prop :=
  represents d lo /\ represents d hi
  /\ forall d', represents d' lo -> represents d' hi -> itemsize d <= itemsize d'.

Definition is_unsigned (d : dtype) : bool :=
  match d with
  | Int (uint8 | uint16 | uint32 | uint64) => true
  | _ => false
  end.

(** Every downsampled volume level of the group is stored as [float64]. *)
Definition downsampled_float64 (root : zgroup) : Prop :=
  forall scale a,
    get_array root (Downsampled "volume" scale) = Some a -> za_dtype a = float64.

(** The spec's formula read over the real numbers: [k] is
    [min(10, m)] where [m] is the ceiling of the base-2 logarithm of the
    larger of the quotients [shape[d] / chunk_size[d]]. *)
Definition is_min10_ceil_log2_max (shape chunk_size : Z * Z) (k : Z) : Prop :=
  exists m,
    k = Z.min 10 m
    /\ (IZR m - 1
        < Rlog 2 (Rmax (IZR (fst shape) / IZR (fst chunk_size))
                       (IZR (snd shape) / IZR (snd chunk_size)))
        <= IZR m)%R.

(** The chunk shape [build_from_tiffdir] works with:
    [(CHUNK_SIZE, CHUNK_SIZE, 1)] when [chunk_size] is [None]. *)
Definition volume_chunks (chunk_size : option (Z * Z * Z)) : Z * Z * Z :=
  match chunk_size with None => (CHUNK_SIZE, CHUNK_SIZE, 1) | Some c => c end.

(** * The rest of the package *)

From Stdlib Require Import Permutation.

(** ** utils.py: [Timer]

    The clock is the caller's: [start] and [stop] take the value
    [time.time()] returns at the call.  [time] and its subtraction are
    parameters, so nothing is assumed about floating point.  Standard
    output is the list of lines printed, a line [text.format(elapsed)]
    being kept as the pair of [text] and [elapsed]. *)
Module Timer.
Section Clock.

Variable time : Type.
Variable sub : time -> time -> time.

Inductive TimerError : Type :=
| AlreadyRunning      (* "Timer is already running.  Use .stop() to stop it." *)
| NotRunning.         (* "Timer is not running.  Use .start() to start it." *)

Record timer : Type := mkTimer {
  text : string;
  logger : bool;                  (* [self.logger is not None] *)
  _start_time : option time
}.

(** [Timer.__init__(self, text=None)] *)
Definition init (text : option string) : timer :=
  mkTimer (match text with
           | Some t => (t ++ ": {:0.4f} seconds")%string
           | None => "Elapsed time: {:0.4f} seconds"%string
           end)
          true None.

(** [Timer.start(self)] *)
Definition start (now : time) (self : timer) : TimerError + timer :=
  match _start_time self with
  | Some _ => inl AlreadyRunning
  | None => inr (mkTimer (text self) (logger self) (Some now))
  end.

(** [Timer.stop(self)]: the timer, the output and the elapsed time. *)
Definition stop (now : time) (self : timer) (stdout : list (string * time))
    : TimerError + (timer * list (string * time) * time) :=
  match _start_time self with
  | None => inl NotRunning
  | Some started =>
      let elapsed_time := sub now started in
      let self := mkTimer (text self) (logger self) None in
      let stdout :=
        if logger self then stdout ++ [(text self, elapsed_time)] else stdout in
      inr (self, stdout, elapsed_time)
  end.

(** [with self: body]: [__enter__] calls [start], [__exit__] calls [stop]
    whether the body returned or raised, and returns [None], so an
    exception of the body goes on to the caller.  [body] is the block's
    outcome, [t0] and [t1] the clock at entry and at exit. *)
Definition with_block {A E : Type} (self : timer) (t0 t1 : time)
    (body : E + A) (stdout : list (string * time))
    : TimerError + (timer * list (string * time) * (E + A)) :=
  match start t0 self with
  | inl e => inl e
  | inr self =>
      match stop t1 self stdout with
      | inl e => inl e
      | inr (self, stdout, _) => inr (self, stdout, body)
      end
  end.

(** A caller's calls, in order; a call that raises leaves the timer as
    it was (the methods raise before they assign). *)
Inductive call : Type :=
| CallStart (now : time)
| CallStop (now : time).

Definition step (st : timer * list (string * time)) (c : call)
    : timer * list (string * time) :=
  match c with
  | CallStart now =>
      match start now (fst st) with
      | inl _ => st
      | inr self => (self, snd st)
      end
  | CallStop now =>
      match stop now (fst st) (snd st) with
      | inl _ => st
      | inr (self, stdout, _) => (self, stdout)
      end
  end.

Definition run (calls : list call) (st : timer * list (string * time))
    : timer * list (string * time) :=
  fold_left step calls st.

End Clock.

Arguments mkTimer {time} text logger _start_time.
Arguments text {time} t.
Arguments logger {time} t.
Arguments _start_time {time} t.
Arguments start {time} now self.
Arguments stop {time} sub now self stdout.
Arguments with_block {time} sub {A E} self t0 t1 body stdout.
Arguments CallStart {time} now.
Arguments CallStop {time} now.
Arguments step {time} sub st c.
Arguments run {time} sub calls st.

End Timer.

(** ** utils.py: [get_dir_size]

    What [os.scandir] yields for a directory: regular files with their
    [st_size], directories with their own entries, and entries that are
    neither. *)
#[warnings="-register-all"]
Inductive dir_entry : Type :=
| FileEntry (st_size : Z)
| DirEntry (entries : list dir_entry)
| OtherEntry.

(** What one entry adds to [total] in the loop of [get_dir_size]: the
    size of a file, [get_dir_size(entry.path)] of a directory, nothing
    otherwise. *)
Fixpoint entry_size (entry : dir_entry) : Z :=
  match entry with
  | FileEntry st_size => st_size
  | DirEntry entries => fold_left (fun total e => total + entry_size e) entries 0
  | OtherEntry => 0
  end.

(** [get_dir_size(path)], [path] given by its entries. *)
Definition get_dir_size (entries : list dir_entry) : Z :=
  fold_left (fun total entry => total + entry_size entry) entries 0.

(** The sizes of the regular files at any depth. *)
Fixpoint file_sizes_of (entry : dir_entry) : list Z :=
  match entry with
  | FileEntry st_size => [st_size]
  | DirEntry entries => flat_map file_sizes_of entries
  | OtherEntry => []
  end.

Definition file_sizes (entries : list dir_entry) : list Z :=
  flat_map file_sizes_of entries.

(** The same directory tree listed in another order, at every depth. *)
Inductive same_tree : list dir_entry -> list dir_entry -> Prop :=
| same_nil : same_tree [] []
| same_skip e l l' : same_tree l l' -> same_tree (e :: l) (e :: l')
| same_sub s s' l l' :
    same_tree s s' -> same_tree l l' -> same_tree (DirEntry s :: l) (DirEntry s' :: l')
| same_swap e e' l : same_tree (e :: e' :: l) (e' :: e :: l)
| same_trans l l' l'' : same_tree l l' -> same_tree l' l'' -> same_tree l l''.

(** ** image.py and volume.py: [__init__] with a source to build from *)
Section Constructors.

Variable imread : string -> ndarray int_dtype.
Variable rescale : ndarray dtype -> Z -> bool -> (Z * Z) * list Z.

(** [PapyrusImage(zarrpath, imagepath, multiscale, xlims, ylims)]:
    what [zarrpath] holds afterwards, and the handle or the exception.
    [imagepath] is [None] or the decoded image. *)
Definition PapyrusImage_init (zarr_path : option zgroup)
    (imagepath : option (ndarray int_dtype)) (multiscale : bool)
    (xlims ylims : lims) : option zgroup * result PapyrusImage.handle :=
  match imagepath with
  | Some img =>
      let out := build_from_image rescale zarr_path img None multiscale xlims ylims in
      match raised out with
      | Some e => (dest out, Raise e)
      | None => (dest out, ImageHandle.init (dest out))
      end
  | None => (zarr_path, ImageHandle.init zarr_path)
  end.

(** [PapyrusVolume(zarrpath, tiffdirpath, multiscale, xlims, ylims, zlims,
    zstride)].  [tiffdirpath] is [None] or the names in the directory;
    [zstride] is accepted and not passed on to the build. *)
Definition PapyrusVolume_init (zarr_path : option zgroup)
    (tiffdirpath : option (list string)) (multiscale : bool)
    (xlims ylims zlims : lims) (zstride : option Z)
    : option zgroup * result PapyrusVolume.handle :=
  match tiffdirpath with
  | Some listdir =>
      let out := build_from_tiffdir imread rescale zarr_path listdir None
                   multiscale xlims ylims zlims None in
      match raised out with
      | Some e => (dest out, Raise e)
      | None => (dest out, VolumeHandle.init (dest out))
      end
  | None => (zarr_path, VolumeHandle.init zarr_path)
  end.

End Constructors.

(** ** Predicates used in the further statements *)

(** The number of indices Python's [slice(lo, hi, None)] selects on an
    axis of length [n]. *)
Definition slice_length (n : Z) (lo hi : option Z) : Z :=
  let '(start, stop) := slice_indices n (Some (lo, hi)) in stop - start.

(** [name] is level 0 or a downsampled level from 1 to [scale_levels] of
    the arrays called [base]. *)
Definition level_of_store (base : string) (scale_levels : Z) (name : array_name)
    : Prop :=
  name = Named base
  \/ exists k, 1 <= k <= scale_levels /\ name = Downsampled base k.

(** The elements of an integer array lie in the range of its dtype. *)
Definition array_wf (a : ndarray int_dtype) : Prop :=
  Forall (represents (Int (nd_dtype a))) (nd_data a).

(** A name of the directory listing that [scan_tiffdir] keeps under the
    key [k]. *)
Definition names_slice (f : string) (k : Z) : Prop :=
  endswith f ".tif" = true /\ isdigit (stem f) = true
  /\ int_of_digits 0 (stem f) = k.

Definition is_start {time} (c : Timer.call time) : bool :=
  match c with Timer.CallStart _ => true | Timer.CallStop _ => false end.

Definition is_stop {time} (c : Timer.call time) : bool :=
  match c with Timer.CallStart _ => false | Timer.CallStop _ => true end.

Definition running {time} (self : Timer.timer time) : bool :=
  match Timer._start_time self with Some _ => true | None => false end.

(** What holds of a timer with text [text0] and of the output after the
    calls [calls]. *)
Definition timer_invariant {time} (sub : time -> time -> time) (text0 : string)
    (calls : list (Timer.call time))
    (st : Timer.timer time * list (string * time)) : Prop :=
  Timer.text (fst st) = text0
  /\ Timer.logger (fst st) = true
  /\ (List.length (snd st) <= List.length (filter is_stop calls))%nat
  /\ (List.length (snd st) + (if running (fst st) then 1 else 0)
      <= List.length (filter is_start calls))%nat
  /\ (forall t0, Timer._start_time (fst st) = Some t0 ->
        In (Timer.CallStart t0) calls)
  /\ Forall (fun line =>
               fst line = text0
               /\ exists t0 t1,
                    In (Timer.CallStart t0) calls /\ In (Timer.CallStop t1) calls
                    /\ snd line = sub t1 t0)
            (snd st).

Definition Zsum (l : list Z) : Z := fold_right Z.add 0 l.

(** [a] is level [s] of a volume of depth [len] whose level 0 is
    [volume]: a [float64] array of every [2^s]-th plane of level 0,
    each resampled by [1 / 2 ** s] with anti-aliasing. *)
Definition level_of_volume
    (rescale : ndarray dtype -> Z -> bool -> (Z * Z) * list Z)
    (volume : zarray) (len s : Z) (a : zarray) : Prop :=
  let depth := (len + 2 ^ s - 1) / 2 ^ s in
  za_dtype a = float64
  /\ za_shape a = [fst (fst (rescale (read_plane volume 0) s true));
                   snd (fst (rescale (read_plane volume 0) s true));
                   depth]
  /\ List.length (za_planes a) = Z.to_nat depth
  /\ forall j, 0 <= j < depth ->
       nth (Z.to_nat j) (za_planes a) []
       = snd (rescale (read_plane volume (j * 2 ^ s)) s true).

Ltac eval_common_type :=
  match goal with
  | |- context [find_common_type ?a ?b] =>
      let r := eval vm_compute in (find_common_type a b) in
      change (find_common_type a b) with r
  end.

(** * Properties *)

(** ** Worked examples *)

Example lod_loop_ex : lod_loop 2 0 4000 = (2, 1000).
Proof. reflexivity. Qed.

Example image_scenario_B :
  PapyrusImage.getitem (PapyrusImage.mkHandle true (4096, 4096) 2)
    [SSlice (Some 0) (Some 4000) None; SSlice (Some 0) (Some 4000) None]
  = Ok (mkRead (Downsampled "image" 2)
          [SSlice (Some 0) (Some 1000) None; SSlice (Some 0) (Some 1000) None]).
Proof. reflexivity. Qed.

Example getitem2_ex :
  getitem2 (mkArray uint8 (2, 3) [1; 2; 3; 4; 5; 6]) (Some (Some 1, None)) (Some (None, Some (-1)))
  = mkArray uint8 (1, 2) [4; 5].
Proof. reflexivity. Qed.

Example scenario_A : compute_scale_levels (4096, 4096) (1024, 1024) = Ok 2.
Proof. reflexivity. Qed.

Example small_image : compute_scale_levels (512, 512) (1024, 1024) = Ok (-1).
Proof. reflexivity. Qed.

Example small_image2 : compute_scale_levels (1000, 100) (1024, 1024) = Ok 0.
Proof. reflexivity. Qed.

Example mid_image : compute_scale_levels (1025, 100) (1024, 1024) = Ok 1.
Proof. reflexivity. Qed.

Example scan_tiffdir_ex :
  scan_tiffdir
    ["12.tif"; "notes.txt"; "7.tif"; "a3.tif"; "012.x.tif"; "5.tiff"]%string
  = [(12, "012.x.tif"); (7, "7.tif")]%string.
Proof. reflexivity. Qed.

Example stack_without_57_keys :
  first_missing (scan_tiffdir stack_without_57) (range 0 100) = Some 57.
Proof. reflexivity. Qed.

Example arange_ex : arange 3 11 (Some 3) = Ok [3; 6; 9].
Proof. reflexivity. Qed.

(** ** The level-selection loop *)

Lemma lod_loop_eq scale_levels scale scale_size :
  lod_loop scale_levels scale scale_size =
  if (scale <? scale_levels) && (scale_size >? CHUNK_SIZE / 4)
  then lod_loop scale_levels (scale + 1) (scale_size / 2)
  else (scale, scale_size).
Proof.
  rewrite lod_loop_equation_1. unfold lod_loop_unfold_clause_1.
  destruct (Sumbool.sumbool_of_bool _) as [e|e]; rewrite e; reflexivity.
Qed.

Lemma halve_pow2 (size k : Z) : 0 <= k -> size / 2 / 2 ^ k = size / 2 ^ (k + 1).
Proof.
  intros Hk. rewrite Z.pow_add_r by lia. rewrite Z.pow_1_r.
  rewrite (Z.mul_comm (2 ^ k) 2).
  apply Z.div_div; [lia | apply Z.pow_pos_nonneg; lia].
Qed.

(** What the loop computes from a state [(scale, size)]: the level it
    stops at, the halved size, that every level it passed had a size
    above the quarter chunk, and that it stopped below [scale_levels]
    only on a size within the quarter chunk. *)
Lemma lod_loop_level (n : nat) :
  forall scale_levels scale size,
    Z.to_nat (scale_levels - scale) = n -> scale <= scale_levels ->
    let r := lod_loop scale_levels scale size in
    scale <= fst r <= scale_levels
    /\ snd r = size / 2 ^ (fst r - scale)
    /\ (forall j, scale <= j < fst r -> size / 2 ^ (j - scale) > CHUNK_SIZE / 4)
    /\ (fst r < scale_levels -> snd r <= CHUNK_SIZE / 4).
Proof.
  induction n as [|n IH]; intros sl s size Hn Hle; cbv zeta;
    rewrite lod_loop_eq.
  - assert (s = sl) by lia. subst s. rewrite Z.ltb_irrefl. cbn [andb fst snd].
    rewrite Z.sub_diag, Z.pow_0_r, Z.div_1_r.
    split; [lia | split; [reflexivity | split; intros; lia]].
  - destruct (s <? sl) eqn:Hlt; cbn [andb].
    2:{ apply Z.ltb_ge in Hlt. lia. }
    apply Z.ltb_lt in Hlt.
    destruct (size >? CHUNK_SIZE / 4) eqn:Hgt.
    + specialize (IH sl (s + 1) (size / 2)). cbv zeta in IH.
      destruct IH as (Hr & Hs & Hj & Hstop); [lia | lia |].
      set (r := lod_loop sl (s + 1) (size / 2)) in *.
      split; [lia | split; [| split; [| exact Hstop]]].
      * rewrite Hs, halve_pow2 by lia. f_equal. f_equal. lia.
      * intros j Hjr. destruct (Z.eq_dec j s) as [->|Hne].
        -- rewrite Z.sub_diag, Z.pow_0_r, Z.div_1_r.
           apply Z.gtb_lt in Hgt. lia.
        -- specialize (Hj j ltac:(lia)).
           rewrite halve_pow2 in Hj by lia.
           replace (j - (s + 1) + 1) with (j - s) in Hj by lia. exact Hj.
    + cbn [fst snd]. rewrite Z.sub_diag, Z.pow_0_r, Z.div_1_r.
      split; [lia | split; [reflexivity | split; [intros j Hjr; lia |]]].
      intros _. rewrite Z.gtb_ltb in Hgt. apply Z.ltb_ge in Hgt. exact Hgt.
Qed.

Lemma lod_loop_selected (scale_levels size : Z) :
  0 <= scale_levels ->
  selected_level scale_levels size (fst (lod_loop scale_levels 0 size)).
Proof.
  intros H.
  destruct (lod_loop_level (Z.to_nat (scale_levels - 0)) scale_levels 0 size
              eq_refl H) as (Hr & Hs & Hj & Hstop).
  rewrite Z.sub_0_r in Hs. split; [lia | split].
  - intros j Hjr. specialize (Hj j Hjr). rewrite Z.sub_0_r in Hj. exact Hj.
  - intros Hlt. rewrite <- Hs. auto.
Qed.

Lemma selected_level_unique (scale_levels size l1 l2 : Z) :
  selected_level scale_levels size l1 ->
  selected_level scale_levels size l2 -> l1 = l2.
Proof.
  intros (H1 & Hj1 & Hs1) (H2 & Hj2 & Hs2).
  destruct (Z.lt_trichotomy l1 l2) as [Hlt|[Heq|Hgt]]; [|exact Heq|].
  - specialize (Hj2 l1 ltac:(lia)). specialize (Hs1 ltac:(lia)). lia.
  - specialize (Hj1 l2 ltac:(lia)). specialize (Hs2 ltac:(lia)). lia.
Qed.

(** The loop only halves sizes above the quarter chunk, which are
    positive, so rounding down and rounding toward zero coincide. *)
Lemma halving_rounds_toward_zero (scale_levels size level j : Z) :
  selected_level scale_levels size level -> 0 <= j < level ->
  size / 2 ^ j / 2 = Z.quot (size / 2 ^ j) 2.
Proof.
  intros (_ & Hj & _) Hjl. specialize (Hj j Hjl).
  change (CHUNK_SIZE / 4) with 256 in Hj.
  symmetry. apply Z.quot_div_nonneg; lia.
Qed.

Lemma get_slice_size_span start stop extent :
  get_slice_size (SSlice start stop None) extent = Ok (span start stop extent).
Proof. reflexivity. Qed.

Lemma option_floordiv_1 (b : option Z) : option_floordiv b 1 = b.
Proof. destruct b; cbn; [rewrite Z.div_1_r|]; reflexivity. Qed.

Lemma downsample_slice_range start stop level :
  downsample_slice (SSlice start stop None) level = Ok (rebased start stop level).
Proof.
  unfold downsample_slice, rebased. destruct (level =? 0) eqn:E; [|reflexivity].
  apply Z.eqb_eq in E. subst. rewrite Z.pow_0_r, !option_floordiv_1. reflexivity.
Qed.

(** ** Implicit-level range requests *)

(** C2.  An implicit-level request made of ranges (two for an image,
    three for a volume) on a handle with [0 <= scale_levels] is read from
    the level the loop selects for its dominant span: the first level,
    from 0 up to [scale_levels], at which the span halved by integer
    division no longer strictly exceeds [CHUNK_SIZE // 4]; both bounds of
    every range are divided by [2^level].  A span equal to the quarter
    chunk stops the loop, one above it does not.  With chunk size 1024 and
    [scale_levels = 2], [(slice(0,4000), slice(0,4000))] is read from
    level 2 as [(slice(0,1000), slice(0,1000))]. *)
Theorem implicit_range_request_level
    (img : PapyrusImage.handle) (vol : PapyrusVolume.handle)
    (x0 x1 y0 y1 z0 z1 : option Z)
    (Himg : 0 <= PapyrusImage.scale_levels img)
    (Hvol : 0 <= PapyrusVolume.scale_levels vol) :
  (exists level,
      selected_level (PapyrusImage.scale_levels img)
        (Z.max (span x0 x1 (fst (PapyrusImage.shape img)))
               (span y0 y1 (snd (PapyrusImage.shape img)))) level
      /\ PapyrusImage.getitem img [SSlice x0 x1 None; SSlice y0 y1 None]
         = Ok (mkRead (PapyrusImage.subimage level)
                 [rebased x0 x1 level; rebased y0 y1 level]))
  /\ (exists level,
      selected_level (PapyrusVolume.scale_levels vol)
        (Z.max (Z.max (span x0 x1 (fst (fst (PapyrusVolume.shape vol))))
                      (span y0 y1 (snd (fst (PapyrusVolume.shape vol)))))
               (span z0 z1 (snd (PapyrusVolume.shape vol)))) level
      /\ PapyrusVolume.getitem vol
           [SSlice x0 x1 None; SSlice y0 y1 None; SSlice z0 z1 None]
         = Ok (mkRead (PapyrusVolume.subimage level)
                 [rebased x0 x1 level; rebased y0 y1 level; rebased z0 z1 level]))
  /\ (forall scale_levels scale,
        lod_loop scale_levels scale (CHUNK_SIZE / 4) = (scale, CHUNK_SIZE / 4))
  /\ (forall scale_levels scale, scale < scale_levels ->
        fst (lod_loop scale_levels scale (CHUNK_SIZE / 4 + 1)) = scale + 1)
  /\ PapyrusImage.getitem (PapyrusImage.mkHandle true (4096, 4096) 2)
       [SSlice (Some 0) (Some 4000) None; SSlice (Some 0) (Some 4000) None]
     = Ok (mkRead (Downsampled "image" 2)
             [SSlice (Some 0) (Some 1000) None; SSlice (Some 0) (Some 1000) None]).
Proof.
  split; [| split; [| split; [| split]]].
  - set (size := Z.max _ _).
    pose proof (lod_loop_selected (PapyrusImage.scale_levels img) size Himg) as Hsel.
    exists (fst (lod_loop (PapyrusImage.scale_levels img) 0 size)).
    split; [exact Hsel |].
    destruct Hsel as ((Hlo & Hhi) & _).
    unfold PapyrusImage.getitem. cbn [isinstance_int orb].
    rewrite !get_slice_size_span. cbn [bind]. fold size.
    unfold PapyrusImage.getitem_at.
    destruct (_ <? 0) eqn:E1; [apply Z.ltb_lt in E1; lia |].
    destruct (_ >? _) eqn:E2; [apply Z.gtb_lt in E2; lia |].
    rewrite !downsample_slice_range. reflexivity.
  - set (size := Z.max _ _).
    pose proof (lod_loop_selected (PapyrusVolume.scale_levels vol) size Hvol) as Hsel.
    exists (fst (lod_loop (PapyrusVolume.scale_levels vol) 0 size)).
    split; [exact Hsel |].
    destruct Hsel as ((Hlo & Hhi) & _).
    unfold PapyrusVolume.getitem. cbn [isinstance_int orb].
    rewrite !get_slice_size_span. cbn [bind]. fold size.
    unfold PapyrusVolume.getitem_at.
    destruct (_ <? 0) eqn:E1; [apply Z.ltb_lt in E1; lia |].
    destruct (_ >? _) eqn:E2; [apply Z.gtb_lt in E2; lia |].
    rewrite !downsample_slice_range. reflexivity.
  - intros sl s. rewrite lod_loop_eq.
    change (CHUNK_SIZE / 4 >? CHUNK_SIZE / 4) with false.
    rewrite andb_false_r. reflexivity.
  - intros sl s Hlt. rewrite lod_loop_eq.
    change (CHUNK_SIZE / 4 + 1 >? CHUNK_SIZE / 4) with true.
    apply Z.ltb_lt in Hlt. rewrite Hlt. cbn [andb].
    rewrite lod_loop_eq.
    change ((CHUNK_SIZE / 4 + 1) / 2 >? CHUNK_SIZE / 4) with false.
    rewrite andb_false_r. reflexivity.
  - reflexivity.
Qed.

Lemma implicit_range_request_level_witness :
  0 <= 2 /\ 0 <= 3
  /\ exists level,
      selected_level 2 (Z.max (span (Some 0) (Some 4000) 4096)
                              (span None None 4096)) level
      /\ PapyrusImage.getitem (PapyrusImage.mkHandle true (4096, 4096) 2)
           [SSlice (Some 0) (Some 4000) None; SSlice None None None]
         = Ok (mkRead (PapyrusImage.subimage level)
                 [rebased (Some 0) (Some 4000) level; rebased None None level]).
Proof.
  split; [lia | split; [lia |]].
  apply (implicit_range_request_level
           (PapyrusImage.mkHandle true (4096, 4096) 2)
           (PapyrusVolume.mkHandle true (4096, 4096, 64) 3)
           (Some 0) (Some 4000) None None None None);
    cbn; lia.
Defined.

(** ** Implicit-level requests with a scalar *)

(** C7.  An implicit-level request (two selectors for an image, three for
    a volume) in which some selector is an integer is read from level 0
    with the key as given, whatever [scale_levels] is; the same region
    asked for with ranges only can resolve to a coarser level. *)
Theorem implicit_scalar_request_reads_level0
    (img : PapyrusImage.handle) (vol : PapyrusVolume.handle)
    (x y u v w : selector)
    (Hxy : isinstance_int x || isinstance_int y = true)
    (Huvw : isinstance_int u || isinstance_int v || isinstance_int w = true) :
  PapyrusImage.getitem img [x; y] = Ok (mkRead (Named "image") [x; y])
  /\ PapyrusVolume.getitem vol [u; v; w] = Ok (mkRead (Named "volume") [u; v; w])
  /\ PapyrusImage.getitem (PapyrusImage.mkHandle true (4096, 4096) 2)
       [SSlice (Some 0) (Some 4000) None; SInt 7]
     = Ok (mkRead (Named "image") [SSlice (Some 0) (Some 4000) None; SInt 7])
  /\ PapyrusImage.getitem (PapyrusImage.mkHandle true (4096, 4096) 2)
       [SSlice (Some 0) (Some 4000) None; SSlice (Some 7) (Some 8) None]
     = Ok (mkRead (Downsampled "image" 2)
             [SSlice (Some 0) (Some 1000) None; SSlice (Some 1) (Some 2) None]).
Proof.
  split; [| split; [| split]].
  - unfold PapyrusImage.getitem. rewrite Hxy. reflexivity.
  - unfold PapyrusVolume.getitem. rewrite Huvw. reflexivity.
  - reflexivity.
  - reflexivity.
Qed.

Lemma implicit_scalar_request_reads_level0_witness :
  PapyrusImage.getitem (PapyrusImage.mkHandle true (4096, 4096) 5)
    [SInt 12; SSlice None (Some 3000) (Some 2)]
  = Ok (mkRead (Named "image") [SInt 12; SSlice None (Some 3000) (Some 2)]).
Proof.
  apply (implicit_scalar_request_reads_level0
           (PapyrusImage.mkHandle true (4096, 4096) 5)
           (PapyrusVolume.mkHandle true (4096, 4096, 64) 5)
           (SInt 12) (SSlice None (Some 3000) (Some 2))
           (SSlice None None None) (SSlice (Some 5) None None) (SInt 3));
    reflexivity.
Defined.

(** ** Explicit-level requests *)

Lemma downsample_slice_scalar_or_range (s : selector) (level : Z) :
  scalar_or_range s = true -> exists s', downsample_slice s level = Ok s'.
Proof.
  intros H. unfold downsample_slice.
  destruct (level =? 0); [eexists; reflexivity |].
  destruct s as [i | start stop [step|] | | b]; try discriminate; eexists; reflexivity.
Qed.

Lemma downsample_slice_level0 (s : selector) : downsample_slice s 0 = Ok s.
Proof. reflexivity. Qed.

Lemma downsample_slice_step (s : selector) (level : Z) :
  level <> 0 -> has_step s = true ->
  downsample_slice s level = Raise (PapyrusDataException CannotUseStepSlices).
Proof.
  intros Hl Hs. unfold downsample_slice.
  apply Z.eqb_neq in Hl. rewrite Hl.
  destruct s as [i | start stop [step|] | | b]; try discriminate. reflexivity.
Qed.

(** C8.  In an explicit-level request (three selectors for an image, four
    for a volume) the last selector is checked before anything is
    rebased or read: a level that is not an [int] instance, a negative
    level and a level above [scale_levels] are each refused with their
    own message.  A request at the integer level [scale_levels] (on a
    handle with [0 <= scale_levels], with integers and step-free ranges
    as selectors) passes the checks and is read from that level.
    The code breaks the claim for a level that is a [bool]: it is not
    refused as a non-integer, since [isinstance(True, int)] holds.
    [True] passes the checks as 1 on a handle with [1 <= scale_levels],
    the selectors are rebased by [2 ** True], and the request then
    fails with [AttributeError], the array being looked up under the
    name the f-string gives, "image_downsampledTrue"; the integer 1 on
    the same handle reads level 1.  [False] reads level 0. *)
Theorem explicit_level_validation
    (img : PapyrusImage.handle) (vol : PapyrusVolume.handle)
    (x y z level : selector) (k : Z) :
  (isinstance_int level = false ->
     PapyrusImage.getitem img [x; y; level]
     = Raise (PapyrusDataException LastIndexMustBeInteger)
     /\ PapyrusVolume.getitem vol [x; y; z; level]
        = Raise (PapyrusDataException LastIndexMustBeInteger))
  /\ (k < 0 ->
     PapyrusImage.getitem img [x; y; SInt k]
     = Raise (PapyrusDataException CannotIndexNegative)
     /\ PapyrusVolume.getitem vol [x; y; z; SInt k]
        = Raise (PapyrusDataException CannotIndexNegative))
  /\ (0 <= k -> PapyrusImage.scale_levels img < k ->
     PapyrusImage.getitem img [x; y; SInt k]
     = Raise (PapyrusDataException
                (OnlyNDownsampled (PapyrusImage.scale_levels img))))
  /\ (0 <= k -> PapyrusVolume.scale_levels vol < k ->
     PapyrusVolume.getitem vol [x; y; z; SInt k]
     = Raise (PapyrusDataException
                (OnlyNDownsampled (PapyrusVolume.scale_levels vol))))
  /\ (0 <= PapyrusImage.scale_levels img ->
      scalar_or_range x = true -> scalar_or_range y = true ->
      exists x' y',
        downsample_slice x (PapyrusImage.scale_levels img) = Ok x'
        /\ downsample_slice y (PapyrusImage.scale_levels img) = Ok y'
        /\ PapyrusImage.getitem img [x; y; SInt (PapyrusImage.scale_levels img)]
           = Ok (mkRead (PapyrusImage.subimage (PapyrusImage.scale_levels img))
                   [x'; y']))
  /\ (0 <= PapyrusVolume.scale_levels vol ->
      scalar_or_range x = true -> scalar_or_range y = true ->
      scalar_or_range z = true ->
      exists x' y' z',
        downsample_slice x (PapyrusVolume.scale_levels vol) = Ok x'
        /\ downsample_slice y (PapyrusVolume.scale_levels vol) = Ok y'
        /\ downsample_slice z (PapyrusVolume.scale_levels vol) = Ok z'
        /\ PapyrusVolume.getitem vol [x; y; z; SInt (PapyrusVolume.scale_levels vol)]
           = Ok (mkRead (PapyrusVolume.subimage (PapyrusVolume.scale_levels vol))
                   [x'; y'; z']))
  /\ (1 <= PapyrusImage.scale_levels img ->
      scalar_or_range x = true -> scalar_or_range y = true ->
      isinstance_int (SBool true) = true
      /\ PapyrusImage.getitem img [x; y; SBool true] = Raise AttributeError
      /\ exists rd, PapyrusImage.getitem img [x; y; SInt 1] = Ok rd
                    /\ read_array rd = Downsampled "image" 1)
  /\ (1 <= PapyrusVolume.scale_levels vol ->
      scalar_or_range x = true -> scalar_or_range y = true ->
      scalar_or_range z = true ->
      PapyrusVolume.getitem vol [x; y; z; SBool true] = Raise AttributeError
      /\ exists rd, PapyrusVolume.getitem vol [x; y; z; SInt 1] = Ok rd
                    /\ read_array rd = Downsampled "volume" 1)
  /\ (PapyrusImage.scale_levels img < 1 ->
      PapyrusImage.getitem img [x; y; SBool true]
      = Raise (PapyrusDataException
                 (OnlyNDownsampled (PapyrusImage.scale_levels img))))
  /\ (PapyrusVolume.scale_levels vol < 1 ->
      PapyrusVolume.getitem vol [x; y; z; SBool true]
      = Raise (PapyrusDataException
                 (OnlyNDownsampled (PapyrusVolume.scale_levels vol))))
  /\ (0 <= PapyrusImage.scale_levels img ->
      PapyrusImage.getitem img [x; y; SBool false]
      = Ok (mkRead (Named "image") [x; y]))
  /\ (0 <= PapyrusVolume.scale_levels vol ->
      PapyrusVolume.getitem vol [x; y; z; SBool false]
      = Ok (mkRead (Named "volume") [x; y; z])).
Proof.
  split; [| split; [| split; [| split; [| split; [| split;
    [| split; [| split; [| split; [| split; [| split]]]]]]]]]].
  7:{ intros H1 Hx Hy.
      destruct (downsample_slice_scalar_or_range x 1 Hx) as [x' Ex].
      destruct (downsample_slice_scalar_or_range y 1 Hy) as [y' Ey].
      split; [reflexivity |].
      unfold PapyrusImage.getitem, PapyrusImage.getitem_at. cbn [Z.b2z].
      change (1 <? 0) with false. cbv iota.
      destruct (1 >? _) eqn:G; [apply Z.gtb_lt in G; lia |].
      rewrite Ex, Ey. cbn [bind]. split; [reflexivity |].
      eexists. split; reflexivity. }
  7:{ intros H1 Hx Hy Hz.
      destruct (downsample_slice_scalar_or_range x 1 Hx) as [x' Ex].
      destruct (downsample_slice_scalar_or_range y 1 Hy) as [y' Ey].
      destruct (downsample_slice_scalar_or_range z 1 Hz) as [z' Ez].
      unfold PapyrusVolume.getitem, PapyrusVolume.getitem_at. cbn [Z.b2z].
      change (1 <? 0) with false. cbv iota.
      destruct (1 >? _) eqn:G; [apply Z.gtb_lt in G; lia |].
      rewrite Ex, Ey, Ez. cbn [bind]. split; [reflexivity |].
      eexists. split; reflexivity. }
  7:{ intros H1. unfold PapyrusImage.getitem, PapyrusImage.getitem_at.
      cbn [Z.b2z]. change (1 <? 0) with false. cbv iota.
      destruct (1 >? _) eqn:G; [reflexivity |].
      rewrite Z.gtb_ltb in G. apply Z.ltb_ge in G. lia. }
  7:{ intros H1. unfold PapyrusVolume.getitem, PapyrusVolume.getitem_at.
      cbn [Z.b2z]. change (1 <? 0) with false. cbv iota.
      destruct (1 >? _) eqn:G; [reflexivity |].
      rewrite Z.gtb_ltb in G. apply Z.ltb_ge in G. lia. }
  7:{ intros H0. unfold PapyrusImage.getitem, PapyrusImage.getitem_at.
      cbn [Z.b2z]. change (0 <? 0) with false. cbv iota.
      destruct (0 >? _) eqn:G; [apply Z.gtb_lt in G; lia |]. reflexivity. }
  7:{ intros H0. unfold PapyrusVolume.getitem, PapyrusVolume.getitem_at.
      cbn [Z.b2z]. change (0 <? 0) with false. cbv iota.
      destruct (0 >? _) eqn:G; [apply Z.gtb_lt in G; lia |]. reflexivity. }
  - intros Hl. cbn. destruct level; try discriminate; split; reflexivity.
  - intros Hk. cbn. apply Z.ltb_lt in Hk. rewrite Hk. split; reflexivity.
  - intros H0 Hk. cbn.
    destruct (k <? 0) eqn:E1; [apply Z.ltb_lt in E1; lia |].
    destruct (k >? _) eqn:E2; [reflexivity |].
    rewrite Z.gtb_ltb in E2. apply Z.ltb_ge in E2. lia.
  - intros H0 Hk. cbn.
    destruct (k <? 0) eqn:E1; [apply Z.ltb_lt in E1; lia |].
    destruct (k >? _) eqn:E2; [reflexivity |].
    rewrite Z.gtb_ltb in E2. apply Z.ltb_ge in E2. lia.
  - intros H0 Hx Hy.
    destruct (downsample_slice_scalar_or_range x (PapyrusImage.scale_levels img) Hx)
      as [x' Ex].
    destruct (downsample_slice_scalar_or_range y (PapyrusImage.scale_levels img) Hy)
      as [y' Ey].
    exists x', y'. split; [exact Ex | split; [exact Ey |]].
    unfold PapyrusImage.getitem, PapyrusImage.getitem_at.
    destruct (_ <? 0) eqn:E1; [apply Z.ltb_lt in E1; lia |].
    rewrite Z.gtb_ltb, Z.ltb_irrefl, Ex, Ey. reflexivity.
  - intros H0 Hx Hy Hz.
    destruct (downsample_slice_scalar_or_range x (PapyrusVolume.scale_levels vol) Hx)
      as [x' Ex].
    destruct (downsample_slice_scalar_or_range y (PapyrusVolume.scale_levels vol) Hy)
      as [y' Ey].
    destruct (downsample_slice_scalar_or_range z (PapyrusVolume.scale_levels vol) Hz)
      as [z' Ez].
    exists x', y', z'. split; [exact Ex | split; [exact Ey | split; [exact Ez |]]].
    unfold PapyrusVolume.getitem, PapyrusVolume.getitem_at.
    destruct (_ <? 0) eqn:E1; [apply Z.ltb_lt in E1; lia |].
    rewrite Z.gtb_ltb, Z.ltb_irrefl, Ex, Ey, Ez. reflexivity.
Qed.

Lemma explicit_level_validation_witness :
  PapyrusImage.getitem (PapyrusImage.mkHandle true (4096, 4096) 2)
    [SSlice (Some 0) (Some 4000) None; SInt 9; SInt 3]
  = Raise (PapyrusDataException (OnlyNDownsampled 2))
  /\ PapyrusImage.getitem (PapyrusImage.mkHandle true (4096, 4096) 2)
       [SSlice (Some 0) (Some 4000) None; SInt 9; SBool true]
     = Raise AttributeError
  /\ exists x' y',
      downsample_slice (SSlice (Some 0) (Some 4000) None) 2 = Ok x'
      /\ downsample_slice (SInt 9) 2 = Ok y'
      /\ PapyrusImage.getitem (PapyrusImage.mkHandle true (4096, 4096) 2)
           [SSlice (Some 0) (Some 4000) None; SInt 9; SInt 2]
         = Ok (mkRead (Downsampled "image" 2) [x'; y']).
Proof.
  pose proof (explicit_level_validation
                (PapyrusImage.mkHandle true (4096, 4096) 2)
                (PapyrusVolume.mkHandle true (4096, 4096, 64) 2)
                (SSlice (Some 0) (Some 4000) None) (SInt 9) (SInt 1) SOther 3)
    as (_ & _ & Habove & _ & Hat & _ & Htrue & _).
  split; [| split].
  - apply Habove; cbn; lia.
  - apply Htrue; [cbn; lia | reflexivity | reflexivity].
  - apply Hat; [cbn; lia | reflexivity | reflexivity].
Defined.

(** ** Stepped ranges *)

(** The claim that every request with a stepped range is refused fails:
    at explicit level 0, and in an implicit request with a scalar, the
    stepped range reaches the level-0 array as it is. *)
Lemma stepped_request_counterexample :
  has_step (SSlice (Some 0) (Some 100) (Some 2)) = true
  /\ PapyrusImage.getitem (PapyrusImage.mkHandle true (4096, 4096) 2)
       [SSlice (Some 0) (Some 100) (Some 2); SSlice None None None; SInt 0]
     = Ok (mkRead (Named "image")
             [SSlice (Some 0) (Some 100) (Some 2); SSlice None None None])
  /\ PapyrusImage.getitem (PapyrusImage.mkHandle true (4096, 4096) 2)
       [SInt 5; SSlice (Some 0) (Some 100) (Some 2)]
     = Ok (mkRead (Named "image") [SInt 5; SSlice (Some 0) (Some 100) (Some 2)]).
Proof. repeat split. Qed.

Lemma get_slice_size_step (s : selector) (dimsize : Z) :
  has_step s = true ->
  get_slice_size s dimsize = Raise (PapyrusDataException CannotUseStepSlices).
Proof. destruct s as [i | start stop [step|] | | b]; try discriminate. reflexivity. Qed.

Lemma get_slice_size_slice (s : selector) (dimsize : Z) :
  is_slice s = true ->
  has_step s = true \/ exists size, get_slice_size s dimsize = Ok size.
Proof.
  destruct s as [i | start stop [step|] | | b]; try discriminate; intros _.
  - left. reflexivity.
  - right. eexists. reflexivity.
Qed.

Lemma is_slice_not_int (s : selector) : is_slice s = true -> isinstance_int s = false.
Proof. destruct s; try discriminate; reflexivity. Qed.

Lemma downsample_slice_defined (s : selector) (level : Z) :
  isinstance_int s || is_slice s = true ->
  has_step s = true \/ exists s', downsample_slice s level = Ok s'.
Proof.
  unfold downsample_slice.
  destruct s as [i | start stop [step|] | | b]; try discriminate; intros _.
  - right. destruct (level =? 0); eexists; reflexivity.
  - left. reflexivity.
  - right. destruct (level =? 0); eexists; reflexivity.
  - right. destruct (level =? 0); eexists; reflexivity.
Qed.

(** C4, amended.  A stepped range is refused with "Cannot use step slices
    on downsampled data" (a) in an implicit-level request made of ranges
    only, and (b) in an explicit-level request at a valid level of at
    least 1 whose selectors are integers or ranges.  At explicit level 0
    every selector, stepped or not, is passed to the level-0 array
    unchanged. *)
Theorem stepped_range_refused_on_downsampled
    (img : PapyrusImage.handle) (vol : PapyrusVolume.handle)
    (x y z : selector) (k : Z) :
  (is_slice x = true -> is_slice y = true ->
   has_step x || has_step y = true ->
   PapyrusImage.getitem img [x; y]
   = Raise (PapyrusDataException CannotUseStepSlices))
  /\ (is_slice x = true -> is_slice y = true -> is_slice z = true ->
   has_step x || has_step y || has_step z = true ->
   PapyrusVolume.getitem vol [x; y; z]
   = Raise (PapyrusDataException CannotUseStepSlices))
  /\ (1 <= k <= PapyrusImage.scale_levels img ->
   isinstance_int x || is_slice x = true ->
   isinstance_int y || is_slice y = true ->
   has_step x || has_step y = true ->
   PapyrusImage.getitem img [x; y; SInt k]
   = Raise (PapyrusDataException CannotUseStepSlices))
  /\ (1 <= k <= PapyrusVolume.scale_levels vol ->
   isinstance_int x || is_slice x = true ->
   isinstance_int y || is_slice y = true ->
   isinstance_int z || is_slice z = true ->
   has_step x || has_step y || has_step z = true ->
   PapyrusVolume.getitem vol [x; y; z; SInt k]
   = Raise (PapyrusDataException CannotUseStepSlices))
  /\ (0 <= PapyrusImage.scale_levels img ->
   PapyrusImage.getitem img [x; y; SInt 0] = Ok (mkRead (Named "image") [x; y]))
  /\ (0 <= PapyrusVolume.scale_levels vol ->
   PapyrusVolume.getitem vol [x; y; z; SInt 0]
   = Ok (mkRead (Named "volume") [x; y; z])).
Proof.
  split; [| split; [| split; [| split; [| split]]]].
  - intros Hx Hy Hs. unfold PapyrusImage.getitem.
    rewrite (is_slice_not_int x Hx), (is_slice_not_int y Hy). cbn [orb].
    destruct (get_slice_size_slice x (fst (PapyrusImage.shape img)) Hx)
      as [Sx | [sx Ex]].
    { rewrite (get_slice_size_step x _ Sx). reflexivity. }
    rewrite Ex. cbn [bind].
    destruct (has_step x) eqn:Sx.
    { rewrite (get_slice_size_step x _ Sx) in Ex. discriminate. }
    cbn [orb] in Hs. rewrite (get_slice_size_step y _ Hs). reflexivity.
  - intros Hx Hy Hz Hs. unfold PapyrusVolume.getitem.
    rewrite (is_slice_not_int x Hx), (is_slice_not_int y Hy),
      (is_slice_not_int z Hz). cbn [orb].
    destruct (get_slice_size_slice x (fst (fst (PapyrusVolume.shape vol))) Hx)
      as [Sx | [sx Ex]].
    { rewrite (get_slice_size_step x _ Sx). reflexivity. }
    rewrite Ex. cbn [bind].
    destruct (has_step x) eqn:Sx.
    { rewrite (get_slice_size_step x _ Sx) in Ex. discriminate. }
    cbn [orb] in Hs.
    destruct (get_slice_size_slice y (snd (fst (PapyrusVolume.shape vol))) Hy)
      as [Sy | [sy Ey]].
    { rewrite (get_slice_size_step y _ Sy). reflexivity. }
    rewrite Ey. cbn [bind].
    destruct (has_step y) eqn:Sy.
    { rewrite (get_slice_size_step y _ Sy) in Ey. discriminate. }
    cbn [orb] in Hs. rewrite (get_slice_size_step z _ Hs). reflexivity.
  - intros Hk Hx Hy Hs. unfold PapyrusImage.getitem, PapyrusImage.getitem_at.
    destruct (k <? 0) eqn:E1; [apply Z.ltb_lt in E1; lia |].
    destruct (k >? _) eqn:E2; [apply Z.gtb_lt in E2; lia |].
    destruct (downsample_slice_defined x k Hx) as [Sx | [x' Ex]].
    { rewrite (downsample_slice_step x k ltac:(lia) Sx). reflexivity. }
    rewrite Ex. cbn [bind].
    destruct (has_step x) eqn:Sx.
    { rewrite (downsample_slice_step x k ltac:(lia) Sx) in Ex. discriminate. }
    cbn [orb] in Hs. rewrite (downsample_slice_step y k ltac:(lia) Hs). reflexivity.
  - intros Hk Hx Hy Hz Hs. unfold PapyrusVolume.getitem, PapyrusVolume.getitem_at.
    destruct (k <? 0) eqn:E1; [apply Z.ltb_lt in E1; lia |].
    destruct (k >? _) eqn:E2; [apply Z.gtb_lt in E2; lia |].
    destruct (downsample_slice_defined x k Hx) as [Sx | [x' Ex]].
    { rewrite (downsample_slice_step x k ltac:(lia) Sx). reflexivity. }
    rewrite Ex. cbn [bind].
    destruct (has_step x) eqn:Sx.
    { rewrite (downsample_slice_step x k ltac:(lia) Sx) in Ex. discriminate. }
    cbn [orb] in Hs.
    destruct (downsample_slice_defined y k Hy) as [Sy | [y' Ey]].
    { rewrite (downsample_slice_step y k ltac:(lia) Sy). reflexivity. }
    rewrite Ey. cbn [bind].
    destruct (has_step y) eqn:Sy.
    { rewrite (downsample_slice_step y k ltac:(lia) Sy) in Ey. discriminate. }
    cbn [orb] in Hs. rewrite (downsample_slice_step z k ltac:(lia) Hs). reflexivity.
  - intros H0. unfold PapyrusImage.getitem, PapyrusImage.getitem_at.
    change (0 <? 0) with false. cbv iota.
    destruct (0 >? _) eqn:E2; [apply Z.gtb_lt in E2; lia |].
    reflexivity.
  - intros H0. unfold PapyrusVolume.getitem, PapyrusVolume.getitem_at.
    change (0 <? 0) with false. cbv iota.
    destruct (0 >? _) eqn:E2; [apply Z.gtb_lt in E2; lia |].
    reflexivity.
Qed.

Lemma stepped_range_refused_on_downsampled_witness :
  PapyrusImage.getitem (PapyrusImage.mkHandle true (4096, 4096) 2)
    [SInt 5; SSlice (Some 0) (Some 100) (Some 2); SInt 1]
  = Raise (PapyrusDataException CannotUseStepSlices)
  /\ PapyrusVolume.getitem (PapyrusVolume.mkHandle true (4096, 4096, 64) 2)
       [SSlice None None None; SSlice (Some 0) (Some 100) (Some 2);
        SSlice None None None]
     = Raise (PapyrusDataException CannotUseStepSlices).
Proof.
  split.
  - pose proof (stepped_range_refused_on_downsampled
                  (PapyrusImage.mkHandle true (4096, 4096) 2)
                  (PapyrusVolume.mkHandle true (4096, 4096, 64) 2)
                  (SInt 5) (SSlice (Some 0) (Some 100) (Some 2)) (SInt 0) 1)
      as (_ & _ & H & _).
    apply H; [cbn; lia | reflexivity | reflexivity | reflexivity].
  - pose proof (stepped_range_refused_on_downsampled
                  (PapyrusImage.mkHandle true (4096, 4096) 2)
                  (PapyrusVolume.mkHandle true (4096, 4096, 64) 2)
                  (SSlice None None None) (SSlice (Some 0) (Some 100) (Some 2))
                  (SSlice None None None) 1)
      as (_ & H & _).
    apply H; reflexivity.
Defined.

(** ** The number of scale levels *)

Lemma ceil_div_bounds (a b : Z) :
  0 < b -> b * ((a + b - 1) / b - 1) < a <= b * ((a + b - 1) / b).
Proof.
  intros Hb.
  pose proof (Z.mul_div_le (a + b - 1) b Hb).
  pose proof (Z.mul_succ_div_gt (a + b - 1) b Hb).
  lia.
Qed.

(** [ceil_log2_ratio a b] is the least [k] with [a / b <= 2^k]. *)
Lemma ceil_log2_ratio_spec (a b : Z) :
  0 < a -> 0 < b ->
  ratio_le_pow2 a b (ceil_log2_ratio a b)
  /\ ~ ratio_le_pow2 a b (ceil_log2_ratio a b - 1).
Proof.
  intros Ha Hb. unfold ceil_log2_ratio.
  destruct (b <=? a) eqn:Hba.
  - apply Z.leb_le in Hba.
    pose proof (ceil_div_bounds a b Hb) as [Hlo Hhi].
    set (c := (a + b - 1) / b) in *.
    assert (Hc : 1 <= c) by nia.
    destruct (Z.eq_dec c 1) as [Hc1 | Hc1].
    + rewrite Hc1. change (Z.log2_up 1) with 0. unfold ratio_le_pow2. cbn. lia.
    + pose proof (Z.log2_up_spec c ltac:(lia)) as [Hl Hu].
      pose proof (Z.log2_up_pos c ltac:(lia)) as Hpos.
      set (k := Z.log2_up c) in *.
      replace (Z.pred k) with (k - 1) in Hl by lia.
      unfold ratio_le_pow2.
      destruct (0 <=? k) eqn:E1; [| apply Z.leb_gt in E1; lia].
      destruct (0 <=? k - 1) eqn:E2; [| apply Z.leb_gt in E2; lia].
      split; nia.
  - apply Z.leb_gt in Hba.
    pose proof (Z.mul_div_le b a Ha) as Hq1.
    pose proof (Z.mul_succ_div_gt b a Ha) as Hq2.
    set (q := b / a) in *.
    assert (Hq : 1 <= q) by nia.
    pose proof (Z.log2_spec q ltac:(lia)) as [Hl Hu].
    pose proof (Z.log2_nonneg q) as Hm.
    set (m := Z.log2 q) in *.
    replace (Z.succ m) with (m + 1) in Hu by lia.
    unfold ratio_le_pow2.
    destruct (0 <=? - m - 1) eqn:E2; [apply Z.leb_le in E2; lia |].
    replace (- (- m - 1)) with (m + 1) by lia.
    destruct (0 <=? - m) eqn:E1.
    + apply Z.leb_le in E1. assert (m = 0) by lia. subst m.
      replace (- 0) with 0 by lia. 
      change (2 ^ 0) with 1. change (2 ^ (0 + 1)) with 2 in *. split; nia.
    + rewrite Z.opp_involutive. split; nia.
Qed.

Lemma ratio_le_pow2_mono (a b j k : Z) :
  0 < a -> 0 < b -> j <= k -> ratio_le_pow2 a b j -> ratio_le_pow2 a b k.
Proof.
  intros Ha Hb Hjk. unfold ratio_le_pow2.
  destruct (0 <=? j) eqn:Ej; destruct (0 <=? k) eqn:Ek;
    try apply Z.leb_le in Ej; try apply Z.leb_le in Ek;
    try apply Z.leb_gt in Ej; try apply Z.leb_gt in Ek; try lia; intros H.
  - pose proof (Z.pow_le_mono_r 2 j k ltac:(lia) Hjk). nia.
  - pose proof (Z.pow_pos_nonneg 2 (- j) ltac:(lia) ltac:(lia)).
    pose proof (Z.pow_pos_nonneg 2 k ltac:(lia) ltac:(lia)). nia.
  - pose proof (Z.pow_le_mono_r 2 (- k) (- j) ltac:(lia) ltac:(lia)). nia.
Qed.

Lemma ceil_log2_ratio_least (a b j : Z) :
  0 < a -> 0 < b -> ratio_le_pow2 a b j -> ceil_log2_ratio a b <= j.
Proof.
  intros Ha Hb Hj.
  destruct (ceil_log2_ratio_spec a b Ha Hb) as [_ Hn].
  destruct (Z_le_gt_dec (ceil_log2_ratio a b) j) as [Hle | Hgt]; [exact Hle |].
  exfalso. apply Hn.
  apply (ratio_le_pow2_mono a b j); [assumption | assumption | lia | exact Hj].
Qed.

(** A smaller quotient stays below the same power of two. *)
Lemma ratio_le_pow2_le (a b a' b' k : Z) :
  0 < a -> 0 < b -> 0 < a' -> 0 < b' ->
  a * b' <= a' * b -> ratio_le_pow2 a' b' k -> ratio_le_pow2 a b k.
Proof.
  intros Ha Hb Ha' Hb' Hle. unfold ratio_le_pow2.
  destruct (0 <=? k) eqn:Ek.
  - apply Z.leb_le in Ek. intros H.
    pose proof (Z.pow_pos_nonneg 2 k ltac:(lia) Ek) as Hp.
    apply (Z.mul_le_mono_pos_r _ _ b' Hb').
    apply (Z.le_trans _ (a' * b)); [exact Hle |]. nia.
  - apply Z.leb_gt in Ek. intros H.
    pose proof (Z.pow_pos_nonneg 2 (- k) ltac:(lia) ltac:(lia)) as Hp.
    apply (Z.mul_le_mono_pos_r _ _ b' Hb').
    apply (Z.le_trans _ (a' * b * 2 ^ (- k))); nia.
Qed.

(** [ceil(log2(.))] is monotone in the quotient. *)
Lemma ceil_log2_ratio_mono (a b a' b' : Z) :
  0 < a -> 0 < b -> 0 < a' -> 0 < b' ->
  a * b' <= a' * b -> ceil_log2_ratio a b <= ceil_log2_ratio a' b'.
Proof.
  intros Ha Hb Ha' Hb' Hle.
  apply ceil_log2_ratio_least; [assumption | assumption |].
  apply (ratio_le_pow2_le a b a' b'); try assumption.
  apply ceil_log2_ratio_spec; assumption.
Qed.

(** *** The same over the real numbers *)

Lemma IZR_pow2 (k : Z) : 0 <= k -> IZR (2 ^ k) = Rpower 2 (IZR k).
Proof.
  intros Hk. rewrite <- powerRZ_Rpower by lra.
  rewrite <- (Z2Nat.id k Hk). rewrite <- pow_IZR, pow_powerRZ. reflexivity.
Qed.

Lemma ratio_le_pow2_real (a b k : Z) :
  0 < a -> 0 < b ->
  ratio_le_pow2 a b k <-> (IZR a / IZR b <= Rpower 2 (IZR k))%R.
Proof.
  intros Ha Hb.
  assert (Ra : (0 < IZR a)%R) by (apply IZR_lt; lia).
  assert (Rb : (0 < IZR b)%R) by (apply IZR_lt; lia).
  unfold ratio_le_pow2. destruct (Z.leb_spec 0 k) as [Hk | Hk].
  - rewrite <- IZR_pow2 by lia.
    split; intros H.
    + apply IZR_le in H. rewrite mult_IZR in H.
      apply (Rmult_le_reg_r (IZR b)); [exact Rb |].
      unfold Rdiv. rewrite Rmult_assoc, Rinv_l by lra. lra.
    + apply le_IZR. rewrite mult_IZR.
      apply (Rmult_le_compat_r (IZR b)) in H; [| lra].
      unfold Rdiv in H. rewrite Rmult_assoc, Rinv_l in H by lra. lra.
  - replace (IZR k) with (- IZR (- k))%R by (rewrite opp_IZR; lra).
    rewrite Rpower_Ropp, <- IZR_pow2 by lia.
    assert (Rp : (0 < IZR (2 ^ (- k)))%R)
      by (apply IZR_lt; apply Z.pow_pos_nonneg; lia).
    set (p := IZR (2 ^ (- k))) in *.
    split; intros H.
    + apply IZR_le in H. rewrite mult_IZR in H. fold p in H.
      apply (Rmult_le_reg_r (IZR b * p)); [apply Rmult_lt_0_compat; lra |].
      replace (IZR a / IZR b * (IZR b * p))%R with (IZR a * p)%R by (field; lra).
      replace (/ p * (IZR b * p))%R with (IZR b) by (field; lra).
      exact H.
    + apply le_IZR. rewrite mult_IZR. fold p.
      apply (Rmult_le_compat_r (IZR b * p)) in H;
        [| apply Rlt_le; apply Rmult_lt_0_compat; lra].
      replace (IZR a / IZR b * (IZR b * p))%R with (IZR a * p)%R in H by (field; lra).
      replace (/ p * (IZR b * p))%R with (IZR b) in H by (field; lra).
      exact H.
Qed.

Lemma le_pow2_log2 (r x : R) :
  (0 < r)%R -> (r <= Rpower 2 x)%R <-> (Rlog 2 r <= x)%R.
Proof.
  intros Hr. split; intros H.
  - destruct (Rle_or_lt (Rlog 2 r) x) as [Hle | Hlt]; [exact Hle |].
    apply (Rpower_lt 2) in Hlt; [| lra].
    rewrite Rpower_Rlog in Hlt by lra. lra.
  - apply (Rle_Rpower 2) in H; [| lra].
    rewrite Rpower_Rlog in H by lra. exact H.
Qed.

(** [ceil_log2_ratio a b] is the ceiling of the real [log2(a / b)]. *)
Lemma ceil_log2_ratio_real (a b : Z) :
  0 < a -> 0 < b ->
  (IZR (ceil_log2_ratio a b) - 1 < Rlog 2 (IZR a / IZR b)
   <= IZR (ceil_log2_ratio a b))%R.
Proof.
  intros Ha Hb.
  assert (Hr : (0 < IZR a / IZR b)%R).
  { apply Rdiv_lt_0_compat; apply IZR_lt; lia. }
  destruct (ceil_log2_ratio_spec a b Ha Hb) as [Hle Hnle].
  rewrite ratio_le_pow2_real in Hle, Hnle by assumption.
  rewrite le_pow2_log2 in Hle, Hnle by exact Hr.
  rewrite minus_IZR in Hnle. lra.
Qed.

Lemma Rlog2_le (r s : R) : (0 < r)%R -> (r <= s)%R -> (Rlog 2 r <= Rlog 2 s)%R.
Proof.
  intros Hr Hrs. rewrite <- le_pow2_log2 by exact Hr.
  rewrite Rpower_Rlog by lra. exact Hrs.
Qed.

(** The code takes the logarithm per axis and then the maximum; the
    spec's formula takes the maximum quotient and then the logarithm. *)
Lemma compute_scale_levels_formula (shape chunk_size : Z * Z) :
  0 <= fst shape -> 0 <= snd shape ->
  0 < fst chunk_size -> 0 < snd chunk_size ->
  compute_scale_levels shape chunk_size = spec_scale_levels shape chunk_size.
Proof.
  destruct shape as [s0 s1], chunk_size as [c0 c1]. cbn [fst snd].
  intros Hs0 Hs1 Hc0 Hc1.
  unfold compute_scale_levels, spec_scale_levels, ceil_log2_div. cbn [fst snd].
  rewrite !Z.div_1_r.
  destruct (c0 =? 0) eqn:E0; [apply Z.eqb_eq in E0; lia |].
  destruct (c1 =? 0) eqn:E1; [apply Z.eqb_eq in E1; lia |].
  destruct (c0 <? 0) eqn:N0; [apply Z.ltb_lt in N0; lia |].
  destruct (c1 <? 0) eqn:N1; [apply Z.ltb_lt in N1; lia |].
  destruct (Z.eqb_spec s0 0) as [Z0 | Z0]; destruct (Z.eqb_spec s1 0) as [Z1 | Z1];
    subst; cbn [bind].
  - destruct (_ <=? _); reflexivity.
  - destruct (s1 * c0 <=? 0 * c1) eqn:E; [apply Z.leb_le in E; nia |].
    reflexivity.
  - destruct (0 * c0 <=? s0 * c1) eqn:E; [| apply Z.leb_gt in E; nia].
    reflexivity.
  - unfold fval_max, fval_gt.
    destruct (s1 * c0 <=? s0 * c1) eqn:E.
    + apply Z.leb_le in E.
      pose proof (ceil_log2_ratio_mono s1 c1 s0 c0 ltac:(lia) Hc1 ltac:(lia) Hc0 E).
      destruct (_ >? _) eqn:G; [apply Z.gtb_lt in G; lia | reflexivity].
    + apply Z.leb_gt in E.
      pose proof (ceil_log2_ratio_mono s0 c0 s1 c1 ltac:(lia) Hc0 ltac:(lia) Hc1
                    ltac:(lia)).
      destruct (_ >? _) eqn:G; [reflexivity |].
      rewrite Z.gtb_ltb in G. apply Z.ltb_ge in G. cbn [int_of_fval bind].
      f_equal. f_equal. lia.
Qed.

(** ** The store written by [build_from_image] *)

Lemma array_name_eqb_refl (n : array_name) : array_name_eqb n n = true.
Proof.
  destruct n; cbn; rewrite String.eqb_refl; [reflexivity |].
  rewrite Z.eqb_refl. reflexivity.
Qed.

Lemma get_array_set_same (root : zgroup) (n : array_name) (a : zarray) :
  get_array (set_array root n a) n = Some a.
Proof.
  unfold get_array, set_array. cbn. rewrite array_name_eqb_refl. reflexivity.
Qed.

Lemma find_filter_other {A} (f g : A -> bool) (l : list A) :
  (forall x, f x = true -> g x = true) ->
  find f (filter g l) = find f l.
Proof.
  intros H. induction l as [|x l IH]; [reflexivity |]. cbn.
  destruct (g x) eqn:G; cbn.
  - rewrite IH. reflexivity.
  - destruct (f x) eqn:F; [rewrite (H x F) in G; discriminate | exact IH].
Qed.

Lemma array_name_eqb_eq (a b : array_name) : array_name_eqb a b = true -> a = b.
Proof.
  destruct a, b; cbn; try discriminate.
  - intros H. apply String.eqb_eq in H. subst. reflexivity.
  - intros H. apply andb_prop in H. destruct H as [H1 H2].
    apply String.eqb_eq in H1. apply Z.eqb_eq in H2. subst. reflexivity.
Qed.

Lemma get_array_set_other (root : zgroup) (n m : array_name) (a : zarray) :
  array_name_eqb m n = false ->
  get_array (set_array root m a) n = get_array root n.
Proof.
  intros Hnm. unfold get_array, set_array. cbn. rewrite Hnm.
  rewrite find_filter_other; [reflexivity |].
  intros [p q] Hp. cbn in *.
  destruct (array_name_eqb p m) eqn:E; [| reflexivity].
  apply array_name_eqb_eq in E. apply array_name_eqb_eq in Hp. subst.
  rewrite array_name_eqb_refl in Hnm. discriminate.
Qed.

Lemma attrs_set_array (root : zgroup) (n : array_name) (a : zarray) :
  attrs (set_array root n a) = attrs root.
Proof. reflexivity. Qed.

Lemma attrs_get_set_same (root : zgroup) (key : string) (v : attr) :
  attrs_get (attrs_set root key v) key = Ok v.
Proof. unfold attrs_get, attrs_set. cbn. rewrite String.eqb_refl. reflexivity. Qed.

Lemma attrs_get_attrs (root root' : zgroup) (key : string) :
  attrs root' = attrs root -> attrs_get root' key = attrs_get root key.
Proof. unfold attrs_get. intros ->. reflexivity. Qed.

Lemma get_array_attrs_set (root : zgroup) (key : string) (v : attr) (n : array_name) :
  get_array (attrs_set root key v) n = get_array root n.
Proof. reflexivity. Qed.

Section ImageBuildFacts.

Variable rescale : ndarray dtype -> Z -> bool -> (Z * Z) * list Z.

Lemma add_downsampled_images_attrs img_data chunk_size (scales : list Z) :
  forall root,
    attrs (fold_left (add_downsampled_image rescale img_data chunk_size) scales root)
    = attrs root.
Proof.
  induction scales as [|s scales IH]; intros root; [reflexivity |].
  cbn [fold_left]. rewrite IH. reflexivity.
Qed.

Lemma add_downsampled_images_level0 img_data chunk_size (scales : list Z) :
  forall root,
    get_array (fold_left (add_downsampled_image rescale img_data chunk_size) scales root)
              (Named "image")
    = get_array root (Named "image").
Proof.
  induction scales as [|s scales IH]; intros root; [reflexivity |].
  cbn [fold_left]. rewrite IH. unfold add_downsampled_image, root_array.
  apply get_array_set_other. reflexivity.
Qed.

(** Every downsampled level [build_from_image] adds has the dtype of
    [img_data], the level-0 data. *)
Lemma add_downsampled_images_dtype img_data chunk_size (scales : list Z) :
  forall root scale a,
    In scale scales ->
    get_array (fold_left (add_downsampled_image rescale img_data chunk_size) scales root)
              (Downsampled "image" scale) = Some a ->
    za_dtype a = nd_dtype img_data.
Proof.
  induction scales as [|s scales IH] using rev_ind; intros root scale a Hin;
    [destruct Hin |].
  rewrite fold_left_app. cbn [fold_left].
  unfold add_downsampled_image at 1. unfold root_array.
  destruct (Z.eq_dec s scale) as [-> | Hne].
  - rewrite get_array_set_same. intros [= <-]. reflexivity.
  - rewrite get_array_set_other.
    + apply IH. apply in_app_or in Hin. destruct Hin as [Hin | [Hin | []]];
        [exact Hin | contradiction].
    + cbn. apply Z.eqb_neq in Hne. rewrite Hne. reflexivity.
Qed.

Lemma get_min_datatype_nonempty (img : ndarray int_dtype) :
  nd_data img <> [] -> exists d, get_min_datatype img = Ok d.
Proof.
  intros H. unfold get_min_datatype, array_min, array_max.
  destruct (nd_data img) as [|v vs]; [contradiction |]. cbn [bind].
  destruct (_ && _); eexists; reflexivity.
Qed.

Lemma getitem2_astype {D} (d : dtype) (a : ndarray D) (xlims ylims : lims) :
  getitem2 (astype d a) xlims ylims = astype d (getitem2 a xlims ylims).
Proof.
  unfold getitem2, astype. cbn [nd_shape nd_data nd_dtype].
  destruct (nd_shape a) as [h w].
  destruct (slice_indices h xlims), (slice_indices w ylims). reflexivity.
Qed.

(** The store a multiscale image build leaves when nothing raises: the
    level-0 array holds the cropped pixels under the dtype chosen for the
    whole source, and [scale_levels] is what [compute_scale_levels]
    returns on the cropped shape. *)
Lemma build_from_image_multiscale img chunk_size xlims ylims d k :
  get_min_datatype img = Ok d ->
  compute_scale_levels (nd_shape (getitem2 img xlims ylims))
                       (image_chunks chunk_size) = Ok k ->
  exists root,
    build_from_image rescale None img chunk_size true xlims ylims
    = mkOutcome (Some root) None
    /\ attrs_get root "multiscale" = Ok (ABool true)
    /\ attrs_get root "scale_levels" = Ok (AInt k)
    /\ get_array root (Named "image")
       = Some (mkZarray [fst (nd_shape (getitem2 img xlims ylims));
                         snd (nd_shape (getitem2 img xlims ylims))]
                        [fst (image_chunks chunk_size); snd (image_chunks chunk_size)]
                        d 0 [nd_data (getitem2 img xlims ylims)]).
Proof.
  intros Hd Hk. unfold build_from_image. fold (image_chunks chunk_size).
  rewrite Hd. rewrite getitem2_astype. cbn [astype nd_shape nd_data nd_dtype].
  rewrite Hk. eexists. split; [reflexivity |].
  split; [| split].
  - erewrite attrs_get_attrs by apply add_downsampled_images_attrs. reflexivity.
  - erewrite attrs_get_attrs by apply add_downsampled_images_attrs. reflexivity.
  - rewrite add_downsampled_images_level0. reflexivity.
Qed.

End ImageBuildFacts.

(** ** Bounds on [scale_levels] *)

Lemma compute_scale_levels_value (shape chunk_size : Z * Z) :
  0 < fst shape -> 0 < snd shape -> 0 < fst chunk_size -> 0 < snd chunk_size ->
  compute_scale_levels shape chunk_size
  = Ok (Z.min 10 (Z.max (ceil_log2_ratio (fst shape) (fst chunk_size))
                        (ceil_log2_ratio (snd shape) (snd chunk_size)))).
Proof.
  destruct shape as [s0 s1], chunk_size as [c0 c1]. cbn [fst snd].
  intros Hs0 Hs1 Hc0 Hc1.
  unfold compute_scale_levels, ceil_log2_div. cbn [fst snd]. rewrite !Z.div_1_r.
  destruct (Z.eqb_spec c0 0); [lia |]. destruct (Z.eqb_spec c1 0); [lia |].
  destruct (Z.eqb_spec s0 0); [lia |]. destruct (Z.eqb_spec s1 0); [lia |].
  destruct (Z.ltb_spec c0 0); [lia |]. destruct (Z.ltb_spec c1 0); [lia |].
  cbn [bind]. unfold fval_max, fval_gt.
  destruct (_ >? _) eqn:G; cbn [int_of_fval bind]; f_equal; f_equal.
  - apply Z.gtb_lt in G. lia.
  - rewrite Z.gtb_ltb in G. apply Z.ltb_ge in G. lia.
Qed.

(** The value the builders compute is the spec's formula over the real
    numbers. *)
Lemma compute_scale_levels_real (shape chunk_size : Z * Z) (k : Z) :
  0 < fst shape -> 0 < snd shape -> 0 < fst chunk_size -> 0 < snd chunk_size ->
  compute_scale_levels shape chunk_size = Ok k ->
  is_min10_ceil_log2_max shape chunk_size k.
Proof.
  intros Hs0 Hs1 Hc0 Hc1.
  rewrite compute_scale_levels_value by assumption. intros [= <-].
  unfold is_min10_ceil_log2_max.
  pose proof (ceil_log2_ratio_real (fst shape) (fst chunk_size) Hs0 Hc0) as H0.
  pose proof (ceil_log2_ratio_real (snd shape) (snd chunk_size) Hs1 Hc1) as H1.
  set (k0 := ceil_log2_ratio (fst shape) (fst chunk_size)) in *.
  set (k1 := ceil_log2_ratio (snd shape) (snd chunk_size)) in *.
  assert (R0 : (0 < IZR (fst shape) / IZR (fst chunk_size))%R)
    by (apply Rdiv_lt_0_compat; apply IZR_lt; lia).
  assert (R1 : (0 < IZR (snd shape) / IZR (snd chunk_size))%R)
    by (apply Rdiv_lt_0_compat; apply IZR_lt; lia).
  set (r0 := (IZR (fst shape) / IZR (fst chunk_size))%R) in *.
  set (r1 := (IZR (snd shape) / IZR (snd chunk_size))%R) in *.
  exists (Z.max k0 k1). split; [reflexivity |].
  destruct (Rle_dec r0 r1) as [Hle | Hgt].
  - pose proof (Rlog2_le r0 r1 R0 Hle) as Hlog.
    assert (Hk : k0 <= k1).
    { apply Z.lt_succ_r. apply lt_IZR. rewrite succ_IZR. lra. }
    rewrite Z.max_r by exact Hk. rewrite Rmax_right by exact Hle. exact H1.
  - pose proof (Rlog2_le r1 r0 R1 ltac:(lra)) as Hlog.
    assert (Hk : k1 <= k0).
    { apply Z.lt_succ_r. apply lt_IZR. rewrite succ_IZR. lra. }
    rewrite Z.max_l by exact Hk. rewrite Rmax_left by lra. exact H0.
Qed.

(** The upper bound holds for every build. *)
Lemma compute_scale_levels_le_10 (shape chunk_size : Z * Z) (k : Z) :
  compute_scale_levels shape chunk_size = Ok k -> k <= 10.
Proof.
  unfold compute_scale_levels.
  destruct (ceil_log2_div _ _); [| discriminate]. cbn [bind].
  destruct (ceil_log2_div _ _); [| discriminate]. cbn [bind].
  destruct (int_of_fval _); [| discriminate]. cbn [bind].
  intros [= <-]. lia.
Qed.

(** The lower bound holds as soon as one axis fills a chunk. *)
Lemma compute_scale_levels_nonneg (shape chunk_size : Z * Z) (k : Z) :
  0 < fst shape -> 0 < snd shape -> 0 < fst chunk_size -> 0 < snd chunk_size ->
  fst chunk_size <= fst shape \/ snd chunk_size <= snd shape ->
  compute_scale_levels shape chunk_size = Ok k -> 0 <= k.
Proof.
  intros Hs0 Hs1 Hc0 Hc1 Hfill.
  rewrite compute_scale_levels_value by assumption. intros [= <-].
  destruct (ceil_log2_ratio_spec (fst shape) (fst chunk_size) Hs0 Hc0) as [L0 _].
  destruct (ceil_log2_ratio_spec (snd shape) (snd chunk_size) Hs1 Hc1) as [L1 _].
  unfold ratio_le_pow2 in L0, L1.
  destruct Hfill as [H | H].
  - destruct (0 <=? ceil_log2_ratio (fst shape) (fst chunk_size)) eqn:E;
      [apply Z.leb_le in E; lia |].
    apply Z.leb_gt in E. exfalso.
    pose proof (Z.pow_le_mono_r 2 1 (- ceil_log2_ratio (fst shape) (fst chunk_size))
                  ltac:(lia) ltac:(lia)) as Hp.
    change (2 ^ 1) with 2 in Hp. nia.
  - destruct (0 <=? ceil_log2_ratio (snd shape) (snd chunk_size)) eqn:E;
      [apply Z.leb_le in E; lia |].
    apply Z.leb_gt in E. exfalso.
    pose proof (Z.pow_le_mono_r 2 1 (- ceil_log2_ratio (snd shape) (snd chunk_size))
                  ltac:(lia) ltac:(lia)) as Hp.
    change (2 ^ 1) with 2 in Hp. nia.
Qed.

(** An image within one chunk never gets a positive level count. *)
Lemma compute_scale_levels_within_chunk (shape chunk_size : Z * Z) (k : Z) :
  0 < fst shape -> 0 < snd shape ->
  fst shape <= fst chunk_size -> snd shape <= snd chunk_size ->
  compute_scale_levels shape chunk_size = Ok k -> k <= 0.
Proof.
  intros Hs0 Hs1 H0 H1.
  rewrite compute_scale_levels_value by lia. intros [= <-].
  pose proof (ceil_log2_ratio_least (fst shape) (fst chunk_size) 0 Hs0 ltac:(lia)) as L0.
  pose proof (ceil_log2_ratio_least (snd shape) (snd chunk_size) 0 Hs1 ltac:(lia)) as L1.
  unfold ratio_le_pow2 in L0, L1. cbn in L0, L1.
  specialize (L0 ltac:(lia)). specialize (L1 ltac:(lia)). lia.
Qed.

(** Below half a chunk on both axes the count is negative. *)
Lemma compute_scale_levels_below_half_chunk (shape chunk_size : Z * Z) :
  0 < fst shape -> 0 < snd shape ->
  2 * fst shape <= fst chunk_size -> 2 * snd shape <= snd chunk_size ->
  exists k, compute_scale_levels shape chunk_size = Ok k /\ k < 0.
Proof.
  intros Hs0 Hs1 H0 H1.
  rewrite compute_scale_levels_value by lia. eexists. split; [reflexivity |].
  pose proof (ceil_log2_ratio_least (fst shape) (fst chunk_size) (-1) Hs0 ltac:(lia)) as L0.
  pose proof (ceil_log2_ratio_least (snd shape) (snd chunk_size) (-1) Hs1 ltac:(lia)) as L1.
  unfold ratio_le_pow2 in L0, L1. cbn in L0, L1.
  specialize (L0 ltac:(lia)). specialize (L1 ltac:(lia)). lia.
Qed.

(** C1.  The code breaks the invariant [0 <= scale_levels]: a multiscale
    build of an image whose level-0 shape is at most half a chunk on both
    axes (512 x 512 under the default chunk size) stores a negative
    [scale_levels].  The handle opened on that store reports the negative
    value, and every range request on it, which starts at level 0, is
    refused as being above [scale_levels]. *)
Theorem small_image_negative_scale_levels
    (rescale : ndarray dtype -> Z -> bool -> (Z * Z) * list Z)
    (img : ndarray int_dtype) (chunk_size : option (Z * Z)) (xlims ylims : lims)
    (Hdata : nd_data img <> [])
    (Hs0 : 0 < fst (nd_shape (getitem2 img xlims ylims)))
    (Hs1 : 0 < snd (nd_shape (getitem2 img xlims ylims)))
    (Hh0 : 2 * fst (nd_shape (getitem2 img xlims ylims)) <= fst (image_chunks chunk_size))
    (Hh1 : 2 * snd (nd_shape (getitem2 img xlims ylims)) <= snd (image_chunks chunk_size)) :
  compute_scale_levels (512, 512) (1024, 1024) = Ok (-1)
  /\ exists root k h,
      build_from_image rescale None img chunk_size true xlims ylims
      = mkOutcome (Some root) None
      /\ attrs_get root "scale_levels" = Ok (AInt k)
      /\ k < 0
      /\ ImageHandle.init (Some root) = Ok h
      /\ PapyrusImage.scale_levels h = k
      /\ forall x0 x1 y0 y1,
          PapyrusImage.getitem h [SSlice x0 x1 None; SSlice y0 y1 None]
          = Raise (PapyrusDataException (OnlyNDownsampled k)).
Proof.
  split; [reflexivity |].
  destruct (get_min_datatype_nonempty img Hdata) as [d Hd].
  destruct (compute_scale_levels_below_half_chunk
              (nd_shape (getitem2 img xlims ylims)) (image_chunks chunk_size)
              Hs0 Hs1 Hh0 Hh1) as (k & Hk & Hneg).
  destruct (build_from_image_multiscale rescale img chunk_size xlims ylims d k Hd Hk)
    as (root & Hb & Hm & Hsl & Himg).
  exists root, k.
  eexists. split; [exact Hb |]. split; [exact Hsl |]. split; [exact Hneg |].
  unfold ImageHandle.init. rewrite Hm, Himg. cbn [bind truthy]. rewrite Hsl.
  cbn [bind attr_int]. split; [reflexivity |]. split; [reflexivity |].
  intros x0 x1 y0 y1. unfold PapyrusImage.getitem. cbn [isinstance_int orb].
  rewrite !get_slice_size_span. cbn [bind PapyrusImage.scale_levels].
  rewrite lod_loop_eq.
  destruct (0 <? k) eqn:E; [apply Z.ltb_lt in E; lia |].
  cbn [andb fst]. unfold PapyrusImage.getitem_at. cbn [PapyrusImage.scale_levels].
  change (0 <? 0) with false. cbv iota.
  destruct (0 >? k) eqn:G; [reflexivity |].
  rewrite Z.gtb_ltb in G. apply Z.ltb_ge in G. lia.
Qed.

Lemma small_image_negative_scale_levels_witness :
  exists root k h,
    build_from_image decimate None (mkArray uint8 (2, 2) [10; 20; 30; 40])
                     (Some (4, 4)) true None None
    = mkOutcome (Some root) None
    /\ attrs_get root "scale_levels" = Ok (AInt k)
    /\ k < 0
    /\ ImageHandle.init (Some root) = Ok h
    /\ PapyrusImage.scale_levels h = k
    /\ forall x0 x1 y0 y1,
        PapyrusImage.getitem h [SSlice x0 x1 None; SSlice y0 y1 None]
        = Raise (PapyrusDataException (OnlyNDownsampled k)).
Proof.
  apply (small_image_negative_scale_levels decimate
           (mkArray uint8 (2, 2) [10; 20; 30; 40]) (Some (4, 4)) None None);
    cbn; try lia; discriminate.
Defined.

Example small_image_store :
  build_from_image decimate None (mkArray uint8 (2, 2) [10; 20; 30; 40])
                   (Some (4, 4)) true None None
  = mkOutcome
      (Some (mkGroup
               [(Named "image", mkZarray [2; 2] [4; 4] (Int uint8) 0 [[10; 20; 30; 40]])]
               [("scale_levels"%string, AInt (-1)); ("multiscale"%string, ABool true)]))
      None.
Proof. reflexivity. Qed.

(** *** The store written by [build_from_tiffdir] *)

Lemma write_plane_shape (root : zgroup) (n m : array_name) (z : Z)
    (data : list Z) (a : zarray) :
  get_array root m = Some a ->
  exists b, get_array (write_plane root n z data) m = Some b
            /\ za_shape b = za_shape a /\ za_dtype b = za_dtype a.
Proof.
  intros Ha. unfold write_plane.
  destruct (get_array root n) as [an |] eqn:Hn.
  - destruct (array_name_eqb n m) eqn:E.
    + apply array_name_eqb_eq in E. subst m. rewrite Hn in Ha.
      injection Ha as ->. rewrite get_array_set_same.
      eexists. split; [reflexivity |]. split; reflexivity.
    + rewrite get_array_set_other by exact E.
      exists a. split; [exact Ha |]. split; reflexivity.
  - exists a. split; [exact Ha |]. split; reflexivity.
Qed.

Lemma root_zeros_same (root : zgroup) (n : array_name)
    (s0 s1 s2 : Z) (chunks : Z * Z * Z) (d : option dtype) :
  exists a, get_array (root_zeros root n (s0, s1, s2) chunks d) n = Some a
            /\ za_shape a = [s0; s1; s2]
            /\ za_dtype a = match d with Some d => d | None => float64 end.
Proof.
  unfold root_zeros. destruct chunks as [[c0 c1] c2].
  rewrite get_array_set_same. eexists. split; [reflexivity |].
  split; reflexivity.
Qed.

Lemma root_zeros_other (root : zgroup) (n m : array_name)
    (shape chunks : Z * Z * Z) (d : option dtype) :
  array_name_eqb n m = false ->
  get_array (root_zeros root n shape chunks d) m = get_array root m.
Proof.
  intros E. unfold root_zeros.
  destruct shape as [[s0 s1] s2], chunks as [[c0 c1] c2].
  apply get_array_set_other. exact E.
Qed.

Section VolumeStoreFacts.

Variable imread : string -> ndarray int_dtype.
Variable rescale : ndarray dtype -> Z -> bool -> (Z * Z) * list Z.

(** What the loading loop leaves when it ends without exception: the
    [img_data] of its last iteration, and a [volume] array with the shape
    and dtype of the first slice. *)
Lemma load_slices_volume imgfiles xlims ylims chunk_size len_zrange items :
  forall root init img_data root' img_data',
    load_slices imread imgfiles xlims ylims chunk_size len_zrange items
                root init img_data = (root', img_data', None) ->
    (items <> [] ->
     exists f, img_data' = Some (getitem2 (imread f) xlims ylims))
    /\ (init = true -> items <> [] ->
        exists f v,
          get_array root' (Named "volume") = Some v
          /\ za_shape v = [fst (nd_shape (getitem2 (imread f) xlims ylims));
                           snd (nd_shape (getitem2 (imread f) xlims ylims));
                           len_zrange]
          /\ za_dtype v = Int (nd_dtype (imread f)))
    /\ (forall v, init = false -> get_array root (Named "volume") = Some v ->
        exists v', get_array root' (Named "volume") = Some v'
                   /\ za_shape v' = za_shape v /\ za_dtype v' = za_dtype v).
Proof.
  induction items as [|[z_index img_index] items IH];
    intros root init img_data root' img_data' H; cbn [load_slices] in H.
  - injection H as <- <-. split; [intros C; contradiction |].
    split; [intros _ C; contradiction |].
    intros v _ Hv. exists v. split; [exact Hv |]. split; reflexivity.
  - destruct (dict_get imgfiles img_index) as [imgfile | e]; [| discriminate].
    specialize (IH _ _ _ _ _ H). destruct IH as (IHimg & _ & IHkeep).
    split; [| split].
    + intros _. destruct items as [|it items'].
      * cbn [load_slices] in H. injection H as _ <-. exists imgfile. reflexivity.
      * apply IHimg. discriminate.
    + intros -> _.
      destruct (root_zeros_same root (Named "volume")
                  (fst (nd_shape (getitem2 (imread imgfile) xlims ylims)))
                  (snd (nd_shape (getitem2 (imread imgfile) xlims ylims)))
                  len_zrange chunk_size
                  (Some (Int (nd_dtype (getitem2 (imread imgfile) xlims ylims)))))
        as (v0 & Hv0 & Hs0 & Hd0).
      destruct (write_plane_shape _ (Named "volume") (Named "volume") z_index
                  (nd_data (getitem2 (imread imgfile) xlims ylims)) v0 Hv0)
        as (v1 & Hv1 & Hs1 & Hd1).
      destruct (IHkeep v1 eq_refl Hv1) as (v' & Hv' & Hs' & Hd').
      exists imgfile, v'. split; [exact Hv' |]. split.
      * rewrite Hs', Hs1, Hs0. reflexivity.
      * rewrite Hd', Hd1, Hd0. unfold getitem2.
        destruct (nd_shape (imread imgfile)) as [h w].
        destruct (slice_indices h xlims), (slice_indices w ylims). reflexivity.
    + intros v -> Hv.
      destruct (write_plane_shape root (Named "volume") (Named "volume") z_index
                  (nd_data (getitem2 (imread imgfile) xlims ylims)) v Hv)
        as (v1 & Hv1 & Hs1 & Hd1).
      destruct (IHkeep v1 eq_refl Hv1) as (v' & Hv' & Hs' & Hd').
      exists v'. split; [exact Hv' |]. split; congruence.
Qed.

Lemma downsample_planes_volume scale chunk_size len_ds_zrange items :
  forall root init,
    get_array (downsample_planes rescale scale chunk_size len_ds_zrange items root init)
              (Named "volume")
    = get_array root (Named "volume").
Proof.
  induction items as [|[new_zindex old_zindex] items IH]; intros root init;
    cbn [downsample_planes]; [reflexivity |].
  destruct (get_array root (Named "volume")) as [volume |] eqn:Hv; [| exact Hv].
  rewrite IH. unfold write_plane.
  match goal with |- context [get_array ?r (Downsampled "volume" scale)] =>
    destruct (get_array r (Downsampled "volume" scale)) end.
  - rewrite get_array_set_other by reflexivity.
    destruct init; [rewrite root_zeros_other by reflexivity |]; exact Hv.
  - destruct init; [rewrite root_zeros_other by reflexivity |]; exact Hv.
Qed.

Lemma downsample_planes_attrs scale chunk_size len_ds_zrange items :
  forall root init,
    attrs (downsample_planes rescale scale chunk_size len_ds_zrange items root init)
    = attrs root.
Proof.
  induction items as [|[new_zindex old_zindex] items IH]; intros root init;
    cbn [downsample_planes]; [reflexivity |].
  destruct (get_array root (Named "volume")) as [volume |]; [| reflexivity].
  rewrite IH. unfold write_plane.
  match goal with |- context [get_array ?r (Downsampled "volume" scale)] =>
    destruct (get_array r (Downsampled "volume" scale)) end;
    cbn [attrs set_array]; destruct init; try reflexivity;
    unfold root_zeros; destruct chunk_size as [[c0 c1] c2]; reflexivity.
Qed.

Lemma add_downsampled_volumes_volume chunk_size len_zrange (scales : list Z) :
  forall root,
    get_array (fold_left (add_downsampled_volume rescale chunk_size len_zrange)
                         scales root) (Named "volume")
    = get_array root (Named "volume")
    /\ attrs (fold_left (add_downsampled_volume rescale chunk_size len_zrange)
                        scales root)
       = attrs root.
Proof.
  induction scales as [|s scales IH]; intros root; cbn [fold_left];
    [split; reflexivity |].
  destruct (IH (add_downsampled_volume rescale chunk_size len_zrange root s))
    as [Hv Ha].
  rewrite Hv, Ha. unfold add_downsampled_volume.
  rewrite downsample_planes_volume, downsample_planes_attrs. split; reflexivity.
Qed.

(** A multiscale volume build that ends without exception has stored the
    value of [compute_scale_levels] on the shape of a cropped slice, and a
    [volume] array with the shape of a cropped slice in its first two
    axes. *)
Lemma build_from_tiffdir_multiscale listdir chunk_size xlims ylims zlims zstride
    (root : zgroup) :
  build_from_tiffdir imread rescale None listdir chunk_size true
                     xlims ylims zlims zstride = mkOutcome (Some root) None ->
  exists f g level0 k,
    get_array root (Named "volume") = Some level0
    /\ nth 0 (za_shape level0) 0 = fst (nd_shape (getitem2 (imread f) xlims ylims))
    /\ nth 1 (za_shape level0) 0 = snd (nd_shape (getitem2 (imread f) xlims ylims))
    /\ za_dtype level0 = Int (nd_dtype (imread f))
    /\ attrs_get root "scale_levels" = Ok (AInt k)
    /\ compute_scale_levels (nd_shape (getitem2 (imread g) xlims ylims))
         (fst (fst (volume_chunks chunk_size)), snd (fst (volume_chunks chunk_size)))
       = Ok k.
Proof.
  unfold build_from_tiffdir. fold (volume_chunks chunk_size).
  destruct (zrange_of _ _ _) as [zrange | e]; [| discriminate].
  destruct (first_missing _ _); [discriminate |].
  destruct (load_slices _ _ _ _ _ _ _ _ _ _) as [[root0 img_data] err] eqn:Hload.
  destruct err as [e |]; [discriminate |].
  destruct img_data as [img_data |]; [| discriminate].
  destruct (compute_scale_levels _ _) as [k | e] eqn:Hk; [| discriminate].
  intros [= <-].
  assert (Hne : enumerate zrange <> []).
  { intros C. rewrite C in Hload. cbn [load_slices] in Hload. discriminate. }
  apply load_slices_volume in Hload. destruct Hload as (Himg & Hvol & _).
  destruct (Himg Hne) as [g Hg]. injection Hg as ->.
  destruct (Hvol eq_refl Hne) as (f & v & Hv & Hs & Hd).
  destruct (add_downsampled_volumes_volume (volume_chunks chunk_size)
              (Z.of_nat (List.length zrange)) (range 1 (k + 1))
              (attrs_set (attrs_set root0 "multiscale" (ABool true))
                         "scale_levels" (AInt k))) as [Hkeep Hattrs].
  exists f, g, v, k. rewrite Hkeep.
  split; [exact Hv |]. rewrite Hs. cbn [nth].
  split; [reflexivity |]. split; [reflexivity |]. split; [exact Hd |].
  split; [| exact Hk].
  erewrite attrs_get_attrs by exact Hattrs. apply attrs_get_set_same.
Qed.

End VolumeStoreFacts.

(** The same for a volume whose slices have one shape: the stored
    [scale_levels] is the formula on the first two axes of level 0. *)
Lemma build_from_tiffdir_formula
    (imread : string -> ndarray int_dtype)
    (rescale : ndarray dtype -> Z -> bool -> (Z * Z) * list Z)
    listdir chunk_size xlims ylims zlims zstride (root : zgroup) (sh : Z * Z) :
  (forall f, nd_shape (getitem2 (imread f) xlims ylims) = sh) ->
  0 < fst sh -> 0 < snd sh ->
  0 < fst (fst (volume_chunks chunk_size)) ->
  0 < snd (fst (volume_chunks chunk_size)) ->
  build_from_tiffdir imread rescale None listdir chunk_size true
                     xlims ylims zlims zstride = mkOutcome (Some root) None ->
  exists level0 k,
    get_array root (Named "volume") = Some level0
    /\ attrs_get root "scale_levels" = Ok (AInt k)
    /\ spec_scale_levels (nth 0 (za_shape level0) 0, nth 1 (za_shape level0) 0)
         (fst (fst (volume_chunks chunk_size)), snd (fst (volume_chunks chunk_size)))
       = Ok k
    /\ is_min10_ceil_log2_max
         (nth 0 (za_shape level0) 0, nth 1 (za_shape level0) 0)
         (fst (fst (volume_chunks chunk_size)), snd (fst (volume_chunks chunk_size)))
         k
    /\ (nth 0 (za_shape level0) 0, nth 1 (za_shape level0) 0) = sh.
Proof.
  intros Hsh Hs0 Hs1 Hc0 Hc1 Hb.
  destruct (build_from_tiffdir_multiscale imread rescale listdir chunk_size
              xlims ylims zlims zstride root Hb)
    as (f & g & level0 & k & Hv & H0 & H1 & _ & Hsl & Hk).
  rewrite Hsh in H0, H1, Hk.
  exists level0, k. split; [exact Hv |]. split; [exact Hsl |].
  rewrite H0, H1. replace (fst sh, snd sh) with sh by (destruct sh; reflexivity).
  split; [| split; [| reflexivity]].
  - rewrite <- compute_scale_levels_formula by (cbn [fst snd]; lia). exact Hk.
  - apply compute_scale_levels_real; cbn [fst snd]; assumption.
Qed.

(** A stack of two slices of shape (4096, 4096), with every argument at
    its default: the build ends without exception and stores 2. *)
Lemma build_from_tiffdir_4096
    (imread : string -> ndarray int_dtype)
    (rescale : ndarray dtype -> Z -> bool -> (Z * Z) * list Z) :
  (forall f, nd_shape (imread f) = (4096, 4096)) ->
  exists root,
    build_from_tiffdir imread rescale None ["0.tif"; "1.tif"]%string None true
                       None None None None = mkOutcome (Some root) None
    /\ attrs_get root "scale_levels" = Ok (AInt 2).
Proof.
  intros Hshape.
  assert (Hfull : forall f, nd_shape (getitem2 (imread f) None None) = (4096, 4096)).
  { intros f. unfold getitem2. rewrite Hshape. reflexivity. }
  unfold build_from_tiffdir.
  change (scan_tiffdir ["0.tif"; "1.tif"]%string)
    with [(1, "1.tif"%string); (0, "0.tif"%string)].
  change (zrange_of [(1, "1.tif"%string); (0, "0.tif"%string)] None None)
    with (@Ok (list Z) [0; 1]).
  cbv iota beta.
  change (first_missing [(1, "1.tif"%string); (0, "0.tif"%string)] [0; 1])
    with (@None Z).
  cbv iota beta.
  change (enumerate [0; 1]) with [(0, 0); (1, 1)].
  cbn [load_slices].
  change (dict_get [(1, "1.tif"%string); (0, "0.tif"%string)] 0)
    with (Ok "0.tif"%string).
  change (dict_get [(1, "1.tif"%string); (0, "0.tif"%string)] 1)
    with (Ok "1.tif"%string).
  cbv iota beta zeta.
  rewrite (Hfull "1.tif"%string).
  change (compute_scale_levels (4096, 4096) _) with (@Ok Z 2).
  cbv iota beta.
  eexists. split; [reflexivity |].
  erewrite attrs_get_attrs by (apply (add_downsampled_volumes_volume rescale)).
  apply attrs_get_set_same.
Qed.

(** C3.  The [scale_levels] a multiscale image build stores is the
    spec's formula
    [min(10, ceil(log2(max_d(level0.shape[d] / chunk_size[d]))))]
    evaluated on the shape of the level-0 array, which is the shape of
    the cropped input image, both as the executable [spec_scale_levels]
    and read over the real numbers; so is the one a multiscale volume
    build stores, over the two resampled axes, which are those of the
    cropped slices, when its slices have one shape.  The build of any
    image of shape (4096, 4096) under the default chunk size 1024 ends
    without exception and stores [scale_levels == 2]; so does every
    volume build of slices of that shape that ends without exception,
    the build of a stack of two such slices among them. *)
Theorem scale_levels_matches_formula
    (rescale : ndarray dtype -> Z -> bool -> (Z * Z) * list Z)
    (img : ndarray int_dtype) (chunk_size : option (Z * Z)) (xlims ylims : lims)
    (Hdata : nd_data img <> [])
    (Hs0 : 0 < fst (nd_shape (getitem2 img xlims ylims)))
    (Hs1 : 0 < snd (nd_shape (getitem2 img xlims ylims)))
    (Hc0 : 0 < fst (image_chunks chunk_size))
    (Hc1 : 0 < snd (image_chunks chunk_size)) :
  (exists root level0 k,
      build_from_image rescale None img chunk_size true xlims ylims
      = mkOutcome (Some root) None
      /\ get_array root (Named "image") = Some level0
      /\ attrs_get root "scale_levels" = Ok (AInt k)
      /\ spec_scale_levels (nth 0 (za_shape level0) 0, nth 1 (za_shape level0) 0)
                           (image_chunks chunk_size) = Ok k
      /\ is_min10_ceil_log2_max
           (nth 0 (za_shape level0) 0, nth 1 (za_shape level0) 0)
           (image_chunks chunk_size) k
      /\ za_shape level0 = [fst (nd_shape (getitem2 img xlims ylims));
                            snd (nd_shape (getitem2 img xlims ylims))]
      /\ spec_scale_levels (nd_shape (getitem2 img xlims ylims))
                           (image_chunks chunk_size) = Ok k
      /\ is_min10_ceil_log2_max (nd_shape (getitem2 img xlims ylims))
                                (image_chunks chunk_size) k)
  /\ (forall imread listdir chunk_size3 xlims3 ylims3 zlims zstride root sh,
        (forall f, nd_shape (getitem2 (imread f) xlims3 ylims3) = sh) ->
        0 < fst sh -> 0 < snd sh ->
        0 < fst (fst (volume_chunks chunk_size3)) ->
        0 < snd (fst (volume_chunks chunk_size3)) ->
        build_from_tiffdir imread rescale None listdir chunk_size3 true
                           xlims3 ylims3 zlims zstride = mkOutcome (Some root) None ->
        exists level0 k,
          get_array root (Named "volume") = Some level0
          /\ attrs_get root "scale_levels" = Ok (AInt k)
          /\ spec_scale_levels
               (nth 0 (za_shape level0) 0, nth 1 (za_shape level0) 0)
               (fst (fst (volume_chunks chunk_size3)),
                snd (fst (volume_chunks chunk_size3))) = Ok k
          /\ is_min10_ceil_log2_max
               (nth 0 (za_shape level0) 0, nth 1 (za_shape level0) 0)
               (fst (fst (volume_chunks chunk_size3)),
                snd (fst (volume_chunks chunk_size3))) k
          /\ (nth 0 (za_shape level0) 0, nth 1 (za_shape level0) 0) = sh)
  /\ compute_scale_levels (4096, 4096) (CHUNK_SIZE, CHUNK_SIZE) = Ok 2
  /\ spec_scale_levels (4096, 4096) (CHUNK_SIZE, CHUNK_SIZE) = Ok 2
  /\ (forall image : ndarray int_dtype,
        nd_shape image = (4096, 4096) -> nd_data image <> [] ->
        exists root level0,
          build_from_image rescale None image None true None None
          = mkOutcome (Some root) None
          /\ get_array root (Named "image") = Some level0
          /\ za_shape level0 = [4096; 4096]
          /\ attrs_get root "scale_levels" = Ok (AInt 2))
  /\ (forall imread listdir zlims zstride root,
        (forall f, nd_shape (imread f) = (4096, 4096)) ->
        build_from_tiffdir imread rescale None listdir None true
                           None None zlims zstride = mkOutcome (Some root) None ->
        attrs_get root "scale_levels" = Ok (AInt 2))
  /\ (forall imread,
        (forall f, nd_shape (imread f) = (4096, 4096)) ->
        exists root,
          build_from_tiffdir imread rescale None ["0.tif"; "1.tif"]%string None true
                             None None None None = mkOutcome (Some root) None
          /\ attrs_get root "scale_levels" = Ok (AInt 2)).
Proof.
  assert (Hfull : forall a : ndarray int_dtype,
            nd_shape a = (4096, 4096) ->
            nd_shape (getitem2 a None None) = (4096, 4096)).
  { intros a Ha. unfold getitem2. rewrite Ha. reflexivity. }
  split; [| split; [| split; [reflexivity | split; [reflexivity |
    split; [| split]]]]].
  2:{ intros imread listdir chunk_size3 xlims3 ylims3 zlims zstride root sh.
      apply build_from_tiffdir_formula. }
  4:{ intros imread. apply build_from_tiffdir_4096. }
  - destruct (get_min_datatype_nonempty img Hdata) as [d Hd].
    pose proof (compute_scale_levels_value
                  (nd_shape (getitem2 img xlims ylims)) (image_chunks chunk_size)
                  Hs0 Hs1 Hc0 Hc1) as Hk.
    destruct (build_from_image_multiscale rescale img chunk_size xlims ylims d _ Hd Hk)
      as (root & Hb & Hm & Hsl & Himg).
    assert (Hspec : spec_scale_levels (nd_shape (getitem2 img xlims ylims))
                                      (image_chunks chunk_size)
                    = compute_scale_levels (nd_shape (getitem2 img xlims ylims))
                                           (image_chunks chunk_size)).
    { symmetry. apply compute_scale_levels_formula; lia. }
    assert (Hreal : is_min10_ceil_log2_max (nd_shape (getitem2 img xlims ylims))
                      (image_chunks chunk_size)
                      (Z.min 10 (Z.max (ceil_log2_ratio
                                          (fst (nd_shape (getitem2 img xlims ylims)))
                                          (fst (image_chunks chunk_size)))
                                       (ceil_log2_ratio
                                          (snd (nd_shape (getitem2 img xlims ylims)))
                                          (snd (image_chunks chunk_size)))))).
    { apply compute_scale_levels_real; assumption. }
    eexists root, _, _. split; [exact Hb |]. split; [exact Himg |].
    split; [exact Hsl |]. cbn [za_shape nth].
    replace (fst (nd_shape (getitem2 img xlims ylims)),
             snd (nd_shape (getitem2 img xlims ylims)))
      with (nd_shape (getitem2 img xlims ylims))
      by (destruct (nd_shape (getitem2 img xlims ylims)); reflexivity).
    split; [rewrite Hspec; exact Hk |]. split; [exact Hreal |].
    split; [reflexivity |]. split; [rewrite Hspec; exact Hk | exact Hreal].
  - intros image Hshape Hne.
    destruct (get_min_datatype_nonempty image Hne) as [d Hd].
    assert (Hk : compute_scale_levels (nd_shape (getitem2 image None None))
                                      (image_chunks None) = Ok 2)
      by (rewrite (Hfull image Hshape); reflexivity).
    destruct (build_from_image_multiscale rescale image None None None d 2 Hd Hk)
      as (root & Hb & _ & Hsl & Himg).
    eexists root, _. split; [exact Hb |]. split; [exact Himg |].
    cbn [za_shape]. rewrite (Hfull image Hshape). split; [reflexivity | exact Hsl].
  - intros imread listdir zlims zstride root Hshape Hb.
    destruct (build_from_tiffdir_formula imread rescale listdir None None None
                zlims zstride root (4096, 4096)
                (fun f => Hfull (imread f) (Hshape f))
                ltac:(reflexivity) ltac:(reflexivity) ltac:(reflexivity)
                ltac:(reflexivity) Hb)
      as (level0 & k & _ & Hsl & Hspec & _ & Hsh).
    rewrite Hsh in Hspec. cbn in Hspec. injection Hspec as <-. exact Hsl.
Qed.

Lemma scale_levels_matches_formula_witness :
  exists root level0 k,
    build_from_image decimate None (mkArray uint8 (3, 2) [10; 20; 30; 40; 50; 60])
                     (Some (1, 1)) true None None
    = mkOutcome (Some root) None
    /\ get_array root (Named "image") = Some level0
    /\ attrs_get root "scale_levels" = Ok (AInt k)
    /\ za_shape level0 = [3; 2]
    /\ spec_scale_levels (3, 2) (1, 1) = Ok k
    /\ k = 2.
Proof.
  destruct (scale_levels_matches_formula decimate
              (mkArray uint8 (3, 2) [10; 20; 30; 40; 50; 60]) (Some (1, 1)) None None
              ltac:(discriminate) ltac:(cbn; lia) ltac:(cbn; lia)
              ltac:(cbn; lia) ltac:(cbn; lia))
    as ((root & level0 & k & Hb & Himg & Hsl & _ & _ & Hshape & Hspec & _) & _).
  exists root, level0, k. split; [exact Hb |]. split; [exact Himg |].
  split; [exact Hsl |]. split; [exact Hshape |]. split; [exact Hspec |].
  cbn in Hspec. injection Hspec as <-. reflexivity.
Defined.

(** ** Stores built without levels *)

Lemma build_from_image_level0
    (rescale : ndarray dtype -> Z -> bool -> (Z * Z) * list Z)
    (img : ndarray int_dtype) (chunk_size : option (Z * Z)) (multiscale : bool)
    (xlims ylims : lims) (d : dtype) :
  get_min_datatype img = Ok d ->
  exists root,
    dest (build_from_image rescale None img chunk_size multiscale xlims ylims)
    = Some root
    /\ attrs_get root "multiscale" = Ok (ABool multiscale)
    /\ get_array root (Named "image")
       = Some (mkZarray [fst (nd_shape (getitem2 img xlims ylims));
                         snd (nd_shape (getitem2 img xlims ylims))]
                        [fst (image_chunks chunk_size); snd (image_chunks chunk_size)]
                        d 0 [nd_data (getitem2 img xlims ylims)]).
Proof.
  intros Hd. unfold build_from_image. fold (image_chunks chunk_size).
  rewrite Hd, getitem2_astype. cbn [astype nd_shape nd_data nd_dtype].
  destruct multiscale.
  - destruct (compute_scale_levels _ _) as [k | e]; cbn [dest].
    + eexists. split; [reflexivity |]. split.
      * erewrite attrs_get_attrs by apply add_downsampled_images_attrs. reflexivity.
      * rewrite add_downsampled_images_level0. reflexivity.
    + eexists. split; [reflexivity |]. split; reflexivity.
  - eexists. split; [reflexivity |]. split; reflexivity.
Qed.

(** C10.  A build with [multiscale=False] stores no [scale_levels]
    attribute; the handle opened on the store has [scale_levels = 0], an
    explicit-level request at level 0 is read from the level-0 array and
    one at any level from 1 on is refused with "Only 0 downsampled
    images".  The same holds for a volume store whose [multiscale]
    attribute is false. *)
Theorem non_multiscale_store_has_level0_only
    (rescale : ndarray dtype -> Z -> bool -> (Z * Z) * list Z)
    (img : ndarray int_dtype) (chunk_size : option (Z * Z)) (xlims ylims : lims)
    (Hdata : nd_data img <> []) :
  (exists root h,
      build_from_image rescale None img chunk_size false xlims ylims
      = mkOutcome (Some root) None
      /\ attrs_get root "scale_levels" = Raise KeyError
      /\ ImageHandle.init (Some root) = Ok h
      /\ PapyrusImage.scale_levels h = 0
      /\ (forall x y,
            PapyrusImage.getitem h [x; y; SInt 0] = Ok (mkRead (Named "image") [x; y]))
      /\ (forall x y k, 1 <= k ->
            PapyrusImage.getitem h [x; y; SInt k]
            = Raise (PapyrusDataException (OnlyNDownsampled 0))))
  /\ (forall root volume,
        attrs_get root "multiscale" = Ok (ABool false) ->
        get_array root (Named "volume") = Some volume ->
        exists h,
          VolumeHandle.init (Some root) = Ok h
          /\ PapyrusVolume.scale_levels h = 0
          /\ (forall x y z,
                PapyrusVolume.getitem h [x; y; z; SInt 0]
                = Ok (mkRead (Named "volume") [x; y; z]))
          /\ (forall x y z k, 1 <= k ->
                PapyrusVolume.getitem h [x; y; z; SInt k]
                = Raise (PapyrusDataException (OnlyNDownsampled 0)))).
Proof.
  split.
  - destruct (get_min_datatype_nonempty img Hdata) as [d Hd].
    unfold build_from_image. fold (image_chunks chunk_size).
    rewrite Hd, getitem2_astype. cbn [astype nd_shape nd_data nd_dtype].
    eexists. eexists. split; [reflexivity |].
    split; [reflexivity |]. split; [reflexivity |]. split; [reflexivity |].
    split.
    + intros x y. reflexivity.
    + intros x y k Hk. unfold PapyrusImage.getitem, PapyrusImage.getitem_at.
      cbn [PapyrusImage.scale_levels].
      destruct (k <? 0) eqn:E1; [apply Z.ltb_lt in E1; lia |].
      destruct (k >? 0) eqn:E2; [reflexivity |].
      rewrite Z.gtb_ltb in E2. apply Z.ltb_ge in E2. lia.
  - intros root volume Hm Hv. unfold VolumeHandle.init. rewrite Hm, Hv.
    cbn [bind truthy]. eexists. split; [reflexivity |]. split; [reflexivity |].
    split.
    + intros x y z. reflexivity.
    + intros x y z k Hk. unfold PapyrusVolume.getitem, PapyrusVolume.getitem_at.
      cbn [PapyrusVolume.scale_levels].
      destruct (k <? 0) eqn:E1; [apply Z.ltb_lt in E1; lia |].
      destruct (k >? 0) eqn:E2; [reflexivity |].
      rewrite Z.gtb_ltb in E2. apply Z.ltb_ge in E2. lia.
Qed.

Lemma non_multiscale_store_has_level0_only_witness :
  exists root h,
    build_from_image decimate None (mkArray uint8 (2, 2) [10; 20; 30; 40])
                     None false None None
    = mkOutcome (Some root) None
    /\ attrs_get root "scale_levels" = Raise KeyError
    /\ ImageHandle.init (Some root) = Ok h
    /\ PapyrusImage.scale_levels h = 0
    /\ (forall x y,
          PapyrusImage.getitem h [x; y; SInt 0] = Ok (mkRead (Named "image") [x; y]))
    /\ (forall x y k, 1 <= k ->
          PapyrusImage.getitem h [x; y; SInt k]
          = Raise (PapyrusDataException (OnlyNDownsampled 0))).
Proof.
  apply (non_multiscale_store_has_level0_only decimate
           (mkArray uint8 (2, 2) [10; 20; 30; 40]) None None None).
  cbn. discriminate.
Defined.

(** ** The dtype of level 0 *)

Lemma fold_left_min_le (l : list Z) : forall a, fold_left Z.min l a <= a.
Proof.
  induction l as [|x l IH]; intros a; cbn; [lia |].
  specialize (IH (Z.min a x)). lia.
Qed.

Lemma fold_left_max_ge (l : list Z) : forall a, a <= fold_left Z.max l a.
Proof.
  induction l as [|x l IH]; intros a; cbn; [lia |].
  specialize (IH (Z.max a x)). lia.
Qed.

Lemma array_min_le_max {D} (a : ndarray D) (lo hi : Z) :
  array_min a = Ok lo -> array_max a = Ok hi -> lo <= hi.
Proof.
  unfold array_min, array_max. destruct (nd_data a) as [|v vs]; [discriminate |].
  intros [= <-] [= <-].
  pose proof (fold_left_min_le vs v). pose proof (fold_left_max_ge vs v). lia.
Qed.

(** On non-negative integer data [get_min_datatype] returns the smallest
    unsigned type that holds the maximum, and the boolean type when the
    maximum is 0 or 1. *)
Lemma get_min_datatype_unsigned (img : ndarray int_dtype) (lo hi : Z) :
  array_min img = Ok lo -> array_max img = Ok hi ->
  nd_dtype img <> bool8 -> 0 <= lo ->
  get_min_datatype img
  = Ok (if hi <=? 1 then Int bool8
        else if hi <=? 2 ^ 8 - 1 then Int uint8
        else if hi <=? 2 ^ 16 - 1 then Int uint16
        else if hi <=? 2 ^ 32 - 1 then Int uint32
        else Int uint64).
Proof.
  intros Hlo Hhi Hsrc H0.
  pose proof (array_min_le_max img lo hi Hlo Hhi) as Hle.
  unfold get_min_datatype. rewrite Hlo, Hhi. cbn [bind].
  assert (Hmin : forall v, 0 <= v ->
            min_scalar_type (nd_dtype img) v
            = if v <=? 2 ^ 8 - 1 then Int uint8
              else if v <=? 2 ^ 16 - 1 then Int uint16
              else if v <=? 2 ^ 32 - 1 then Int uint32
              else Int uint64).
  { intros v Hv. unfold min_scalar_type.
    destruct (nd_dtype img); try contradiction;
      (destruct (0 <=? v) eqn:E; [reflexivity | apply Z.leb_gt in E; lia]). }
  rewrite (Hmin lo H0), (Hmin hi ltac:(lia)).
  destruct (Z.leb_spec hi 1) as [H1 | H1].
  - destruct (Z.leb_spec lo (2 ^ 8 - 1)); [| lia].
    destruct (Z.leb_spec hi (2 ^ 8 - 1)); [| lia].
    assert (Hb : (hi =? 0) || (hi =? 1) = true).
    { destruct (Z.eqb_spec hi 0); [reflexivity |].
      destruct (Z.eqb_spec hi 1); [reflexivity | lia]. }
    rewrite Hb. reflexivity.
  - assert (Hb : (hi =? 0) || (hi =? 1) = false).
    { destruct (Z.eqb_spec hi 0); [lia |].
      destruct (Z.eqb_spec hi 1); [lia | reflexivity]. }
    rewrite Hb, andb_false_r.
    destruct (Z.leb_spec lo (2 ^ 8 - 1)); destruct (Z.leb_spec hi (2 ^ 8 - 1));
      try lia; try reflexivity;
      destruct (Z.leb_spec lo (2 ^ 16 - 1)); destruct (Z.leb_spec hi (2 ^ 16 - 1));
      try lia; try reflexivity;
      destruct (Z.leb_spec lo (2 ^ 32 - 1)); destruct (Z.leb_spec hi (2 ^ 32 - 1));
      try lia; reflexivity.
Qed.

Lemma itemsize_ge_of_max (d : dtype) (hi : Z) :
  hi <= dtype_max d ->
  (2 ^ 8 - 1 < hi -> 16 <= itemsize d)
  /\ (2 ^ 16 - 1 < hi -> 32 <= itemsize d)
  /\ (2 ^ 32 - 1 < hi -> 64 <= itemsize d).
Proof.
  destruct d as [[] | | |]; cbn; lia.
Qed.

Lemma itemsize_ge_8 (d : dtype) : 8 <= itemsize d.
Proof. destruct d as [[] | | |]; cbn; lia. Qed.

(** The claim that the dtype is chosen for the cropped data fails: the
    source below has maximum 300, the crop to its first row has values 0
    and 1 only (for which [get_min_datatype] answers the boolean type),
    and the level-0 array is stored as [uint16]. *)
Lemma level0_dtype_counterexample :
  get_min_datatype
    (getitem2 (mkArray uint16 (2, 2) [0; 1; 1; 300]) (Some (Some 0, Some 1)) None)
  = Ok (Int bool8)
  /\ exists root a,
      build_from_image decimate None (mkArray uint16 (2, 2) [0; 1; 1; 300])
                       None false (Some (Some 0, Some 1)) None
      = mkOutcome (Some root) None
      /\ get_array root (Named "image") = Some a
      /\ za_planes a = [[0; 1]]
      /\ za_dtype a = Int uint16
      /\ za_dtype a <> Int bool8.
Proof.
  split; [reflexivity |].
  eexists. eexists. split; [reflexivity |]. split; [reflexivity |].
  split; [reflexivity |]. split; [reflexivity | discriminate].
Qed.

(** C5, amended.  The image build chooses the dtype from the minimum and
    maximum of the whole source, before the axis limits are applied, and
    then stores the cropped pixels under it.  For non-negative integer
    data that dtype is the boolean type when the maximum is 0 or 1, and
    otherwise the smallest unsigned type that holds the maximum, which is
    a narrowest dtype for the source's minimum and maximum. *)
Theorem level0_dtype_from_whole_source
    (rescale : ndarray dtype -> Z -> bool -> (Z * Z) * list Z)
    (img : ndarray int_dtype) (chunk_size : option (Z * Z)) (multiscale : bool)
    (xlims ylims : lims) (lo hi : Z)
    (Hlo : array_min img = Ok lo) (Hhi : array_max img = Ok hi)
    (Hsrc : nd_dtype img <> bool8) (H0 : 0 <= lo) (H64 : hi <= 2 ^ 64 - 1) :
  exists root level0,
    dest (build_from_image rescale None img chunk_size multiscale xlims ylims)
    = Some root
    /\ get_array root (Named "image") = Some level0
    /\ za_planes level0 = [nd_data (getitem2 img xlims ylims)]
    /\ get_min_datatype img = Ok (za_dtype level0)
    /\ (hi <= 1 -> za_dtype level0 = Int bool8)
    /\ (1 < hi ->
        is_unsigned (za_dtype level0) = true
        /\ narrowest_for (za_dtype level0) lo hi).
Proof.
  pose proof (get_min_datatype_unsigned img lo hi Hlo Hhi Hsrc H0) as Hd.
  pose proof (array_min_le_max img lo hi Hlo Hhi) as Hle.
  destruct (build_from_image_level0 rescale img chunk_size multiscale xlims ylims _ Hd)
    as (root & Hb & _ & Himg).
  eexists root, _. split; [exact Hb |]. split; [exact Himg |].
  cbn [za_planes za_dtype]. split; [reflexivity |]. split; [exact Hd |].
  split.
  - intros H1. destruct (Z.leb_spec hi 1); [reflexivity | lia].
  - intros H1. destruct (Z.leb_spec hi 1); [lia |].
    unfold narrowest_for, represents.
    destruct (Z.leb_spec hi (2 ^ 8 - 1)).
    { split; [reflexivity |]. cbn [dtype_min dtype_max].
      split; [lia | split; [lia |]]. intros d' _ _. apply itemsize_ge_8. }
    destruct (Z.leb_spec hi (2 ^ 16 - 1)).
    { split; [reflexivity |]. cbn [dtype_min dtype_max].
      split; [lia | split; [lia |]]. intros d' _ [_ Hd'].
      apply (itemsize_ge_of_max d' hi Hd'). lia. }
    destruct (Z.leb_spec hi (2 ^ 32 - 1)).
    { split; [reflexivity |]. cbn [dtype_min dtype_max].
      split; [lia | split; [lia |]]. intros d' _ [_ Hd'].
      apply (itemsize_ge_of_max d' hi Hd'). lia. }
    split; [reflexivity |]. cbn [dtype_min dtype_max].
    split; [lia | split; [lia |]]. intros d' _ [_ Hd'].
    apply (itemsize_ge_of_max d' hi Hd'). lia.
Qed.

Lemma level0_dtype_from_whole_source_witness :
  exists root level0,
    dest (build_from_image decimate None (mkArray uint16 (2, 2) [0; 1; 1; 300])
            None false (Some (Some 0, Some 1)) None)
    = Some root
    /\ get_array root (Named "image") = Some level0
    /\ za_planes level0
       = [nd_data (getitem2 (mkArray uint16 (2, 2) [0; 1; 1; 300])
                            (Some (Some 0, Some 1)) None)]
    /\ get_min_datatype (mkArray uint16 (2, 2) [0; 1; 1; 300])
       = Ok (za_dtype level0)
    /\ (300 <= 1 -> za_dtype level0 = Int bool8)
    /\ (1 < 300 ->
        is_unsigned (za_dtype level0) = true
        /\ narrowest_for (za_dtype level0) 0 300).
Proof.
  apply (level0_dtype_from_whole_source decimate
           (mkArray uint16 (2, 2) [0; 1; 1; 300]) None false
           (Some (Some 0, Some 1)) None 0 300);
    try reflexivity; try discriminate; lia.
Defined.

(** With a negative minimum the choice need not be narrowest: for values
    between -1 and 100, which [int8] holds, the answer is [int16]. *)
Example get_min_datatype_mixed_sign :
  get_min_datatype (mkArray int8 (1, 2) [-1; 100]) = Ok (Int int16).
Proof. reflexivity. Qed.

(** ** The dtype of the downsampled levels *)

Lemma array_name_eqb_neq (a b : array_name) : array_name_eqb a b = false -> a <> b.
Proof. intros H ->. rewrite array_name_eqb_refl in H. discriminate. Qed.

Lemma get_array_set_array (root : zgroup) (n m : array_name) (a b : zarray) :
  get_array (set_array root n a) m = Some b ->
  (n = m /\ b = a) \/ (n <> m /\ get_array root m = Some b).
Proof.
  destruct (array_name_eqb n m) eqn:E.
  - apply array_name_eqb_eq in E. subst m. rewrite get_array_set_same.
    intros [= <-]. left. split; reflexivity.
  - rewrite get_array_set_other by exact E. intros H. right.
    split; [apply array_name_eqb_neq; exact E | exact H].
Qed.

Lemma write_plane_dtype (root : zgroup) (n m : array_name) (z : Z)
    (data : list Z) (b : zarray) :
  get_array (write_plane root n z data) m = Some b ->
  exists a, get_array root m = Some a /\ za_dtype a = za_dtype b.
Proof.
  unfold write_plane. destruct (get_array root n) as [a |] eqn:Hn.
  - intros H. apply get_array_set_array in H.
    destruct H as [[-> ->] | [_ H]].
    + exists a. split; [exact Hn | reflexivity].
    + exists b. split; [exact H | reflexivity].
  - intros H. exists b. split; [exact H | reflexivity].
Qed.

Lemma root_zeros_dtype (root : zgroup) (n m : array_name)
    (shape chunks : Z * Z * Z) (d : option dtype) (b : zarray) :
  get_array (root_zeros root n shape chunks d) m = Some b ->
  (n = m /\ za_dtype b = match d with Some d => d | None => float64 end)
  \/ (n <> m /\ get_array root m = Some b).
Proof.
  unfold root_zeros. destruct shape as [[s0 s1] s2], chunks as [[c0 c1] c2].
  intros H. apply get_array_set_array in H.
  destruct H as [[-> ->] | H]; [left; split; reflexivity | right; exact H].
Qed.

Lemma write_plane_float64 (root : zgroup) (n : array_name) (z : Z) (data : list Z) :
  downsampled_float64 root -> downsampled_float64 (write_plane root n z data).
Proof.
  intros I scale b Hb. apply write_plane_dtype in Hb.
  destruct Hb as (a & Ha & <-). exact (I scale a Ha).
Qed.

Lemma root_zeros_float64 (root : zgroup) (n : array_name)
    (shape chunks : Z * Z * Z) (d : option dtype) :
  downsampled_float64 root ->
  is_downsampled_name "volume" n = false \/ d = None ->
  downsampled_float64 (root_zeros root n shape chunks d).
Proof.
  intros I Hn scale b Hb. apply root_zeros_dtype in Hb.
  destruct Hb as [[-> Hd] | [_ Hb]]; [| exact (I scale b Hb)].
  destruct Hn as [Hn | ->]; [discriminate | exact Hd].
Qed.

Lemma attrs_set_float64 (root : zgroup) (key : string) (v : attr) :
  downsampled_float64 root -> downsampled_float64 (attrs_set root key v).
Proof. intros I scale a Ha. exact (I scale a Ha). Qed.

Section VolumeBuildFacts.

Variable imread : string -> ndarray int_dtype.
Variable rescale : ndarray dtype -> Z -> bool -> (Z * Z) * list Z.

Lemma load_slices_float64 imgfiles xlims ylims chunk_size len_zrange items :
  forall root init img_data,
    downsampled_float64 root ->
    downsampled_float64
      (fst (fst (load_slices imread imgfiles xlims ylims chunk_size len_zrange
                             items root init img_data))).
Proof.
  induction items as [|[z_index img_index] items IH]; intros root init img_data I;
    cbn [load_slices]; [exact I |].
  destruct (dict_get imgfiles img_index) as [imgfile | e]; [| exact I].
  apply IH. apply write_plane_float64.
  destruct init; [| exact I].
  apply root_zeros_float64; [exact I | left; reflexivity].
Qed.

Lemma downsample_planes_float64 scale chunk_size len_ds_zrange items :
  forall root init,
    downsampled_float64 root ->
    downsampled_float64
      (downsample_planes rescale scale chunk_size len_ds_zrange items root init).
Proof.
  induction items as [|[new_zindex old_zindex] items IH]; intros root init I;
    cbn [downsample_planes]; [exact I |].
  destruct (get_array root (Named "volume")) as [volume |]; [| exact I].
  apply IH. apply write_plane_float64.
  destruct init; [| exact I].
  apply root_zeros_float64; [exact I | right; reflexivity].
Qed.

Lemma add_downsampled_volumes_float64 chunk_size len_zrange (scales : list Z) :
  forall root,
    downsampled_float64 root ->
    downsampled_float64
      (fold_left (add_downsampled_volume rescale chunk_size len_zrange) scales root).
Proof.
  induction scales as [|s scales IH]; intros root I; cbn [fold_left]; [exact I |].
  apply IH. unfold add_downsampled_volume. apply downsample_planes_float64. exact I.
Qed.

(** Whatever a volume build leaves at the destination, its downsampled
    levels are [float64]. *)
Lemma build_from_tiffdir_float64 listdir chunk_size multiscale xlims ylims zlims zstride
    (root : zgroup) :
  dest (build_from_tiffdir imread rescale None listdir chunk_size multiscale
                           xlims ylims zlims zstride) = Some root ->
  downsampled_float64 root.
Proof.
  unfold build_from_tiffdir.
  destruct (zrange_of _ _ _) as [zrange | e]; [| discriminate].
  destruct (first_missing _ _); [discriminate |].
  match goal with
  | |- context [load_slices ?a ?b ?c ?d ?e ?f ?g ?h ?i ?j] =>
      pose proof (load_slices_float64 b c d e f g h i j) as Hload;
      destruct (load_slices a b c d e f g h i j) as [[root0 img_data] err]
  end.
  cbn [fst] in Hload.
  assert (I0 : downsampled_float64 root0).
  { apply Hload. intros scale a Ha. discriminate. }
  destruct err as [e |]; [intros [= <-]; exact I0 |].
  destruct multiscale; [| intros [= <-]; apply attrs_set_float64; exact I0].
  destruct img_data as [img_data |];
    [| intros [= <-]; apply attrs_set_float64; exact I0].
  destruct (compute_scale_levels _ _) as [k | e];
    [| intros [= <-]; apply attrs_set_float64; exact I0].
  intros [= <-]. apply add_downsampled_volumes_float64.
  apply attrs_set_float64. apply attrs_set_float64. exact I0.
Qed.

End VolumeBuildFacts.

(** C6.  The image build keeps the level-0 dtype on every level, the
    volume build does not: [root.zeros] is called without [dtype] for the
    downsampled levels, so each of them is [float64] whatever the dtype
    of level 0.  On a stack of two 4 x 4 [uint16] planes with chunk shape
    (2, 2, 1) the build stores [volume] as [uint16] and
    [volume_downsampled1] as [float64]. *)
Theorem volume_levels_are_float64 :
  (forall imread rescale listdir chunk_size multiscale xlims ylims zlims zstride
          root scale a,
      dest (build_from_tiffdir imread rescale None listdir chunk_size multiscale
                               xlims ylims zlims zstride) = Some root ->
      get_array root (Downsampled "volume" scale) = Some a ->
      za_dtype a = float64)
  /\ (exists root level0 level1,
      build_from_tiffdir constant_plane decimate None
        ["0.tif"; "1.tif"]%string (Some (2, 2, 1)) true None None None None
      = mkOutcome (Some root) None
      /\ attrs_get root "scale_levels" = Ok (AInt 1)
      /\ get_array root (Named "volume") = Some level0
      /\ za_dtype level0 = Int uint16
      /\ get_array root (Downsampled "volume" 1) = Some level1
      /\ za_dtype level1 = float64
      /\ za_dtype level1 <> za_dtype level0)
  /\ (forall rescale img_data chunk_size scales root scale a,
      In scale scales ->
      get_array (fold_left (add_downsampled_image rescale img_data chunk_size)
                           scales root)
                (Downsampled "image" scale) = Some a ->
      za_dtype a = nd_dtype img_data).
Proof.
  split; [| split].
  - intros imread rescale listdir chunk_size multiscale xlims ylims zlims zstride
           root scale a Hb Ha.
    exact (build_from_tiffdir_float64 imread rescale listdir chunk_size multiscale
             xlims ylims zlims zstride root Hb scale a Ha).
  - eexists. eexists. eexists. split; [vm_compute; reflexivity |].
    split; [reflexivity |]. split; [reflexivity |]. split; [reflexivity |].
    split; [reflexivity |]. split; [reflexivity |]. discriminate.
  - intros rescale img_data chunk_size scales root scale a Hin Ha.
    exact (add_downsampled_images_dtype rescale img_data chunk_size scales root
             scale a Hin Ha).
Qed.

Example volume_store :
  build_from_tiffdir constant_plane decimate None
    ["0.tif"; "1.tif"]%string (Some (2, 2, 1)) true None None None None
  = mkOutcome
      (Some (mkGroup
               [(Downsampled "volume" 1,
                 mkZarray [2; 2; 1] [2; 2; 1] float64 0 [[300; 300; 300; 300]]);
                (Named "volume",
                 mkZarray [4; 4; 2] [2; 2; 1] (Int uint16) 0
                          [repeat 300 16; repeat 300 16])]
               [("scale_levels"%string, AInt 1); ("multiscale"%string, ABool true)]))
      None.
Proof. vm_compute. reflexivity. Qed.

(** ** Missing slices *)

(** With [zlims] given, [zrange_of] never returns: the keyword call of
    [range] raises (or, with an open upper limit over an empty directory,
    [max] does). *)
Lemma zrange_of_zlims (imgfiles : dict) (zstart zstop zstride : option Z) :
  zrange_of imgfiles (Some (zstart, zstop)) zstride = Raise TypeError
  \/ zrange_of imgfiles (Some (zstart, zstop)) zstride = Raise ValueError.
Proof.
  unfold zrange_of. destruct zstop as [z |]; [left; reflexivity |].
  unfold max_of. destruct (keys imgfiles); [right | left]; reflexivity.
Qed.

(** The check loop on the path that reaches it: a missing index stops the
    build before the store is opened, and the index named is one of the
    requested range that has no file. *)
Lemma build_from_tiffdir_missing
    (imread : string -> ndarray int_dtype)
    (rescale : ndarray dtype -> Z -> bool -> (Z * Z) * list Z)
    (listdir : list string) chunk_size multiscale xlims ylims zlims zstride
    (zrange : list Z) (z : Z) :
  zrange_of (scan_tiffdir listdir) zlims zstride = Ok zrange ->
  In z zrange -> dict_in z (scan_tiffdir listdir) = false ->
  exists z',
    build_from_tiffdir imread rescale None listdir chunk_size multiscale
                       xlims ylims zlims zstride
    = mkOutcome None (Some (PapyrusDataException (MissingImageFile z')))
    /\ In z' zrange /\ dict_in z' (scan_tiffdir listdir) = false.
Proof.
  intros Hz Hin Hmiss. unfold build_from_tiffdir. rewrite Hz.
  unfold first_missing.
  destruct (find _ zrange) as [z' |] eqn:Hf.
  - apply find_some in Hf. destruct Hf as [Hin' Hm'].
    exists z'. split; [reflexivity |]. split; [exact Hin' |].
    apply negb_true_iff in Hm'. exact Hm'.
  - pose proof (find_none _ _ Hf z Hin) as Hn. cbv beta in Hn.
    rewrite Hmiss in Hn. discriminate.
Qed.

(** C9.  The code breaks the claim for a requested z-range: on the stack
    of slices 0 to 99 without slice 57 and [zlims = (0, 100)] the build
    ends with [TypeError], raised by [range(zstart, zstop, step=zstride)],
    and never reaches the check that would name index 57; this is so for
    every [zlims] that is given.  With [zlims=None] the same stack fails
    with "Missing image file 57", and in both cases nothing is written. *)
Theorem requested_zrange_raises_type_error :
  build_from_tiffdir constant_plane decimate None stack_without_57 None true
                     None None (Some (Some 0, Some 100)) None
  = mkOutcome None (Some TypeError)
  /\ (forall imread rescale listdir chunk_size multiscale xlims ylims
             zstart zstop zstride,
        let out := build_from_tiffdir imread rescale None listdir chunk_size
                     multiscale xlims ylims (Some (zstart, zstop)) zstride in
        dest out = None
        /\ (raised out = Some TypeError \/ raised out = Some ValueError))
  /\ build_from_tiffdir constant_plane decimate None stack_without_57 None true
                        None None None None
     = mkOutcome None (Some (PapyrusDataException (MissingImageFile 57))).
Proof.
  split; [vm_compute; reflexivity | split; [| vm_compute; reflexivity]].
  intros imread rescale listdir chunk_size multiscale xlims ylims
         zstart zstop zstride. cbv zeta.
  unfold build_from_tiffdir.
  destruct (zrange_of_zlims (scan_tiffdir listdir) zstart zstop zstride) as [-> | ->];
    cbn [dest raised]; split; auto.
Qed.

(** * Further properties *)

(** ** Rebasing selectors *)

Lemma bind_Ok_r {A} (r : result A) : bind r Ok = r.
Proof. destruct r; reflexivity. Qed.

Lemma div_pow2_pow2 (v a b : Z) :
  0 <= a -> 0 <= b -> v / 2 ^ a / 2 ^ b = v / 2 ^ (a + b).
Proof.
  intros Ha Hb. rewrite Z.pow_add_r by lia.
  apply Z.div_div; [| apply Z.pow_pos_nonneg; lia].
  pose proof (Z.pow_pos_nonneg 2 a ltac:(lia) Ha). lia.
Qed.

Lemma option_floordiv_pow2 (v : option Z) (a b : Z) :
  0 <= a -> 0 <= b ->
  option_floordiv (option_floordiv v (2 ^ a)) (2 ^ b)
  = option_floordiv v (2 ^ (a + b)).
Proof.
  intros Ha Hb. destruct v as [v |]; [| reflexivity]. cbn.
  rewrite div_pow2_pow2 by assumption. reflexivity.
Qed.

(** X1.  Rebasing by [a] levels and then by [b] more is rebasing by [a + b]
    levels, errors included: the floor divisions compose. *)
Theorem downsample_slice_compose (item : selector) (a b : Z)
    (Ha : 0 <= a) (Hb : 0 <= b) :
  (i <- downsample_slice item a ;; downsample_slice i b)
  = downsample_slice item (a + b).
Proof.
  destruct (Z.eq_dec a 0) as [-> | Na].
  { rewrite downsample_slice_level0. cbn [bind]. reflexivity. }
  destruct (Z.eq_dec b 0) as [-> | Nb].
  { rewrite Z.add_0_r.
    transitivity (bind (downsample_slice item a) Ok); [| apply bind_Ok_r].
    reflexivity. }
  unfold downsample_slice.
  destruct (Z.eqb_spec a 0); [contradiction |].
  destruct (Z.eqb_spec (a + b) 0); [lia |].
  destruct item as [i | start stop [step |] | | bo]; cbn [bind]; try reflexivity.
  - destruct (Z.eqb_spec b 0); [contradiction |].
    rewrite div_pow2_pow2 by assumption. reflexivity.
  - destruct (Z.eqb_spec b 0); [contradiction |].
    rewrite !option_floordiv_pow2 by assumption. reflexivity.
  - destruct (Z.eqb_spec b 0); [contradiction |].
    rewrite div_pow2_pow2 by assumption. reflexivity.
Qed.

Lemma downsample_slice_compose_witness :
  (i <- downsample_slice (SSlice (Some 13) (Some 4001) None) 1 ;;
   downsample_slice i 2)
  = downsample_slice (SSlice (Some 13) (Some 4001) None) (1 + 2).
Proof.
  apply (downsample_slice_compose (SSlice (Some 13) (Some 4001) None) 1 2); lia.
Defined.

Lemma div_sub_bounds (start stop d : Z) :
  0 < d ->
  (stop - start) / d <= stop / d - start / d <= (stop - start) / d + 1.
Proof.
  intros Hd.
  pose proof (Z.div_mod start d ltac:(lia)) as E1.
  pose proof (Z.div_mod stop d ltac:(lia)) as E2.
  pose proof (Z.div_mod (stop - start) d ltac:(lia)) as E3.
  pose proof (Z.mod_pos_bound start d Hd).
  pose proof (Z.mod_pos_bound stop d Hd).
  pose proof (Z.mod_pos_bound (stop - start) d Hd).
  nia.
Qed.

(** X2.  A range rebased to level [k] keeps its order, and its size is the
    size divided by [2^k], or one more: [get_slice_size] of the rebased
    range against the halved size the level loop works with. *)
Theorem rebased_range_size (start stop k dimsize dimsize' : Z) (Hk : 0 <= k) :
  exists start' stop' size size',
    downsample_slice (SSlice (Some start) (Some stop) None) k
    = Ok (SSlice (Some start') (Some stop') None)
    /\ get_slice_size (SSlice (Some start) (Some stop) None) dimsize = Ok size
    /\ get_slice_size (SSlice (Some start') (Some stop') None) dimsize' = Ok size'
    /\ size / 2 ^ k <= size' <= size / 2 ^ k + 1
    /\ (start <= stop -> start' <= stop')
    /\ (forall i, start <= i < stop -> start' <= i / 2 ^ k <= stop')
    /\ (forall i, start <= i < stop -> stop mod 2 ^ k = 0 -> i / 2 ^ k < stop').
Proof.
  pose proof (Z.pow_pos_nonneg 2 k ltac:(lia) Hk) as Hd.
  exists (start / 2 ^ k), (stop / 2 ^ k), (stop - start),
         (stop / 2 ^ k - start / 2 ^ k).
  split; [rewrite downsample_slice_range; reflexivity |].
  split; [reflexivity |]. split; [reflexivity |].
  split; [apply div_sub_bounds; exact Hd |].
  split; [intros H; apply Z.div_le_mono; lia |].
  split.
  - intros i Hi. split; apply Z.div_le_mono; lia.
  - intros i Hi Hm. apply Z.div_lt_upper_bound; [exact Hd |].
    rewrite Z.mul_comm.
    pose proof (Z.div_mod stop (2 ^ k) ltac:(lia)). lia.
Qed.

Lemma rebased_range_size_witness :
  exists start' stop' size size',
    downsample_slice (SSlice (Some 5) (Some 4000) None) 2
    = Ok (SSlice (Some start') (Some stop') None)
    /\ get_slice_size (SSlice (Some 5) (Some 4000) None) 4096 = Ok size
    /\ get_slice_size (SSlice (Some start') (Some stop') None) 1024 = Ok size'
    /\ size / 2 ^ 2 <= size' <= size / 2 ^ 2 + 1
    /\ (5 <= 4000 -> start' <= stop')
    /\ (forall i, 5 <= i < 4000 -> start' <= i / 2 ^ 2 <= stop')
    /\ (forall i, 5 <= i < 4000 -> 4000 mod 2 ^ 2 = 0 -> i / 2 ^ 2 < stop').
Proof.
  apply (rebased_range_size 5 4000 2 4096 1024). lia.
Defined.

(** ** The size of a range *)

(** X3.  For bounds that lie within the axis and are in order,
    [get_slice_size] is the number of indices the slice selects. *)
Theorem get_slice_size_in_bounds (lo hi : option Z) (dimsize : Z)
    (Hlo : match lo with Some s => 0 <= s <= dimsize | None => True end)
    (Hhi : match hi with Some s => 0 <= s <= dimsize | None => True end)
    (Hdim : 0 <= dimsize)
    (Hord : match lo, hi with Some s, Some e => s <= e | _, _ => True end) :
  get_slice_size (SSlice lo hi None) dimsize = Ok (slice_length dimsize lo hi).
Proof.
  unfold get_slice_size, slice_length, slice_indices, adjust_index.
  destruct lo as [s |], hi as [e |]; f_equal.
  - destruct (Z.ltb_spec s 0); [lia |]. destruct (Z.ltb_spec e 0); lia.
  - destruct (Z.ltb_spec s 0); lia.
  - destruct (Z.ltb_spec e 0); lia.
  - lia.
Qed.

Lemma get_slice_size_in_bounds_witness :
  get_slice_size (SSlice (Some 10) None None) 100
  = Ok (slice_length 100 (Some 10) None).
Proof.
  apply (get_slice_size_in_bounds (Some 10) None 100); cbn; lia || exact I.
Defined.

(** Outside these bounds it is not: a negative bound counts from the end
    for Python, and as it stands for [get_slice_size]. *)
Example get_slice_size_negative_bound :
  get_slice_size (SSlice (Some (-10)) None None) 100 = Ok 110
  /\ slice_length 100 (Some (-10)) None = 10.
Proof. split; reflexivity. Qed.

(** ** The level the loop selects *)

Lemma lod_loop_ge (scale_levels scale size : Z) :
  scale <= fst (lod_loop scale_levels scale size).
Proof.
  destruct (Z_le_gt_dec scale scale_levels) as [Hle | Hgt].
  - destruct (lod_loop_level (Z.to_nat (scale_levels - scale)) scale_levels scale
                size eq_refl Hle) as ((H & _) & _). exact H.
  - rewrite lod_loop_eq. destruct (Z.ltb_spec scale scale_levels); [lia |].
    cbn. lia.
Qed.

Lemma lod_loop_mono (n : nat) :
  forall scale_levels scale_levels' scale size size',
    Z.to_nat (scale_levels' - scale) = n ->
    scale_levels <= scale_levels' -> size <= size' ->
    fst (lod_loop scale_levels scale size)
    <= fst (lod_loop scale_levels' scale size').
Proof.
  induction n as [|n IH]; intros sl sl' s size size' Hn Hsl Hsize.
  - rewrite (lod_loop_eq sl), (lod_loop_eq sl').
    destruct (Z.ltb_spec s sl); [lia |]. destruct (Z.ltb_spec s sl'); [lia |].
    cbn. lia.
  - rewrite (lod_loop_eq sl).
    destruct (Z.ltb_spec s sl) as [Hlt | Hge]; cbn [andb];
      [| cbn [fst]; apply lod_loop_ge].
    destruct (size >? CHUNK_SIZE / 4) eqn:Hgt; [| cbn [fst]; apply lod_loop_ge].
    rewrite (lod_loop_eq sl').
    destruct (Z.ltb_spec s sl'); [| lia]. cbn [andb].
    assert (Hgt' : (size' >? CHUNK_SIZE / 4) = true).
    { apply Z.gtb_lt in Hgt. apply Z.gtb_lt. lia. }
    rewrite Hgt'. apply IH; [lia | exact Hsl |].
    apply Z.div_le_mono; lia.
Qed.

(** X4.  A larger span never resolves to a finer level, and neither does the
    same span on a store with more levels. *)
Theorem selected_level_monotone (scale_levels scale_levels' size size' : Z)
    (Hsl : scale_levels <= scale_levels') (Hsize : size <= size') :
  fst (lod_loop scale_levels 0 size) <= fst (lod_loop scale_levels' 0 size').
Proof.
  exact (lod_loop_mono (Z.to_nat (scale_levels' - 0)) scale_levels scale_levels'
           0 size size' eq_refl Hsl Hsize).
Qed.

Lemma selected_level_monotone_witness :
  fst (lod_loop 2 0 700) <= fst (lod_loop 5 0 4000).
Proof.
  apply (selected_level_monotone 2 5 700 4000); lia.
Defined.

(** X5.  The loop does not overshoot: once it has left level 0, the halved
    span it ends on is at least an eighth of a chunk; and if it ends
    below [scale_levels], at most a quarter. *)
Theorem selected_level_window (scale_levels size : Z)
    (Hsl : 0 <= scale_levels) :
  let level := fst (lod_loop scale_levels 0 size) in
  let final := snd (lod_loop scale_levels 0 size) in
  final = size / 2 ^ level
  /\ (1 <= level -> CHUNK_SIZE / 8 <= final)
  /\ (level < scale_levels -> final <= CHUNK_SIZE / 4).
Proof.
  cbv zeta.
  destruct (lod_loop_level (Z.to_nat (scale_levels - 0)) scale_levels 0 size
              eq_refl Hsl) as (Hr & Hs & Hj & Hstop).
  rewrite Z.sub_0_r in Hs.
  set (level := fst (lod_loop scale_levels 0 size)) in *.
  split; [exact Hs |]. split; [| exact Hstop].
  intros H1. specialize (Hj (level - 1) ltac:(lia)).
  rewrite Z.sub_0_r in Hj. rewrite Hs.
  change (CHUNK_SIZE / 4) with 256 in Hj. change (CHUNK_SIZE / 8) with 128.
  replace (size / 2 ^ level) with (size / 2 ^ (level - 1) / 2 ^ 1).
  - rewrite Z.pow_1_r. apply Z.div_le_lower_bound; lia.
  - rewrite div_pow2_pow2 by lia. f_equal. f_equal. lia.
Qed.

Lemma selected_level_window_witness :
  let level := fst (lod_loop 4 0 4000) in
  let final := snd (lod_loop 4 0 4000) in
  final = 4000 / 2 ^ level
  /\ (1 <= level -> CHUNK_SIZE / 8 <= final)
  /\ (level < 4 -> final <= CHUNK_SIZE / 4).
Proof.
  apply (selected_level_window 4 4000). lia.
Defined.

(** ** What a resolved request reads *)

Lemma subimage_level (base : string) (scale_levels k : Z) :
  0 <= k <= scale_levels ->
  level_of_store base scale_levels
    (if k =? 0 then Named base else Downsampled base k).
Proof.
  intros Hk. destruct (Z.eqb_spec k 0); [left; reflexivity |].
  right. exists k. split; [lia | reflexivity].
Qed.

Lemma image_getitem_at_level (self : PapyrusImage.handle) (x y level : selector)
    (rd : read) :
  PapyrusImage.getitem_at self x y level = Ok rd ->
  level_of_store "image" (PapyrusImage.scale_levels self) (read_array rd)
  /\ List.length (read_key rd) = 2%nat.
Proof.
  unfold PapyrusImage.getitem_at.
  destruct level as [k | | | b]; try discriminate.
  - destruct (Z.ltb_spec k 0); [discriminate |].
    destruct (k >? _) eqn:G; [discriminate |].
    rewrite Z.gtb_ltb in G. apply Z.ltb_ge in G.
    destruct (downsample_slice x k); [| discriminate].
    destruct (downsample_slice y k); [| discriminate].
    cbn [bind]. intros [= <-]. cbn [read_array read_key].
    split; [apply subimage_level; lia | reflexivity].
  - destruct (Z.b2z b <? 0); [discriminate |].
    destruct (Z.b2z b >? _); [discriminate |].
    destruct (downsample_slice x _); [| discriminate].
    destruct (downsample_slice y _); [| discriminate].
    cbn [bind]. destruct b; [discriminate |]. intros [= <-].
    cbn [read_array read_key]. split; [left; reflexivity | reflexivity].
Qed.

Lemma volume_getitem_at_level (self : PapyrusVolume.handle) (x y z level : selector)
    (rd : read) :
  PapyrusVolume.getitem_at self x y z level = Ok rd ->
  level_of_store "volume" (PapyrusVolume.scale_levels self) (read_array rd)
  /\ List.length (read_key rd) = 3%nat.
Proof.
  unfold PapyrusVolume.getitem_at.
  destruct level as [k | | | b]; try discriminate.
  - destruct (Z.ltb_spec k 0); [discriminate |].
    destruct (k >? _) eqn:G; [discriminate |].
    rewrite Z.gtb_ltb in G. apply Z.ltb_ge in G.
    destruct (downsample_slice x k); [| discriminate].
    destruct (downsample_slice y k); [| discriminate].
    destruct (downsample_slice z k); [| discriminate].
    cbn [bind]. intros [= <-]. cbn [read_array read_key].
    split; [apply subimage_level; lia | reflexivity].
  - destruct (Z.b2z b <? 0); [discriminate |].
    destruct (Z.b2z b >? _); [discriminate |].
    destruct (downsample_slice x _); [| discriminate].
    destruct (downsample_slice y _); [| discriminate].
    destruct (downsample_slice z _); [| discriminate].
    cbn [bind]. destruct b; [discriminate |]. intros [= <-].
    cbn [read_array read_key]. split; [left; reflexivity | reflexivity].
Qed.

Lemma image_getitem_level (img : PapyrusImage.handle) (key : list selector)
    (rd : read) :
  PapyrusImage.getitem img key = Ok rd ->
  (List.length key = 2 \/ List.length key = 3)%nat
  /\ level_of_store "image" (PapyrusImage.scale_levels img) (read_array rd)
  /\ List.length (read_key rd) = 2%nat.
Proof.
  destruct key as [|x [|y [|s [|? ?]]]]; try discriminate.
  - cbn [PapyrusImage.getitem]. intros H. split; [left; reflexivity |].
    destruct (isinstance_int x || isinstance_int y).
    + injection H as <-. split; [left; reflexivity | reflexivity].
    + destruct (get_slice_size x _); [| discriminate].
      destruct (get_slice_size y _); [| discriminate].
      cbn [bind] in H. apply image_getitem_at_level in H. exact H.
  - cbn [PapyrusImage.getitem]. intros H. split; [right; reflexivity |].
    apply image_getitem_at_level in H. exact H.
Qed.

Lemma volume_getitem_level (vol : PapyrusVolume.handle) (key : list selector)
    (rd : read) :
  PapyrusVolume.getitem vol key = Ok rd ->
  (List.length key = 3 \/ List.length key = 4)%nat
  /\ level_of_store "volume" (PapyrusVolume.scale_levels vol) (read_array rd)
  /\ List.length (read_key rd) = 3%nat.
Proof.
  destruct key as [|x [|y [|z [|s [|? ?]]]]]; try discriminate.
  - cbn [PapyrusVolume.getitem]. intros H. split; [left; reflexivity |].
    destruct (isinstance_int x || isinstance_int y || isinstance_int z).
    + injection H as <-. split; [left; reflexivity | reflexivity].
    + destruct (get_slice_size x _); [| discriminate].
      destruct (get_slice_size y _); [| discriminate].
      destruct (get_slice_size z _); [| discriminate].
      cbn [bind] in H. apply volume_getitem_at_level in H. exact H.
  - cbn [PapyrusVolume.getitem]. intros H. split; [right; reflexivity |].
    apply volume_getitem_at_level in H. exact H.
Qed.

(** X6.  Whatever the key, a request that is not refused has the rank or the
    rank plus one selectors, reads level 0 or a level from 1 to
    [scale_levels] and no other array, and reads it with one selector per
    axis.  A key of any other length, a shorter one too, gets "Too many
    indices". *)
Theorem resolved_request_reads_a_level
    (img : PapyrusImage.handle) (vol : PapyrusVolume.handle)
    (key : list selector) :
  (forall rd, PapyrusImage.getitem img key = Ok rd ->
     (List.length key = 2 \/ List.length key = 3)%nat
     /\ level_of_store "image" (PapyrusImage.scale_levels img) (read_array rd)
     /\ List.length (read_key rd) = 2%nat)
  /\ (forall rd, PapyrusVolume.getitem vol key = Ok rd ->
     (List.length key = 3 \/ List.length key = 4)%nat
     /\ level_of_store "volume" (PapyrusVolume.scale_levels vol) (read_array rd)
     /\ List.length (read_key rd) = 3%nat)
  /\ (List.length key <> 2%nat -> List.length key <> 3%nat ->
      PapyrusImage.getitem img key = Raise (PapyrusDataException TooManyIndices))
  /\ (List.length key <> 3%nat -> List.length key <> 4%nat ->
      PapyrusVolume.getitem vol key = Raise (PapyrusDataException TooManyIndices)).
Proof.
  split; [| split; [| split]].
  - intros rd. apply image_getitem_level.
  - intros rd. apply volume_getitem_level.
  - intros H2 H3. destruct key as [|x [|y [|s [|? ?]]]]; try reflexivity;
      cbn in H2, H3; congruence.
  - intros H3 H4. destruct key as [|x [|y [|z [|s [|? ?]]]]]; try reflexivity;
      cbn in H3, H4; congruence.
Qed.

(** ** The timer *)

Section TimerFacts.

Variable time : Type.
Variable sub : time -> time -> time.

Lemma timer_invariant_step (text0 : string) (calls : list (Timer.call time))
    (st : Timer.timer time * list (string * time)) (c : Timer.call time) :
  timer_invariant sub text0 calls st ->
  timer_invariant sub text0 (calls ++ [c]) (Timer.step sub st c).
Proof.
  intros (Ht & Hl & Hstop & Hstart & Hrun & Hout).
  destruct st as [[text logger [started |]] out];
    unfold running in Hstart;
    cbn [fst snd Timer._start_time Timer.text Timer.logger] in *.
  all: assert (Hout' : Forall (fun line =>
               fst line = text0
               /\ exists t0 t1,
                    In (Timer.CallStart t0) (calls ++ [c])
                    /\ In (Timer.CallStop t1) (calls ++ [c])
                    /\ snd line = sub t1 t0) out)
    by (eapply Forall_impl; [| exact Hout];
        intros line (Hf & t0 & t1 & H0 & H1 & Hs); split; [exact Hf |];
        exists t0, t1; split; [| split; [| exact Hs]]; apply in_or_app; left;
        assumption).
  all: destruct c as [now | now];
       unfold timer_invariant, Timer.step, Timer.start, Timer.stop, running;
       cbn [fst snd Timer._start_time Timer.text Timer.logger];
       rewrite ?filter_app, ?length_app; cbn [filter is_start is_stop List.length].
  - (* start on a running timer: refused *)
    split; [exact Ht | split; [exact Hl | split; [lia | split; [lia | split]]]].
    + intros t0 H0. apply in_or_app. left. apply Hrun. exact H0.
    + exact Hout'.
  - (* stop on a running timer *)
    subst logger. rewrite length_app. cbn [List.length].
    split; [exact Ht | split; [reflexivity | split; [lia | split; [lia | split]]]].
    + intros t0 H0. discriminate.
    + apply Forall_app. split; [exact Hout' |]. constructor; [| constructor].
      cbn [fst snd]. split; [exact Ht |]. exists started, now.
      split; [| split; [| reflexivity]].
      * apply in_or_app. left. apply Hrun. reflexivity.
      * apply in_or_app. right. left. reflexivity.
  - (* start on a stopped timer *)
    split; [exact Ht | split; [exact Hl | split; [lia | split; [lia | split]]]].
    + intros t0 [= <-]. apply in_or_app. right. left. reflexivity.
    + exact Hout'.
  - (* stop on a stopped timer: refused *)
    split; [exact Ht | split; [exact Hl | split; [lia | split; [lia | split]]]].
    + intros t0 H0. discriminate.
    + exact Hout'.
Qed.

Lemma timer_invariant_run (text : option string) (calls : list (Timer.call time)) :
  timer_invariant sub (Timer.text (Timer.init time text)) calls
                  (Timer.run sub calls (Timer.init time text, [])).
Proof.
  induction calls as [|c calls IH] using rev_ind.
  - unfold timer_invariant, Timer.run. cbn.
    repeat split; try lia; try constructor. intros t0 H. discriminate.
  - unfold Timer.run in *. rewrite fold_left_app. cbn [fold_left].
    apply timer_invariant_step. exact IH.
Qed.

(** X7.  Whatever calls of [start] and [stop] a caller makes on a new timer,
    in whatever order and catching the [TimerError]s, the timer prints at
    most one line per [stop] and per [start]; every line carries the
    timer's text and the difference of the clock of a [stop] and of a
    [start] of the calls; and a running timer was started by one of them. *)
Theorem timer_prints_one_line_per_cycle
    (text : option string) (calls : list (Timer.call time)) :
  let st := Timer.run sub calls (Timer.init time text, []) in
  (List.length (snd st) <= List.length (filter is_stop calls))%nat
  /\ (List.length (snd st) + (if running (fst st) then 1 else 0)
      <= List.length (filter is_start calls))%nat
  /\ Forall (fun line =>
               fst line = Timer.text (Timer.init time text)
               /\ exists t0 t1,
                    In (Timer.CallStart t0) calls /\ In (Timer.CallStop t1) calls
                    /\ snd line = sub t1 t0)
            (snd st).
Proof.
  cbv zeta.
  destruct (timer_invariant_run text calls) as (_ & _ & H1 & H2 & _ & H3).
  split; [exact H1 | split; [exact H2 | exact H3]].
Qed.


End TimerFacts.

Example timer_calls :
  Timer.run Z.sub
    [Timer.CallStop 1; Timer.CallStart 2; Timer.CallStart 3; Timer.CallStop 7;
     Timer.CallStop 9; Timer.CallStart 10]
    (Timer.init Z (Some "Loading image data"%string), [])
  = (Timer.mkTimer "Loading image data: {:0.4f} seconds" true (Some 10),
     [("Loading image data: {:0.4f} seconds"%string, 5)]).
Proof. reflexivity. Qed.

(** ** The size of a directory *)

Lemma fold_left_add_acc {A} (f : A -> Z) (l : list A) :
  forall a, fold_left (fun total e => total + f e) l a
            = a + fold_left (fun total e => total + f e) l 0.
Proof.
  induction l as [|x l IH]; intros a; cbn [fold_left]; [lia |].
  rewrite (IH (a + f x)), (IH (0 + f x)). lia.
Qed.

Lemma get_dir_size_cons (e : dir_entry) (l : list dir_entry) :
  get_dir_size (e :: l) = entry_size e + get_dir_size l.
Proof.
  unfold get_dir_size. cbn [fold_left]. rewrite fold_left_add_acc. lia.
Qed.

Lemma get_dir_size_app (l l' : list dir_entry) :
  get_dir_size (l ++ l') = get_dir_size l + get_dir_size l'.
Proof.
  induction l as [|e l IH]; [reflexivity |].
  cbn [app]. rewrite !get_dir_size_cons, IH. lia.
Qed.

Lemma entry_size_dir (entries : list dir_entry) :
  entry_size (DirEntry entries) = get_dir_size entries.
Proof. reflexivity. Qed.

Lemma Zsum_app (l l' : list Z) : Zsum (l ++ l') = Zsum l + Zsum l'.
Proof.
  unfold Zsum. induction l as [|x l IH]; cbn [app fold_right]; [reflexivity |].
  rewrite IH. lia.
Qed.

Lemma entry_size_sum : forall e, entry_size e = Zsum (file_sizes_of e).
Proof.
  fix IH 1. intros [st_size | entries |].
  - cbn. lia.
  - rewrite entry_size_dir. cbn [file_sizes_of].
    induction entries as [|e entries IHl]; [reflexivity |].
    rewrite get_dir_size_cons. cbn [flat_map]. rewrite Zsum_app, IHl, (IH e).
    reflexivity.
  - reflexivity.
Qed.

(** X9.  [get_dir_size] is the sum of the sizes of the regular files at every
    depth below the directory: entries that are neither files nor
    directories, and directories without files, add nothing; two
    listings add up. *)
Theorem get_dir_size_sums_files (entries more : list dir_entry) :
  get_dir_size entries = Zsum (file_sizes entries)
  /\ get_dir_size (entries ++ more) = get_dir_size entries + get_dir_size more
  /\ (Forall (fun s => 0 <= s) (file_sizes entries) -> 0 <= get_dir_size entries).
Proof.
  assert (Hsum : forall l, get_dir_size l = Zsum (file_sizes l)).
  { induction l as [|e l IH]; [reflexivity |].
    rewrite get_dir_size_cons, IH, entry_size_sum. unfold file_sizes.
    cbn [flat_map]. rewrite Zsum_app. reflexivity. }
  split; [apply Hsum | split; [apply get_dir_size_app |]].
  rewrite Hsum. unfold Zsum.
  induction (file_sizes entries) as [|s l IH]; intros H; cbn [fold_right]; [lia |].
  inversion H; subst. specialize (IH ltac:(assumption)). lia.
Qed.

(** X10.  The order in which [os.scandir] lists the entries, at any depth,
    does not change the result. *)
Theorem get_dir_size_order_independent (entries entries' : list dir_entry)
    (H : same_tree entries entries') :
  get_dir_size entries = get_dir_size entries'.
Proof.
  induction H as [| e l l' _ IH | s s' l l' _ IHs _ IHl | e e' l
                  | l l' l'' _ IH1 _ IH2].
  - reflexivity.
  - rewrite !get_dir_size_cons, IH. reflexivity.
  - rewrite !get_dir_size_cons, !entry_size_dir, IHs, IHl. reflexivity.
  - rewrite !get_dir_size_cons. lia.
  - rewrite IH1. exact IH2.
Qed.

Lemma get_dir_size_order_independent_witness :
  get_dir_size [FileEntry 10; DirEntry [OtherEntry; FileEntry 5; DirEntry []];
                FileEntry 7]
  = get_dir_size [DirEntry [FileEntry 5; OtherEntry; DirEntry []]; FileEntry 10;
                  FileEntry 7].
Proof.
  apply (get_dir_size_order_independent
           [FileEntry 10; DirEntry [OtherEntry; FileEntry 5; DirEntry []];
            FileEntry 7]
           [DirEntry [FileEntry 5; OtherEntry; DirEntry []]; FileEntry 10;
            FileEntry 7]).
  eapply same_trans; [apply same_swap |].
  apply same_sub; [apply same_swap |].
  apply same_skip. apply same_skip. apply same_nil.
Defined.

(** ** The directory scan *)

Lemma dict_in_set (d : dict) (k k' : Z) (v : string) :
  dict_in k' (dict_set d k v) = (k' =? k) || dict_in k' d.
Proof.
  unfold dict_in, dict_set. cbn [existsb fst]. rewrite (Z.eqb_sym k k').
  destruct (Z.eqb_spec k' k) as [-> | Hne]; [reflexivity |]. cbn [orb].
  induction d as [|[p q] d IH]; [reflexivity |]. cbn [filter existsb fst].
  destruct (Z.eqb_spec p k) as [-> | Hpk]; cbn [negb].
  - destruct (Z.eqb_spec k k'); [congruence |]. exact IH.
  - cbn [existsb fst]. rewrite IH. reflexivity.
Qed.

Lemma dict_get_set (d : dict) (k k' : Z) (v : string) :
  dict_get (dict_set d k v) k' = if k' =? k then Ok v else dict_get d k'.
Proof.
  unfold dict_get, dict_set. cbn [find fst]. rewrite (Z.eqb_sym k k').
  destruct (Z.eqb_spec k' k) as [-> | Hne]; [reflexivity |].
  rewrite find_filter_other; [reflexivity |].
  intros [p q] Hp. cbn [fst] in *. apply Z.eqb_eq in Hp. subst p.
  destruct (Z.eqb_spec k' k); [contradiction | reflexivity].
Qed.

Lemma dict_in_keys (d : dict) (k : Z) : dict_in k d = true <-> In k (keys d).
Proof.
  unfold dict_in, keys. rewrite existsb_exists, in_map_iff. split.
  - intros (p & Hp & He). apply Z.eqb_eq in He. exists p. split; assumption.
  - intros (p & He & Hp). exists p. split; [exact Hp | apply Z.eqb_eq; exact He].
Qed.

Lemma dict_set_NoDup (d : dict) (k : Z) (v : string) :
  NoDup (keys d) -> NoDup (keys (dict_set d k v)).
Proof.
  intros Hd. unfold dict_set, keys. cbn [map fst]. constructor.
  - rewrite in_map_iff. intros ((p & q) & He & Hp). cbn [fst] in He. subst p.
    apply filter_In in Hp. destruct Hp as [_ Hp]. cbn [fst] in Hp.
    rewrite Z.eqb_refl in Hp. discriminate.
  - induction d as [|[p q] d IH]; [constructor |].
    cbn [keys map fst] in Hd. inversion Hd as [| ? ? Hnin Hd']; subst.
    cbn [filter fst]. destruct (negb (p =? k)); [| apply IH; exact Hd'].
    cbn [map fst]. constructor; [| apply IH; exact Hd'].
    rewrite in_map_iff. intros (r & He & Hr). apply Hnin.
    apply filter_In in Hr. destruct Hr as [Hr _].
    unfold keys. rewrite in_map_iff. exists r. split; assumption.
Qed.

Lemma scan_tiffdir_snoc (l : list string) (f : string) :
  scan_tiffdir (l ++ [f])
  = if endswith f ".tif" && isdigit (stem f)
    then dict_set (scan_tiffdir l) (int_of_digits 0 (stem f)) f
    else scan_tiffdir l.
Proof. unfold scan_tiffdir. rewrite fold_left_app. reflexivity. Qed.

Lemma names_slice_dec (f : string) :
  endswith f ".tif" && isdigit (stem f) = true
  <-> names_slice f (int_of_digits 0 (stem f)).
Proof.
  unfold names_slice. rewrite andb_true_iff. split.
  - intros [H1 H2]. split; [exact H1 | split; [exact H2 | reflexivity]].
  - intros (H1 & H2 & _). split; assumption.
Qed.

Lemma scan_tiffdir_in (listdir : list string) (k : Z) :
  dict_in k (scan_tiffdir listdir) = true
  <-> exists f, In f listdir /\ names_slice f k.
Proof.
  induction listdir as [|f l IH] using rev_ind.
  - split; [discriminate | intros (f & [] & _)].
  - rewrite scan_tiffdir_snoc.
    destruct (endswith f ".tif" && isdigit (stem f)) eqn:E.
    + rewrite dict_in_set, orb_true_iff, IH. split.
      * intros [Hk | (g & Hg & Hn)].
        -- apply Z.eqb_eq in Hk. subst k. exists f.
           split; [apply in_or_app; right; left; reflexivity |].
           apply names_slice_dec. exact E.
        -- exists g. split; [apply in_or_app; left; exact Hg | exact Hn].
      * intros (g & Hg & Hn). apply in_app_or in Hg.
        destruct Hg as [Hg | [<- | []]].
        -- right. exists g. split; assumption.
        -- left. destruct Hn as (_ & _ & <-). apply Z.eqb_refl.
    + rewrite IH. split.
      * intros (g & Hg & Hn). exists g.
        split; [apply in_or_app; left; exact Hg | exact Hn].
      * intros (g & Hg & Hn). apply in_app_or in Hg.
        destruct Hg as [Hg | [<- | []]].
        -- exists g. split; assumption.
        -- destruct Hn as (H1 & H2 & _). rewrite H1, H2 in E. discriminate.
Qed.

Lemma scan_tiffdir_get (listdir : list string) (k : Z) (f : string) :
  dict_get (scan_tiffdir listdir) k = Ok f -> In f listdir /\ names_slice f k.
Proof.
  induction listdir as [|g l IH] using rev_ind; [discriminate |].
  rewrite scan_tiffdir_snoc.
  destruct (endswith g ".tif" && isdigit (stem g)) eqn:E.
  - rewrite dict_get_set. destruct (Z.eqb_spec k (int_of_digits 0 (stem g))) as [-> | Hne].
    + intros [= <-]. split; [apply in_or_app; right; left; reflexivity |].
      apply names_slice_dec. exact E.
    + intros H. destruct (IH H) as [Hin Hn].
      split; [apply in_or_app; left; exact Hin | exact Hn].
  - intros H. destruct (IH H) as [Hin Hn].
    split; [apply in_or_app; left; exact Hin | exact Hn].
Qed.

Lemma scan_tiffdir_NoDup (listdir : list string) :
  NoDup (keys (scan_tiffdir listdir)).
Proof.
  induction listdir as [|g l IH] using rev_ind; [constructor |].
  rewrite scan_tiffdir_snoc.
  destruct (endswith g ".tif" && isdigit (stem g)); [| exact IH].
  apply dict_set_NoDup. exact IH.
Qed.

(** X11.  For a directory whose names are ASCII, the dictionary of slices
    has one entry per index: [k] is a key exactly when the directory
    lists a name that ends in ".tif" and whose part before the first dot
    is a decimal numeral of value [k]; the file kept for [k] is such a
    name, and of several ("7.tif", "007.tif", "7.old.tif") the one
    listed last. *)
Theorem scan_tiffdir_keys (listdir : list string)
    (Hascii : Forall (fun f => ascii_name f = true) listdir) :
  NoDup (keys (scan_tiffdir listdir))
  /\ (forall k, dict_in k (scan_tiffdir listdir) = true
                <-> exists f, In f listdir /\ names_slice f k)
  /\ (forall k f, dict_get (scan_tiffdir listdir) k = Ok f ->
                  In f listdir /\ names_slice f k)
  /\ (forall k f, ascii_name f = true -> names_slice f k ->
                  dict_get (scan_tiffdir (listdir ++ [f])) k = Ok f).
Proof.
  split; [apply scan_tiffdir_NoDup |].
  split; [apply scan_tiffdir_in |]. split; [apply scan_tiffdir_get |].
  intros k f _ (H1 & H2 & <-). rewrite scan_tiffdir_snoc, H1, H2. cbn [andb].
  rewrite dict_get_set, Z.eqb_refl. reflexivity.
Qed.

Lemma scan_tiffdir_keys_witness :
  NoDup (keys (scan_tiffdir ["7.tif"; "8.tif"; "007.tif"; "7.old.tif"; "a9.tif"]%string))
  /\ names_slice "7.old.tif" 7
  /\ dict_in 9 (scan_tiffdir ["7.tif"; "8.tif"; "007.tif"; "7.old.tif"; "a9.tif"]%string)
     = false.
Proof.
  destruct (scan_tiffdir_keys
              ["7.tif"; "8.tif"; "007.tif"; "7.old.tif"; "a9.tif"]%string
              ltac:(repeat constructor))
    as (Hnd & _ & Hget & _).
  split; [exact Hnd |]. split; [| reflexivity].
  exact (proj2 (Hget 7 "7.old.tif"%string eq_refl)).
Defined.

Example scan_tiffdir_last_wins :
  dict_get (scan_tiffdir ["7.tif"; "8.tif"; "007.tif"; "7.old.tif"]%string) 7
  = Ok "7.old.tif"%string.
Proof. reflexivity. Qed.

(** ** The check for missing slices *)

Lemma range_cons (a b : Z) : a < b -> range a b = a :: range (a + 1) b.
Proof.
  intros H. unfold range.
  replace (Z.to_nat (b - a)) with (S (Z.to_nat (b - (a + 1)))) by lia.
  cbn [seq map]. f_equal; [lia |].
  rewrite <- seq_shift, map_map. apply map_ext. intros i. lia.
Qed.

Lemma range_nil (a b : Z) : b <= a -> range a b = [].
Proof.
  intros H. unfold range. replace (Z.to_nat (b - a)) with 0%nat by lia. reflexivity.
Qed.

Lemma find_range_first (f : Z -> bool) (n : nat) :
  forall a b z,
    Z.to_nat (z - a) = n -> a <= z < b -> f z = true ->
    (forall z', a <= z' < z -> f z' = false) ->
    find f (range a b) = Some z.
Proof.
  induction n as [|n IH]; intros a b z Hn Hz Hf Hbefore.
  - assert (z = a) by lia. subst z. rewrite range_cons by lia.
    cbn [find]. rewrite Hf. reflexivity.
  - rewrite range_cons by lia. cbn [find].
    rewrite (Hbefore a ltac:(lia)).
    apply IH; [lia | lia | exact Hf |]. intros z' Hz'. apply Hbefore. lia.
Qed.

Lemma find_range_none (f : Z -> bool) (a b : Z) :
  (forall z, a <= z < b -> f z = false) -> find f (range a b) = None.
Proof.
  intros H. destruct (find f (range a b)) as [z |] eqn:E; [| reflexivity].
  apply find_some in E. destruct E as [Hin Hf].
  unfold range in Hin. apply in_map_iff in Hin. destruct Hin as (i & <- & Hi).
  apply in_seq in Hi. rewrite H in Hf by lia. discriminate.
Qed.

Lemma arange_default_step (start stop : Z) :
  arange start stop None = Ok (range start stop).
Proof.
  unfold arange, range. change (1 =? 0) with false. cbv iota.
  rewrite Z.div_1_r, map_map.
  replace (Z.to_nat (Z.max 0 (- (start - stop)) - 0)) with (Z.to_nat (stop - start))
    by lia.
  f_equal. apply map_ext. intros i. lia.
Qed.

Lemma dest_of_load
    (imread : string -> ndarray int_dtype)
    (rescale : ndarray dtype -> Z -> bool -> (Z * Z) * list Z)
    (listdir : list string) chunk_size multiscale xlims ylims zlims zstride
    (zrange : list Z) :
  zrange_of (scan_tiffdir listdir) zlims zstride = Ok zrange ->
  first_missing (scan_tiffdir listdir) zrange = None ->
  exists root,
    dest (build_from_tiffdir imread rescale None listdir chunk_size multiscale
                             xlims ylims zlims zstride) = Some root.
Proof.
  intros Hz Hm. unfold build_from_tiffdir. rewrite Hz, Hm.
  destruct (load_slices _ _ _ _ _ _ _ _ _ _) as [[root0 img_data] err].
  destruct err; [eexists; reflexivity |].
  destruct multiscale; [| eexists; reflexivity].
  destruct img_data; [| eexists; reflexivity].
  destruct (compute_scale_levels _ _); eexists; reflexivity.
Qed.

(** X12.  With [zlims] and [zstride] left out, the build requires every index
    from the least to the greatest key.  If one is missing, the build
    ends with "Missing image file z" for the least missing index [z] and
    writes nothing; if none is, the check passes and the store is
    created.  A directory without any slice ends the build with
    [ValueError], nothing written. *)
Theorem least_missing_slice_is_named
    (imread : string -> ndarray int_dtype)
    (rescale : ndarray dtype -> Z -> bool -> (Z * Z) * list Z)
    (listdir : list string) (chunk_size : option (Z * Z * Z)) (multiscale : bool)
    (xlims ylims : lims) (lo hi : Z)
    (Hlo : min_of (keys (scan_tiffdir listdir)) = Ok lo)
    (Hhi : max_of (keys (scan_tiffdir listdir)) = Ok hi) :
  (forall z,
      lo <= z <= hi -> dict_in z (scan_tiffdir listdir) = false ->
      (forall z', lo <= z' < z -> dict_in z' (scan_tiffdir listdir) = true) ->
      build_from_tiffdir imread rescale None listdir chunk_size multiscale
                         xlims ylims None None
      = mkOutcome None (Some (PapyrusDataException (MissingImageFile z))))
  /\ ((forall z, lo <= z <= hi -> dict_in z (scan_tiffdir listdir) = true) ->
      exists root,
        dest (build_from_tiffdir imread rescale None listdir chunk_size multiscale
                                 xlims ylims None None) = Some root)
  /\ (forall listdir',
        scan_tiffdir listdir' = [] ->
        build_from_tiffdir imread rescale None listdir' chunk_size multiscale
                           xlims ylims None None
        = mkOutcome None (Some ValueError)).
Proof.
  assert (Hz : zrange_of (scan_tiffdir listdir) None None = Ok (range lo (hi + 1))).
  { unfold zrange_of. rewrite Hlo, Hhi. cbn [bind]. apply arange_default_step. }
  split; [| split].
  - intros z Hr Hmiss Hbefore. unfold build_from_tiffdir. rewrite Hz.
    unfold first_missing.
    rewrite (find_range_first _ (Z.to_nat (z - lo)) lo (hi + 1) z eq_refl
               ltac:(lia)).
    + reflexivity.
    + rewrite Hmiss. reflexivity.
    + intros z' Hz'. rewrite (Hbefore z' Hz'). reflexivity.
  - intros Hall. apply (dest_of_load imread rescale listdir chunk_size multiscale
                          xlims ylims None None (range lo (hi + 1)) Hz).
    unfold first_missing. apply find_range_none.
    intros z Hzr. rewrite Hall by lia. reflexivity.
  - intros listdir' He. unfold build_from_tiffdir, zrange_of. rewrite He.
    reflexivity.
Qed.

Lemma least_missing_slice_is_named_witness :
  build_from_tiffdir constant_plane decimate None
    ["3.tif"; "1.tif"; "6.tif"; "2.tif"; "readme.txt"]%string None true
    None None None None
  = mkOutcome None (Some (PapyrusDataException (MissingImageFile 4))).
Proof.
  refine (proj1 (least_missing_slice_is_named constant_plane decimate
                   ["3.tif"; "1.tif"; "6.tif"; "2.tif"; "readme.txt"]%string
                   None true None None 1 6 eq_refl eq_refl) 4 _ eq_refl _).
  - lia.
  - intros z' Hz'.
    assert (Hc : z' = 1 \/ z' = 2 \/ z' = 3) by lia.
    destruct Hc as [-> | [-> | ->]]; reflexivity.
Defined.

(** ** The levels a build stores and the levels a handle reads *)

Lemma in_range (a b z : Z) : In z (range a b) <-> a <= z < b.
Proof.
  unfold range. rewrite in_map_iff. split.
  - intros (i & <- & Hi). apply in_seq in Hi. lia.
  - intros Hz. exists (Z.to_nat (z - a)). split; [lia |]. apply in_seq. lia.
Qed.

Lemma add_downsampled_images_levels
    (rescale : ndarray dtype -> Z -> bool -> (Z * Z) * list Z)
    img_data chunk_size (scales : list Z) :
  forall root s,
    get_array (fold_left (add_downsampled_image rescale img_data chunk_size)
                         scales root) (Downsampled "image" s) <> None
    <-> In s scales \/ get_array root (Downsampled "image" s) <> None.
Proof.
  induction scales as [|s' scales IH] using rev_ind; intros root s.
  - cbn. tauto.
  - rewrite fold_left_app. cbn [fold_left].
    unfold add_downsampled_image at 1. unfold root_array.
    destruct (Z.eq_dec s' s) as [-> | Hne].
    + rewrite get_array_set_same. split; [| discriminate].
      intros _. left. apply in_or_app. right. left. reflexivity.
    + rewrite get_array_set_other
        by (cbn; apply Z.eqb_neq in Hne; rewrite Hne; reflexivity).
      rewrite IH. rewrite in_app_iff. cbn [In]. tauto.
Qed.

(** X13.  After an image build that ended without exception the store opens,
    its downsampled arrays are exactly those of the levels 1 to the
    handle's [scale_levels]; so whatever request the handle resolves, the
    array it reads is in the store. *)
Theorem image_store_holds_every_level
    (rescale : ndarray dtype -> Z -> bool -> (Z * Z) * list Z)
    (img : ndarray int_dtype) (chunk_size : option (Z * Z)) (multiscale : bool)
    (xlims ylims : lims) (root : zgroup)
    (Hbuild : build_from_image rescale None img chunk_size multiscale xlims ylims
              = mkOutcome (Some root) None) :
  exists h,
    ImageHandle.init (Some root) = Ok h
    /\ PapyrusImage.shape h = nd_shape (getitem2 img xlims ylims)
    /\ get_array root (Named "image") <> None
    /\ (forall s, get_array root (Downsampled "image" s) <> None
                  <-> 1 <= s <= PapyrusImage.scale_levels h)
    /\ (forall key rd, PapyrusImage.getitem h key = Ok rd ->
                       get_array root (read_array rd) <> None).
Proof.
  assert (Hreads : forall h,
            get_array root (Named "image") <> None ->
            (forall s, get_array root (Downsampled "image" s) <> None
                       <-> 1 <= s <= PapyrusImage.scale_levels h) ->
            forall key rd, PapyrusImage.getitem h key = Ok rd ->
                           get_array root (read_array rd) <> None).
  { intros h H0 Hl key rd Hrd.
    destruct (image_getitem_level h key rd Hrd) as (_ & [-> | (k & Hk & ->)] & _);
      [exact H0 | apply Hl; exact Hk]. }
  unfold build_from_image in Hbuild. fold (image_chunks chunk_size) in Hbuild.
  destruct (get_min_datatype img) as [d | e]; [| discriminate].
  rewrite getitem2_astype in Hbuild. cbn [astype nd_shape nd_data nd_dtype] in Hbuild.
  destruct multiscale.
  - destruct (compute_scale_levels _ _) as [k | e]; [| discriminate].
    injection Hbuild as <-.
    match goal with |- context [fold_left ?f ?l ?r] => set (root0 := r); set (F := f) end.
    assert (Hattrs : attrs (fold_left F (range 1 (k + 1)) root0) = attrs root0)
      by apply add_downsampled_images_attrs.
    assert (H0 : get_array (fold_left F (range 1 (k + 1)) root0) (Named "image")
                 = get_array root0 (Named "image"))
      by apply add_downsampled_images_level0.
    assert (Hl : forall s, get_array (fold_left F (range 1 (k + 1)) root0)
                                     (Downsampled "image" s) <> None
                           <-> 1 <= s <= k).
    { intros s. unfold F. rewrite add_downsampled_images_levels, in_range.
      split; [intros [H | H]; [lia | exfalso; apply H; reflexivity] | intros H; left; lia]. }
    eexists. unfold ImageHandle.init.
    rewrite (attrs_get_attrs root0 _ "multiscale" Hattrs).
    rewrite (attrs_get_attrs root0 _ "scale_levels" Hattrs). rewrite H0.
    split; [reflexivity |]. cbn [PapyrusImage.shape PapyrusImage.scale_levels attr_int
                                 za_shape nth astype nd_shape].
    split; [destruct (nd_shape (getitem2 img xlims ylims)); reflexivity |].
    split; [unfold root0; discriminate |]. split; [exact Hl |].
    apply Hreads; [rewrite add_downsampled_images_level0; discriminate | exact Hl].
  - injection Hbuild as <-. eexists. split; [reflexivity |].
    cbn [PapyrusImage.shape PapyrusImage.scale_levels za_shape nth astype nd_shape].
    split; [destruct (nd_shape (getitem2 img xlims ylims)); reflexivity |].
    split; [discriminate |].
    assert (Hl : forall s,
              get_array
                (attrs_set
                   (root_array empty_group (Named "image")
                      (mkArray d (nd_shape (getitem2 img xlims ylims))
                               (nd_data (getitem2 img xlims ylims)))
                      (image_chunks chunk_size)) "multiscale" (ABool false))
                (Downsampled "image" s) <> None
              <-> 1 <= s <= 0).
    { intros s. split; [intros H; exfalso; apply H; reflexivity | lia]. }
    split; [exact Hl |]. apply Hreads; [discriminate | exact Hl].
Qed.

Lemma image_store_holds_every_level_witness :
  exists h,
    ImageHandle.init
      (dest (build_from_image decimate None
               (mkArray uint8 (3, 2) [10; 20; 30; 40; 50; 60]) (Some (1, 1)) true
               None None))
    = Ok h
    /\ PapyrusImage.scale_levels h = 2.
Proof.
  destruct (image_store_holds_every_level decimate
              (mkArray uint8 (3, 2) [10; 20; 30; 40; 50; 60]) (Some (1, 1)) true
              None None _ eq_refl) as (h & Hh & _).
  exists h. split; [exact Hh |]. injection Hh as <-. reflexivity.
Defined.

Section VolumeLevels.

Variable imread : string -> ndarray int_dtype.
Variable rescale : ndarray dtype -> Z -> bool -> (Z * Z) * list Z.

Lemma write_plane_other (root : zgroup) (n m : array_name) (z : Z) (data : list Z) :
  array_name_eqb n m = false ->
  get_array (write_plane root n z data) m = get_array root m.
Proof.
  intros E. unfold write_plane. destruct (get_array root n); [| reflexivity].
  apply get_array_set_other. exact E.
Qed.

Lemma write_plane_present (root : zgroup) (n m : array_name) (z : Z) (data : list Z) :
  get_array root m <> None -> get_array (write_plane root n z data) m <> None.
Proof.
  intros H. destruct (get_array root m) as [a |] eqn:Ha; [| contradiction].
  destruct (write_plane_shape root n m z data a Ha) as (b & Hb & _).
  rewrite Hb. discriminate.
Qed.

Lemma downsample_planes_other scale chunk_size len_ds_zrange items (n : array_name) :
  array_name_eqb (Downsampled "volume" scale) n = false ->
  forall root init,
    get_array (downsample_planes rescale scale chunk_size len_ds_zrange items root init) n
    = get_array root n.
Proof.
  intros E. induction items as [|[new_zindex old_zindex] items IH]; intros root init;
    cbn [downsample_planes]; [reflexivity |].
  destruct (get_array root (Named "volume")) as [volume |]; [| reflexivity].
  rewrite IH, write_plane_other by exact E.
  destruct init; [apply root_zeros_other; exact E | reflexivity].
Qed.

Lemma downsample_planes_present scale chunk_size len_ds_zrange items :
  forall root init,
    get_array root (Downsampled "volume" scale) <> None
    \/ (init = true /\ items <> [] /\ get_array root (Named "volume") <> None) ->
    get_array (downsample_planes rescale scale chunk_size len_ds_zrange items root init)
              (Downsampled "volume" scale) <> None.
Proof.
  induction items as [|[new_zindex old_zindex] items IH]; intros root init H;
    cbn [downsample_planes].
  - destruct H as [H | (_ & C & _)]; [exact H | contradiction].
  - destruct (get_array root (Named "volume")) as [volume |] eqn:Hv.
    + apply IH. left. apply write_plane_present.
      destruct init.
      * destruct (root_zeros_same root (Downsampled "volume" scale)
                    (fst (nd_shape (astype (nd_dtype (read_plane volume old_zindex))
                       (mkArray float64
                          (fst (rescale (read_plane volume old_zindex) scale true))
                          (snd (rescale (read_plane volume old_zindex) scale true))))))
                    (snd (nd_shape (astype (nd_dtype (read_plane volume old_zindex))
                       (mkArray float64
                          (fst (rescale (read_plane volume old_zindex) scale true))
                          (snd (rescale (read_plane volume old_zindex) scale true))))))
                    len_ds_zrange chunk_size None) as (a & Ha & _).
        rewrite Ha. discriminate.
      * destruct H as [H | (C & _)]; [exact H | discriminate].
    + destruct H as [H | (_ & _ & C)]; [exact H | contradiction].
Qed.

Lemma strided_nonempty (n step : Z) : 1 <= n -> 1 <= step -> strided n step <> [].
Proof.
  intros Hn Hs. unfold strided.
  assert (1 <= (n + step - 1) / step).
  { apply Z.div_le_lower_bound; lia. }
  rewrite range_cons by lia. discriminate.
Qed.

Lemma enumerate_nonempty {A} (l : list A) : l <> [] -> enumerate l <> [].
Proof.
  destruct l as [|x l]; [contradiction |]. intros _. unfold enumerate.
  rewrite range_cons by (cbn [List.length]; lia). discriminate.
Qed.

Lemma add_downsampled_volumes_levels chunk_size len_zrange (scales : list Z) :
  1 <= len_zrange -> (forall s, In s scales -> 0 <= s) ->
  forall root s,
    get_array root (Named "volume") <> None ->
    (get_array (fold_left (add_downsampled_volume rescale chunk_size len_zrange)
                          scales root) (Downsampled "volume" s) <> None
     <-> In s scales \/ get_array root (Downsampled "volume" s) <> None).
Proof.
  intros Hlen. induction scales as [|s' scales IH] using rev_ind;
    intros Hpos root s Hv.
  - cbn. tauto.
  - rewrite fold_left_app. cbn [fold_left].
    assert (Hpos' : forall s, In s scales -> 0 <= s)
      by (intros x Hx; apply Hpos; apply in_or_app; left; exact Hx).
    assert (Hs' : 0 <= s') by (apply Hpos; apply in_or_app; right; left; reflexivity).
    unfold add_downsampled_volume at 1.
    destruct (Z.eq_dec s' s) as [-> | Hne].
    + split; [intros _; left; apply in_or_app; right; left; reflexivity |].
      intros _. apply downsample_planes_present. right.
      split; [reflexivity |]. split.
      * apply enumerate_nonempty. apply strided_nonempty; [exact Hlen |].
        pose proof (Z.pow_pos_nonneg 2 s ltac:(lia) Hs'). lia.
      * destruct (add_downsampled_volumes_volume rescale chunk_size len_zrange
                    scales root) as [Hkeep _].
        rewrite Hkeep. exact Hv.
    + rewrite downsample_planes_other
        by (cbn; apply Z.eqb_neq in Hne; rewrite Hne; reflexivity).
      rewrite (IH Hpos' root s Hv), in_app_iff. cbn [In]. tauto.
Qed.

Lemma min_of_le_max_of (l : list Z) (lo hi : Z) :
  min_of l = Ok lo -> max_of l = Ok hi -> lo <= hi.
Proof.
  unfold min_of, max_of. destruct l as [|v vs]; [discriminate |].
  intros [= <-] [= <-].
  pose proof (fold_left_min_le vs v). pose proof (fold_left_max_ge vs v). lia.
Qed.

Lemma zrange_of_default_nonempty (imgfiles : dict) (zlims : lims) (zrange : list Z) :
  zrange_of imgfiles zlims None = Ok zrange -> zrange <> [].
Proof.
  unfold zrange_of. destruct zlims as [[zstart zstop] |].
  - destruct zstop; [discriminate |].
    destruct (max_of (keys imgfiles)); discriminate.
  - destruct (min_of (keys imgfiles)) as [lo |] eqn:Hlo; [| discriminate].
    destruct (max_of (keys imgfiles)) as [hi |] eqn:Hhi; [| discriminate].
    cbn [bind]. rewrite arange_default_step. intros [= <-].
    pose proof (min_of_le_max_of _ _ _ Hlo Hhi).
    rewrite range_cons by lia. discriminate.
Qed.

Lemma load_slices_other imgfiles xlims ylims chunk_size len_zrange items
    (n : array_name) :
  array_name_eqb (Named "volume") n = false ->
  forall root init img_data,
    get_array (fst (fst (load_slices imread imgfiles xlims ylims chunk_size
                                     len_zrange items root init img_data))) n
    = get_array root n.
Proof.
  intros E. induction items as [|[z_index img_index] items IH];
    intros root init img_data; cbn [load_slices]; [reflexivity |].
  destruct (dict_get imgfiles img_index) as [imgfile | e]; [| reflexivity].
  rewrite IH, write_plane_other by exact E.
  destruct init; [apply root_zeros_other; exact E | reflexivity].
Qed.

(** X14.  After a volume build (with [zstride] left out, as the constructor
    calls it) that ended without exception the store opens, its
    downsampled arrays are exactly those of the levels 1 to the handle's
    [scale_levels], and whatever request the handle resolves, the array
    it reads is in the store. *)
Theorem volume_store_holds_every_level
    (listdir : list string) (chunk_size : option (Z * Z * Z)) (multiscale : bool)
    (xlims ylims zlims : lims) (root : zgroup)
    (Hbuild : build_from_tiffdir imread rescale None listdir chunk_size multiscale
                                 xlims ylims zlims None
              = mkOutcome (Some root) None) :
  exists h,
    VolumeHandle.init (Some root) = Ok h
    /\ get_array root (Named "volume") <> None
    /\ (forall s, get_array root (Downsampled "volume" s) <> None
                  <-> 1 <= s <= PapyrusVolume.scale_levels h)
    /\ (forall key rd, PapyrusVolume.getitem h key = Ok rd ->
                       get_array root (read_array rd) <> None).
Proof.
  assert (Hreads : forall h,
            get_array root (Named "volume") <> None ->
            (forall s, get_array root (Downsampled "volume" s) <> None
                       <-> 1 <= s <= PapyrusVolume.scale_levels h) ->
            forall key rd, PapyrusVolume.getitem h key = Ok rd ->
                           get_array root (read_array rd) <> None).
  { intros h H0 Hl key rd Hrd.
    destruct (volume_getitem_level h key rd Hrd) as (_ & [-> | (k & Hk & ->)] & _);
      [exact H0 | apply Hl; exact Hk]. }
  unfold build_from_tiffdir in Hbuild. fold (volume_chunks chunk_size) in Hbuild.
  destruct (zrange_of _ _ _) as [zrange | e] eqn:Hz; [| discriminate].
  apply zrange_of_default_nonempty in Hz.
  destruct (first_missing _ _); [discriminate |].
  destruct (load_slices _ _ _ _ _ _ _ _ _ _) as [[root0 img_data] err] eqn:Hload.
  destruct err as [e |]; [discriminate |].
  assert (Hnone : forall s, get_array root0 (Downsampled "volume" s) = None).
  { intros s.
    pose proof (load_slices_other (scan_tiffdir listdir) xlims ylims
                  (volume_chunks chunk_size) (Z.of_nat (List.length zrange))
                  (enumerate zrange) (Downsampled "volume" s) eq_refl
                  empty_group true None) as H.
    rewrite Hload in H. exact H. }
  apply load_slices_volume in Hload. destruct Hload as (_ & Hvol & _).
  destruct (Hvol eq_refl (enumerate_nonempty zrange Hz)) as (f & v & Hv & Hs & _).
  assert (Hlen : 1 <= Z.of_nat (List.length zrange)).
  { destruct zrange; [contradiction | cbn [List.length]; lia]. }
  destruct multiscale.
  - destruct img_data as [img_data |]; [| discriminate].
    destruct (compute_scale_levels _ _) as [k | e]; [| discriminate].
    injection Hbuild as <-.
    match goal with |- context [fold_left ?F ?l ?r] => set (root1 := r) end.
    assert (Hv1 : get_array root1 (Named "volume") = Some v).
    { unfold root1. rewrite !get_array_attrs_set. exact Hv. }
    destruct (add_downsampled_volumes_volume rescale (volume_chunks chunk_size)
                (Z.of_nat (List.length zrange)) (range 1 (k + 1)) root1)
      as [Hkeep Hattrs].
    assert (Hl : forall s,
              get_array (fold_left (add_downsampled_volume rescale
                                      (volume_chunks chunk_size)
                                      (Z.of_nat (List.length zrange)))
                                   (range 1 (k + 1)) root1)
                        (Downsampled "volume" s) <> None
              <-> 1 <= s <= k).
    { intros s. rewrite add_downsampled_volumes_levels.
      - rewrite in_range. split; [intros [H | H]; [lia |] | intros H; left; lia].
        exfalso. apply H. unfold root1. rewrite !get_array_attrs_set. apply Hnone.
      - exact Hlen.
      - intros x Hx. apply in_range in Hx. lia.
      - rewrite Hv1. discriminate. }
    assert (H0 : get_array (fold_left (add_downsampled_volume rescale
                                         (volume_chunks chunk_size)
                                         (Z.of_nat (List.length zrange)))
                                      (range 1 (k + 1)) root1)
                           (Named "volume") <> None)
      by (rewrite Hkeep, Hv1; discriminate).
    eexists. unfold VolumeHandle.init.
    rewrite (attrs_get_attrs root1 _ "multiscale" Hattrs).
    rewrite (attrs_get_attrs root1 _ "scale_levels" Hattrs).
    split; [rewrite Hkeep, Hv1; reflexivity |].
    cbn [PapyrusVolume.scale_levels attr_int].
    split; [exact H0 |]. split; [exact Hl |].
    apply Hreads; [exact H0 | exact Hl].
  - injection Hbuild as <-.
    assert (Hv1 : get_array (attrs_set root0 "multiscale" (ABool false))
                            (Named "volume") = Some v).
    { rewrite get_array_attrs_set. exact Hv. }
    assert (Hl : forall s,
              get_array (attrs_set root0 "multiscale" (ABool false))
                        (Downsampled "volume" s) <> None
              <-> 1 <= s <= 0).
    { intros s. rewrite get_array_attrs_set, Hnone.
      split; [intros H; exfalso; apply H; reflexivity | lia]. }
    eexists. unfold VolumeHandle.init.
    rewrite attrs_get_set_same, Hv1. cbn [bind truthy].
    split; [reflexivity |]. cbn [PapyrusVolume.scale_levels].
    split; [discriminate |]. split; [exact Hl |].
    apply Hreads; [rewrite Hv1; discriminate | exact Hl].
Qed.

End VolumeLevels.

Lemma volume_store_holds_every_level_witness :
  exists h,
    VolumeHandle.init
      (dest (build_from_tiffdir constant_plane decimate None
               ["0.tif"; "1.tif"]%string (Some (2, 2, 1)) true None None None None))
    = Ok h
    /\ PapyrusVolume.scale_levels h = 1.
Proof.
  destruct (volume_store_holds_every_level constant_plane decimate
              ["0.tif"; "1.tif"]%string (Some (2, 2, 1)) true None None None
              _ eq_refl) as (h & Hh & _).
  exists h. split; [exact Hh |]. injection Hh as <-. reflexivity.
Defined.

(** ** The datatype [get_min_datatype] chooses holds the data *)

Lemma fold_left_min_lower (l : list Z) :
  forall a x, In x (a :: l) -> fold_left Z.min l a <= x.
Proof.
  induction l as [|y l IH]; intros a x Hx; cbn [fold_left].
  - destruct Hx as [<- | []]. lia.
  - destruct Hx as [<- | [<- | Hx]].
    + pose proof (fold_left_min_le l (Z.min a y)). lia.
    + pose proof (fold_left_min_le l (Z.min a y)). lia.
    + apply IH. right. exact Hx.
Qed.

Lemma fold_left_max_upper (l : list Z) :
  forall a x, In x (a :: l) -> x <= fold_left Z.max l a.
Proof.
  induction l as [|y l IH]; intros a x Hx; cbn [fold_left].
  - destruct Hx as [<- | []]. lia.
  - destruct Hx as [<- | [<- | Hx]].
    + pose proof (fold_left_max_ge l (Z.max a y)). lia.
    + pose proof (fold_left_max_ge l (Z.max a y)). lia.
    + apply IH. right. exact Hx.
Qed.

Lemma fold_left_min_In (l : list Z) : forall a, In (fold_left Z.min l a) (a :: l).
Proof.
  induction l as [|y l IH]; intros a; cbn [fold_left]; [left; reflexivity |].
  destruct (IH (Z.min a y)) as [H | H].
  - rewrite <- H. destruct (Z.min_spec a y) as [[_ ->] | [_ ->]];
      [left | right; left]; reflexivity.
  - right. right. exact H.
Qed.

Lemma fold_left_max_In (l : list Z) : forall a, In (fold_left Z.max l a) (a :: l).
Proof.
  induction l as [|y l IH]; intros a; cbn [fold_left]; [left; reflexivity |].
  destruct (IH (Z.max a y)) as [H | H].
  - rewrite <- H. destruct (Z.max_spec a y) as [[_ ->] | [_ ->]];
      [right; left | left]; reflexivity.
  - right. right. exact H.
Qed.

(** The minimum and the maximum of an array bound its elements and are
    among them. *)
Lemma array_min_max_bounds {D} (a : ndarray D) (lo hi : Z) :
  array_min a = Ok lo -> array_max a = Ok hi ->
  In lo (nd_data a) /\ In hi (nd_data a)
  /\ forall x, In x (nd_data a) -> lo <= x <= hi.
Proof.
  unfold array_min, array_max. destruct (nd_data a) as [|v vs]; [discriminate |].
  intros [= <-] [= <-]. split; [apply fold_left_min_In |].
  split; [apply fold_left_max_In |]. intros x Hx.
  split; [apply fold_left_min_lower | apply fold_left_max_upper]; exact Hx.
Qed.

(** The common type of the scalar types of two values within 64 bits
    holds both, unless one is negative and the other needs more than 32
    bits: then it is [float64]. *)
Lemma common_scalar_type_holds (src : int_dtype) (lo hi : Z) :
  src <> bool8 -> lo <= hi -> - 2 ^ 63 <= lo -> hi <= 2 ^ 64 - 1 ->
  (find_common_type (min_scalar_type src lo) (min_scalar_type src hi) = Int uint8
   -> 0 <= lo)
  /\ ((dtype_min (find_common_type (min_scalar_type src lo) (min_scalar_type src hi))
       <= lo
       /\ hi <= dtype_max (find_common_type (min_scalar_type src lo)
                                            (min_scalar_type src hi)))
      \/ (find_common_type (min_scalar_type src lo) (min_scalar_type src hi) = float64
          /\ lo < 0 /\ 2 ^ 32 <= hi)).
Proof.
  intros Hsrc Hle Hlo Hhi.
  assert (E : forall v, min_scalar_type src v = min_scalar_type int8 v)
    by (intros v; destruct src; [contradiction | reflexivity ..]).
  rewrite !E. unfold min_scalar_type.
  destruct (Z.leb_spec 0 lo), (Z.leb_spec 0 hi);
    repeat match goal with
           | |- context [?x <=? ?y] => destruct (Z.leb_spec x y)
           end;
    eval_common_type; cbn [dtype_min dtype_max];
    (split; [first [discriminate | intros _; lia] |]);
    first [left; lia | right; split; [reflexivity | lia]].
Qed.

Lemma In_sublist {A} (start stop : Z) (l : list A) (x : A) :
  In x (sublist start stop l) -> In x l.
Proof.
  unfold sublist. intros H.
  assert (Hf : forall n (m : list A), In x (firstn n m) -> In x m).
  { induction n as [|n IH]; intros [|y m] Hx; cbn in Hx; try contradiction.
    destruct Hx as [-> | Hx]; [left; reflexivity | right; apply IH; exact Hx]. }
  assert (Hs : forall n (m : list A), In x (skipn n m) -> In x m).
  { induction n as [|n IH]; intros [|y m] Hx; cbn in Hx; try contradiction;
      try exact Hx. right. apply IH. exact Hx. }
  eapply Hs, Hf, H.
Qed.

Lemma In_getitem2 {D} (a : ndarray D) (xlims ylims : lims) (x : Z) :
  In x (nd_data (getitem2 a xlims ylims)) -> In x (nd_data a).
Proof.
  unfold getitem2. destruct (nd_shape a) as [h w].
  destruct (slice_indices h xlims), (slice_indices w ylims). cbn [nd_data].
  rewrite in_flat_map. intros (r & _ & Hx). eapply In_sublist, Hx.
Qed.



(** The exception is met: the cast of this [int64] array to [float64]
    does not keep its maximum. *)
Example get_min_datatype_float64 :
  get_min_datatype (mkArray int64 (1, 2) [-1; 2 ^ 53 + 1]) = Ok float64
  /\ ~ represents float64 (2 ^ 53 + 1).
Proof.
  split; [reflexivity |]. unfold represents. cbn [dtype_min dtype_max]. lia.
Qed.

(** ** The constructors *)

Lemma build_from_image_exists rescale root img chunk_size multiscale xlims ylims :
  build_from_image rescale (Some root) img chunk_size multiscale xlims ylims
  = mkOutcome (Some root) (Some (PapyrusDataException ZarrPathExists)).
Proof. reflexivity. Qed.

Lemma build_from_tiffdir_exists imread rescale root listdir chunk_size multiscale
    xlims ylims zlims zstride :
  build_from_tiffdir imread rescale (Some root) listdir chunk_size multiscale
                     xlims ylims zlims zstride
  = mkOutcome (Some root) (Some (PapyrusDataException ZarrPathExists)).
Proof. reflexivity. Qed.

(** A build that ended without exception leaves a store that opens. *)
Lemma build_from_image_opens rescale zarr_path img chunk_size multiscale xlims ylims :
  raised (build_from_image rescale zarr_path img chunk_size multiscale xlims ylims)
  = None ->
  exists root h,
    dest (build_from_image rescale zarr_path img chunk_size multiscale xlims ylims)
    = Some root
    /\ ImageHandle.init (Some root) = Ok h.
Proof.
  destruct zarr_path as [root |]; [discriminate |].
  unfold build_from_image. fold (image_chunks chunk_size).
  destruct (get_min_datatype img) as [d | e]; [| discriminate].
  destruct multiscale.
  - destruct (compute_scale_levels _ _) as [k | e]; [| discriminate].
    intros _. cbn [dest]. eexists. eexists. split; [reflexivity |].
    unfold ImageHandle.init.
    match goal with |- context [fold_left ?f ?l ?r] => set (root0 := r); set (F := f) end.
    assert (Hattrs : attrs (fold_left F (range 1 (k + 1)) root0) = attrs root0)
      by apply add_downsampled_images_attrs.
    rewrite (attrs_get_attrs root0 _ "multiscale" Hattrs).
    rewrite (attrs_get_attrs root0 _ "scale_levels" Hattrs).
    unfold F. rewrite add_downsampled_images_level0. reflexivity.
  - intros _. cbn [dest]. eexists. eexists. split; reflexivity.
Qed.

Lemma build_from_tiffdir_opens imread rescale zarr_path listdir chunk_size multiscale
    xlims ylims zlims :
  raised (build_from_tiffdir imread rescale zarr_path listdir chunk_size multiscale
                             xlims ylims zlims None) = None ->
  exists root h,
    dest (build_from_tiffdir imread rescale zarr_path listdir chunk_size multiscale
                             xlims ylims zlims None) = Some root
    /\ VolumeHandle.init (Some root) = Ok h.
Proof.
  destruct zarr_path as [root |]; [discriminate |].
  unfold build_from_tiffdir. fold (volume_chunks chunk_size).
  destruct (zrange_of _ _ _) as [zrange | e] eqn:Hz; [| discriminate].
  apply zrange_of_default_nonempty in Hz.
  destruct (first_missing _ _); [discriminate |].
  destruct (load_slices _ _ _ _ _ _ _ _ _ _) as [[root0 img_data] err] eqn:Hload.
  destruct err as [e |]; [discriminate |].
  apply load_slices_volume in Hload. destruct Hload as (_ & Hvol & _).
  destruct (Hvol eq_refl (enumerate_nonempty zrange Hz)) as (f & v & Hv & _).
  destruct multiscale.
  - destruct img_data as [img_data |]; [| discriminate].
    destruct (compute_scale_levels _ _) as [k | e]; [| discriminate].
    intros _. cbn [dest]. eexists. eexists. split; [reflexivity |].
    match goal with |- context [fold_left ?F ?l ?r] => set (root1 := r) end.
    assert (Hv1 : get_array root1 (Named "volume") = Some v).
    { unfold root1. rewrite !get_array_attrs_set. exact Hv. }
    destruct (add_downsampled_volumes_volume rescale (volume_chunks chunk_size)
                (Z.of_nat (List.length zrange)) (range 1 (k + 1)) root1)
      as [Hkeep Hattrs].
    unfold VolumeHandle.init.
    rewrite (attrs_get_attrs root1 _ "multiscale" Hattrs).
    rewrite (attrs_get_attrs root1 _ "scale_levels" Hattrs).
    rewrite Hkeep, Hv1. reflexivity.
  - intros _. cbn [dest]. eexists. eexists. split; [reflexivity |].
    unfold VolumeHandle.init.
    rewrite attrs_get_set_same, get_array_attrs_set, Hv. reflexivity.
Qed.

(** X16.  [PapyrusImage(zarrpath, imagepath, ...)]: a store that exists is
    never replaced, and with an image given it is refused; without store
    and image the path is reported missing; with an image the
    constructor raises exactly what the build raises, the opening that
    follows a build never fails; and a store the constructor returned a
    handle for gives the same handle when opened again and is refused
    as the destination of another build. *)
Theorem image_constructor_lifecycle
    (rescale : ndarray dtype -> Z -> bool -> (Z * Z) * list Z)
    (zarr_path : option zgroup) (imagepath : option (ndarray int_dtype))
    (multiscale : bool) (xlims ylims : lims) :
  (forall root, zarr_path = Some root ->
     fst (PapyrusImage_init rescale zarr_path imagepath multiscale xlims ylims)
     = Some root
     /\ (imagepath <> None ->
         snd (PapyrusImage_init rescale zarr_path imagepath multiscale xlims ylims)
         = Raise (PapyrusDataException ZarrPathExists)))
  /\ (zarr_path = None -> imagepath = None ->
      PapyrusImage_init rescale zarr_path imagepath multiscale xlims ylims
      = (None, Raise (PapyrusDataException ZarrPathDoesNotExist)))
  /\ (forall img e, imagepath = Some img ->
        (snd (PapyrusImage_init rescale zarr_path imagepath multiscale xlims ylims)
         = Raise e
         <-> raised (build_from_image rescale zarr_path img None multiscale xlims ylims)
             = Some e))
  /\ (forall h,
        snd (PapyrusImage_init rescale zarr_path imagepath multiscale xlims ylims)
        = Ok h ->
        forall multiscale' xlims' ylims',
          PapyrusImage_init rescale
            (fst (PapyrusImage_init rescale zarr_path imagepath multiscale xlims ylims))
            None multiscale' xlims' ylims'
          = (fst (PapyrusImage_init rescale zarr_path imagepath multiscale xlims ylims),
             Ok h)
          /\ forall img,
               PapyrusImage_init rescale
                 (fst (PapyrusImage_init rescale zarr_path imagepath multiscale
                                         xlims ylims))
                 (Some img) multiscale' xlims' ylims'
               = (fst (PapyrusImage_init rescale zarr_path imagepath multiscale
                                         xlims ylims),
                  Raise (PapyrusDataException ZarrPathExists))).
Proof.
  split; [| split; [| split]].
  - intros root ->. unfold PapyrusImage_init.
    destruct imagepath as [img |]; cbn.
    + split; [reflexivity |]. intros _. reflexivity.
    + split; [reflexivity |]. intros C. contradiction.
  - intros -> ->. reflexivity.
  - intros img e ->. unfold PapyrusImage_init.
    destruct (raised (build_from_image rescale zarr_path img None multiscale
                                       xlims ylims)) as [e' |] eqn:Hr.
    + cbn [snd]. split; intros [= ->]; reflexivity.
    + destruct (build_from_image_opens _ _ _ _ _ _ _ Hr) as (root & h & Hdest & Hh).
      cbn [snd]. rewrite Hdest, Hh. split; discriminate.
  - intros h Hh multiscale' xlims' ylims'.
    assert (Hst : exists root,
              fst (PapyrusImage_init rescale zarr_path imagepath multiscale xlims ylims)
              = Some root
              /\ ImageHandle.init (Some root) = Ok h).
    { unfold PapyrusImage_init in *. destruct imagepath as [img |].
      - destruct (raised _) eqn:Hr; cbn [fst snd] in *; [discriminate |].
        destruct (dest _) as [root |]; [| discriminate].
        exists root. split; [reflexivity | exact Hh].
      - cbn [fst snd] in *. destruct zarr_path as [root |]; [| discriminate].
        exists root. split; [reflexivity | exact Hh]. }
    destruct Hst as (root & -> & Hopen). unfold PapyrusImage_init.
    split; [rewrite Hopen; reflexivity |]. intros img. reflexivity.
Qed.

(** X17.  [PapyrusVolume(zarrpath, tiffdirpath, ...)]: the same life cycle;
    the [zstride] argument changes nothing. *)
Theorem volume_constructor_lifecycle
    (imread : string -> ndarray int_dtype)
    (rescale : ndarray dtype -> Z -> bool -> (Z * Z) * list Z)
    (zarr_path : option zgroup) (tiffdirpath : option (list string))
    (multiscale : bool) (xlims ylims zlims : lims) (zstride : option Z) :
  PapyrusVolume_init imread rescale zarr_path tiffdirpath multiscale
                     xlims ylims zlims zstride
  = PapyrusVolume_init imread rescale zarr_path tiffdirpath multiscale
                       xlims ylims zlims None
  /\ (forall root, zarr_path = Some root ->
        fst (PapyrusVolume_init imread rescale zarr_path tiffdirpath multiscale
                                xlims ylims zlims zstride) = Some root
        /\ (tiffdirpath <> None ->
            snd (PapyrusVolume_init imread rescale zarr_path tiffdirpath multiscale
                                    xlims ylims zlims zstride)
            = Raise (PapyrusDataException ZarrPathExists)))
  /\ (zarr_path = None -> tiffdirpath = None ->
      PapyrusVolume_init imread rescale zarr_path tiffdirpath multiscale
                         xlims ylims zlims zstride
      = (None, Raise (PapyrusDataException ZarrPathDoesNotExist)))
  /\ (forall listdir e, tiffdirpath = Some listdir ->
        (snd (PapyrusVolume_init imread rescale zarr_path tiffdirpath multiscale
                                 xlims ylims zlims zstride) = Raise e
         <-> raised (build_from_tiffdir imread rescale zarr_path listdir None
                                        multiscale xlims ylims zlims None) = Some e))
  /\ (forall h,
        snd (PapyrusVolume_init imread rescale zarr_path tiffdirpath multiscale
                                xlims ylims zlims zstride) = Ok h ->
        forall multiscale' xlims' ylims' zlims' zstride',
          PapyrusVolume_init imread rescale
            (fst (PapyrusVolume_init imread rescale zarr_path tiffdirpath multiscale
                                     xlims ylims zlims zstride))
            None multiscale' xlims' ylims' zlims' zstride'
          = (fst (PapyrusVolume_init imread rescale zarr_path tiffdirpath multiscale
                                     xlims ylims zlims zstride), Ok h)
          /\ forall listdir,
               PapyrusVolume_init imread rescale
                 (fst (PapyrusVolume_init imread rescale zarr_path tiffdirpath
                                          multiscale xlims ylims zlims zstride))
                 (Some listdir) multiscale' xlims' ylims' zlims' zstride'
               = (fst (PapyrusVolume_init imread rescale zarr_path tiffdirpath
                                          multiscale xlims ylims zlims zstride),
                  Raise (PapyrusDataException ZarrPathExists))).
Proof.
  split; [reflexivity |]. split; [| split; [| split]].
  - intros root ->. unfold PapyrusVolume_init.
    destruct tiffdirpath as [listdir |]; cbn.
    + split; [reflexivity |]. intros _. reflexivity.
    + split; [reflexivity |]. intros C. contradiction.
  - intros -> ->. reflexivity.
  - intros listdir e ->. unfold PapyrusVolume_init.
    destruct (raised (build_from_tiffdir imread rescale zarr_path listdir None
                                         multiscale xlims ylims zlims None))
      as [e' |] eqn:Hr.
    + cbn [snd]. split; intros [= ->]; reflexivity.
    + destruct (build_from_tiffdir_opens _ _ _ _ _ _ _ _ _ Hr)
        as (root & h & Hdest & Hh).
      cbn [snd]. rewrite Hdest, Hh. split; discriminate.
  - intros h Hh multiscale' xlims' ylims' zlims' zstride'.
    assert (Hst : exists root,
              fst (PapyrusVolume_init imread rescale zarr_path tiffdirpath multiscale
                                      xlims ylims zlims zstride) = Some root
              /\ VolumeHandle.init (Some root) = Ok h).
    { unfold PapyrusVolume_init in *. destruct tiffdirpath as [listdir |].
      - destruct (raised _) eqn:Hr; cbn [fst snd] in *; [discriminate |].
        destruct (dest _) as [root |]; [| discriminate].
        exists root. split; [reflexivity | exact Hh].
      - cbn [fst snd] in *. destruct zarr_path as [root |]; [| discriminate].
        exists root. split; [reflexivity | exact Hh]. }
    destruct Hst as (root & -> & Hopen). unfold PapyrusVolume_init.
    split; [rewrite Hopen; reflexivity |]. intros listdir. reflexivity.
Qed.

(** ** A build that is aborted after the store was created *)

(** With positive chunk sizes the computation of [scale_levels] raises
    on one kind of shape only, the one with both axes empty, and then
    [OverflowError] (the logarithms are [-inf], and [int(-inf)]
    overflows). *)
Lemma compute_scale_levels_raises (shape chunk_size : Z * Z) (e : exn) :
  0 < fst chunk_size -> 0 < snd chunk_size ->
  (compute_scale_levels shape chunk_size = Raise e
   <-> fst shape = 0 /\ snd shape = 0 /\ e = OverflowError).
Proof.
  destruct shape as [s0 s1], chunk_size as [c0 c1]. cbn [fst snd].
  intros Hc0 Hc1. unfold compute_scale_levels, ceil_log2_div. cbn [fst snd].
  rewrite !Z.div_1_r.
  destruct (Z.eqb_spec c0 0); [lia |]. destruct (Z.eqb_spec c1 0); [lia |].
  destruct (Z.ltb_spec c0 0); [lia |]. destruct (Z.ltb_spec c1 0); [lia |].
  destruct (Z.eqb_spec s0 0), (Z.eqb_spec s1 0); cbn [bind].
  - cbn. split; [intros [= <-]; auto | intros (_ & _ & ->); reflexivity].
  - cbn. split; [discriminate | intros (_ & C & _); contradiction].
  - cbn. split; [discriminate | intros (C & _); contradiction].
  - unfold fval_max, fval_gt. destruct (_ >? _); cbn;
      (split; [discriminate | intros (C & _); contradiction]).
Qed.

(** X18.  A multiscale image build, with positive chunk sizes, of a
    non-empty image cropped to nothing on both axes creates the store,
    writes level 0 and the [multiscale] flag, and is then aborted by
    [OverflowError] in the computation of [scale_levels].  The store it
    leaves has no [scale_levels] and no downsampled array: it cannot be
    opened ([KeyError]), and the path is refused by every later build.
    The same build without levels ends without exception. *)
Theorem aborted_image_build_blocks_the_path
    (rescale : ndarray dtype -> Z -> bool -> (Z * Z) * list Z)
    (img : ndarray int_dtype) (chunk_size : option (Z * Z))
    (xlims ylims : lims)
    (Hdata : nd_data img <> [])
    (Hc0 : 0 < fst (image_chunks chunk_size))
    (Hc1 : 0 < snd (image_chunks chunk_size))
    (Hempty : nd_shape (getitem2 img xlims ylims) = (0, 0)) :
  exists root,
    build_from_image rescale None img chunk_size true xlims ylims
    = mkOutcome (Some root) (Some OverflowError)
    /\ get_array root (Named "image") <> None
    /\ attrs_get root "multiscale" = Ok (ABool true)
    /\ attrs_get root "scale_levels" = Raise KeyError
    /\ (forall s, get_array root (Downsampled "image" s) = None)
    /\ ImageHandle.init (Some root) = Raise KeyError
    /\ (forall rescale' img' chunk_size' multiscale' xlims' ylims',
          build_from_image rescale' (Some root) img' chunk_size' multiscale'
                           xlims' ylims'
          = mkOutcome (Some root) (Some (PapyrusDataException ZarrPathExists)))
    /\ raised (build_from_image rescale None img chunk_size false xlims ylims)
       = None.
Proof.
  destruct (get_min_datatype_nonempty img Hdata) as [d Hd].
  assert (Hk : compute_scale_levels (nd_shape (getitem2 img xlims ylims))
                                    (image_chunks chunk_size)
               = Raise OverflowError).
  { apply compute_scale_levels_raises; [exact Hc0 | exact Hc1 |].
    rewrite Hempty. split; [reflexivity | split; reflexivity]. }
  unfold build_from_image. fold (image_chunks chunk_size).
  rewrite Hd, getitem2_astype. cbn [astype nd_shape nd_data nd_dtype].
  rewrite Hk. eexists. split; [reflexivity |].
  split; [discriminate |]. split; [reflexivity |]. split; [reflexivity |].
  split; [reflexivity |]. split; [reflexivity |]. split; reflexivity.
Qed.

Lemma aborted_image_build_blocks_the_path_witness :
  raised (build_from_image decimate None (mkArray uint8 (2, 2) [1; 2; 3; 4]) None true
            (Some (Some 1, Some 1)) (Some (Some 0, Some 0)))
  = Some OverflowError
  /\ ImageHandle.init
       (dest (build_from_image decimate None (mkArray uint8 (2, 2) [1; 2; 3; 4]) None
                true (Some (Some 1, Some 1)) (Some (Some 0, Some 0))))
     = Raise KeyError.
Proof.
  destruct (aborted_image_build_blocks_the_path decimate
              (mkArray uint8 (2, 2) [1; 2; 3; 4]) None
              (Some (Some 1, Some 1)) (Some (Some 0, Some 0))
              ltac:(discriminate) ltac:(reflexivity) ltac:(reflexivity) eq_refl)
    as (root & Hb & _ & _ & _ & _ & Hopen & _).
  rewrite Hb. cbn [raised dest]. split; [reflexivity | exact Hopen].
Defined.

(** ** What the planes of a volume hold *)

Lemma set_nth_length {A} (v : A) : forall n l, List.length (set_nth n v l) = List.length l.
Proof.
  induction n as [|n IH]; intros [|x l]; cbn; try reflexivity.
  rewrite IH. reflexivity.
Qed.

Lemma nth_set_nth_same {A} (v d : A) :
  forall n l, (n < List.length l)%nat -> nth n (set_nth n v l) d = v.
Proof.
  induction n as [|n IH]; intros [|x l] H; cbn in *; try lia; [reflexivity |].
  apply IH. lia.
Qed.

Lemma nth_set_nth_other {A} (v d : A) :
  forall n m l, n <> m -> nth m (set_nth n v l) d = nth m l d.
Proof.
  induction n as [|n IH]; intros [|m] [|x l] H; cbn; try reflexivity; try lia.
  apply IH. lia.
Qed.

Lemma write_plane_planes (root : zgroup) (name : array_name) (z : Z)
    (data : list Z) (a : zarray) :
  get_array root name = Some a ->
  get_array (write_plane root name z data) name
  = Some (mkZarray (za_shape a) (za_chunks a) (za_dtype a) (za_fill_value a)
                   (set_nth (Z.to_nat z) data (za_planes a))).
Proof.
  intros H. unfold write_plane. rewrite H. apply get_array_set_same.
Qed.

Lemma dict_in_get (d : dict) (k : Z) :
  dict_in k d = true -> exists v, dict_get d k = Ok v.
Proof.
  unfold dict_in, dict_get. intros H.
  destruct (find (fun p => fst p =? k) d) as [[k' v] |] eqn:E;
    [exists v; reflexivity |].
  apply existsb_exists in H. destruct H as (p & Hp & Hk).
  rewrite (find_none _ _ E p Hp) in Hk. discriminate.
Qed.

Lemma range_NoDup (n : nat) : forall a b, Z.to_nat (b - a) = n -> NoDup (range a b).
Proof.
  induction n as [|n IH]; intros a b H.
  - rewrite range_nil by lia. constructor.
  - rewrite range_cons by lia. constructor.
    + rewrite in_range. lia.
    + apply IH. lia.
Qed.

Lemma map_fst_combine_same {A B} :
  forall (l1 : list A) (l2 : list B),
    List.length l1 = List.length l2 -> map fst (combine l1 l2) = l1.
Proof.
  induction l1 as [|x l1 IH]; intros [|y l2] H; cbn in *; try reflexivity;
    try discriminate.
  rewrite IH by lia. reflexivity.
Qed.

Lemma range_length (a b : Z) : List.length (range a b) = Z.to_nat (b - a).
Proof. unfold range. rewrite length_map, length_seq. reflexivity. Qed.

Lemma enumerate_fst {A} (l : list A) :
  map fst (enumerate l) = range 0 (Z.of_nat (List.length l)).
Proof.
  unfold enumerate. apply map_fst_combine_same. rewrite range_length. lia.
Qed.

Lemma combine_range_nth_error {A} (l : list A) :
  forall a i z,
    nth_error l i = Some z ->
    In (a + Z.of_nat i, z) (combine (range a (a + Z.of_nat (List.length l))) l).
Proof.
  induction l as [|x l IH]; intros a i z H; [destruct i; discriminate |].
  cbn [List.length]. rewrite range_cons by lia. cbn [combine].
  destruct i as [|i]; cbn [nth_error] in H.
  - injection H as ->. left. f_equal. lia.
  - right.
    replace (a + Z.of_nat (S (List.length l))) with (a + 1 + Z.of_nat (List.length l))
      by lia.
    replace (a + Z.of_nat (S i)) with (a + 1 + Z.of_nat i) by lia.
    apply IH. exact H.
Qed.

Lemma enumerate_nth_error {A} (l : list A) (i : nat) (z : A) :
  nth_error l i = Some z -> In (Z.of_nat i, z) (enumerate l).
Proof.
  intros H. unfold enumerate.
  exact (combine_range_nth_error l 0 i z H).
Qed.

Lemma enumerate_In {A} (l : list A) (i : Z) (z : A) :
  In (i, z) (enumerate l) -> 0 <= i < Z.of_nat (List.length l) /\ In z l.
Proof.
  unfold enumerate. intros H. split.
  - apply in_combine_l in H. apply in_range in H. exact H.
  - apply in_combine_r in H. exact H.
Qed.

Section VolumePlanes.

Variable imread : string -> ndarray int_dtype.
Variable rescale : ndarray dtype -> Z -> bool -> (Z * Z) * list Z.

(** The load loop past its first iteration: every listed plane is
    written with its slice, the other planes are left as they were. *)
Lemma load_slices_planes imgfiles xlims ylims chunk_size len_zrange items :
  forall root img_data v,
    get_array root (Named "volume") = Some v ->
    NoDup (map fst items) ->
    (forall i z, In (i, z) items ->
       0 <= i < Z.of_nat (List.length (za_planes v))
       /\ dict_in z imgfiles = true) ->
    exists root' img' v',
      load_slices imread imgfiles xlims ylims chunk_size len_zrange items
                  root false img_data = (root', img', None)
      /\ get_array root' (Named "volume") = Some v'
      /\ za_shape v' = za_shape v
      /\ List.length (za_planes v') = List.length (za_planes v)
      /\ (forall i z, In (i, z) items ->
            exists f, dict_get imgfiles z = Ok f
                      /\ nth (Z.to_nat i) (za_planes v') []
                         = nd_data (getitem2 (imread f) xlims ylims))
      /\ (forall j, ~ In (Z.of_nat j) (map fst items) ->
            nth j (za_planes v') [] = nth j (za_planes v) []).
Proof.
  induction items as [|[i0 z0] items IH]; intros root img_data v Hv Hnd Hin.
  - exists root, img_data, v. cbn [load_slices].
    split; [reflexivity |]. split; [exact Hv |]. split; [reflexivity |].
    split; [reflexivity |]. split; [intros i z [] | reflexivity].
  - cbn [map fst] in Hnd. inversion Hnd as [| ? ? Hnot Hnd']; subst.
    destruct (Hin i0 z0 (or_introl eq_refl)) as [Hi0 Hz0].
    destruct (dict_in_get imgfiles z0 Hz0) as [f0 Hf0].
    cbn [load_slices]. rewrite Hf0.
    pose proof (write_plane_planes root (Named "volume") i0
                  (nd_data (getitem2 (imread f0) xlims ylims)) v Hv) as Hv1.
    match type of Hv1 with _ = Some ?a => set (v1 := a) in * end.
    destruct (IH (write_plane root (Named "volume") i0
                    (nd_data (getitem2 (imread f0) xlims ylims)))
                 (Some (getitem2 (imread f0) xlims ylims)) v1 Hv1 Hnd')
      as (root' & img' & v' & Hload & Hv' & Hs' & Hl' & Hdata & Hother).
    { intros i z Hiz. unfold v1. cbn [za_planes]. rewrite set_nth_length.
      apply Hin. right. exact Hiz. }
    exists root', img', v'. split; [exact Hload |]. split; [exact Hv' |].
    split; [rewrite Hs'; reflexivity |].
    split; [rewrite Hl'; unfold v1; cbn [za_planes]; apply set_nth_length |].
    split.
    + intros i z [[= <- <-] | Hiz]; [| apply Hdata; exact Hiz].
      exists f0. split; [exact Hf0 |].
      rewrite Hother by (rewrite Z2Nat.id by lia; exact Hnot).
      unfold v1. cbn [za_planes]. apply nth_set_nth_same. lia.
    + intros j Hj. cbn [map fst In] in Hj.
      rewrite Hother by (intros C; apply Hj; right; exact C).
      unfold v1. cbn [za_planes]. apply nth_set_nth_other.
      intros C. apply Hj. left. lia.
Qed.


End VolumePlanes.


(** ** What the downsampled levels hold *)

Lemma add_downsampled_images_content
    (rescale : ndarray dtype -> Z -> bool -> (Z * Z) * list Z)
    img_data chunk_size (scales : list Z) :
  forall root s a,
    get_array (fold_left (add_downsampled_image rescale img_data chunk_size)
                         scales root) (Downsampled "image" s) = Some a ->
    (In s scales
     /\ get_array (add_downsampled_image rescale img_data chunk_size root s)
                  (Downsampled "image" s) = Some a)
    \/ get_array root (Downsampled "image" s) = Some a.
Proof.
  induction scales as [|s' scales IH] using rev_ind; intros root s a H.
  - right. exact H.
  - rewrite fold_left_app in H. cbn [fold_left] in H.
    unfold add_downsampled_image at 1 in H. unfold root_array in H.
    destruct (Z.eq_dec s' s) as [-> | Hne].
    + rewrite get_array_set_same in H. left.
      split; [apply in_or_app; right; left; reflexivity |].
      unfold add_downsampled_image, root_array. rewrite get_array_set_same. exact H.
    + rewrite get_array_set_other in H
        by (cbn; apply Z.eqb_neq in Hne; rewrite Hne; reflexivity).
      destruct (IH root s a H) as [[Hin Ha] | Ha]; [left | right; exact Ha].
      split; [apply in_or_app; left; exact Hin | exact Ha].
Qed.



Lemma nth_error_range (a b i : Z) :
  0 <= i < b - a -> nth_error (range a b) (Z.to_nat i) = Some (a + i).
Proof.
  intros H. unfold range.
  rewrite (map_nth_error (fun k => a + Z.of_nat k) (Z.to_nat i) (seq 0 _)
             (d := Z.to_nat i)).
  - f_equal. lia.
  - rewrite (nth_error_nth' _ 0%nat) by (rewrite length_seq; lia).
    rewrite seq_nth by lia. reflexivity.
Qed.

Lemma nth_error_strided (n step j : Z) :
  0 <= j < (n + step - 1) / step ->
  nth_error (strided n step) (Z.to_nat j) = Some (j * step).
Proof.
  intros H. unfold strided.
  rewrite (map_nth_error (fun i => i * step) (Z.to_nat j) (range 0 _) (d := j));
    [reflexivity |].
  rewrite nth_error_range by lia. reflexivity.
Qed.

Lemma strided_length (n step : Z) :
  List.length (strided n step) = Z.to_nat ((n + step - 1) / step).
Proof.
  unfold strided. rewrite length_map, range_length. f_equal. lia.
Qed.

Section VolumeLevelContent.

Variable imread : string -> ndarray int_dtype.
Variable rescale : ndarray dtype -> Z -> bool -> (Z * Z) * list Z.

(** The inner loop past its first iteration. *)
Lemma downsample_planes_content scale chunk_size len_ds_zrange items :
  forall root vol a,
    get_array root (Named "volume") = Some vol ->
    get_array root (Downsampled "volume" scale) = Some a ->
    NoDup (map fst items) ->
    (forall j o, In (j, o) items -> 0 <= j < Z.of_nat (List.length (za_planes a))) ->
    exists a',
      get_array (downsample_planes rescale scale chunk_size len_ds_zrange items
                                   root false)
                (Downsampled "volume" scale) = Some a'
      /\ za_shape a' = za_shape a /\ za_dtype a' = za_dtype a
      /\ List.length (za_planes a') = List.length (za_planes a)
      /\ (forall j o, In (j, o) items ->
            nth (Z.to_nat j) (za_planes a') []
            = snd (rescale (read_plane vol o) scale true))
      /\ (forall j, ~ In (Z.of_nat j) (map fst items) ->
            nth j (za_planes a') [] = nth j (za_planes a) []).
Proof.
  induction items as [|[j0 o0] items IH]; intros root vol a Hvol Ha Hnd Hin.
  - exists a. cbn [downsample_planes]. split; [exact Ha |].
    split; [reflexivity |]. split; [reflexivity |]. split; [reflexivity |].
    split; [intros j o [] | reflexivity].
  - cbn [map fst] in Hnd. inversion Hnd as [| ? ? Hnot Hnd']; subst.
    pose proof (Hin j0 o0 (or_introl eq_refl)) as Hj0.
    cbn [downsample_planes]. rewrite Hvol.
    cbn [astype nd_data nd_dtype nd_shape].
    pose proof (write_plane_planes root (Downsampled "volume" scale) j0
                  (snd (rescale (read_plane vol o0) scale true)) a Ha) as Ha1.
    match type of Ha1 with _ = Some ?x => set (a1 := x) in * end.
    assert (Hvol1 : get_array (write_plane root (Downsampled "volume" scale) j0
                                 (snd (rescale (read_plane vol o0) scale true)))
                              (Named "volume") = Some vol).
    { rewrite write_plane_other by reflexivity. exact Hvol. }
    destruct (IH _ vol a1 Hvol1 Ha1 Hnd')
      as (a' & Ha' & Hs' & Hd' & Hl' & Hdata & Hother).
    { intros j o Hjo. unfold a1. cbn [za_planes]. rewrite set_nth_length.
      apply (Hin j o). right. exact Hjo. }
    exists a'. split; [exact Ha' |]. split; [rewrite Hs'; reflexivity |].
    split; [rewrite Hd'; reflexivity |].
    split; [rewrite Hl'; unfold a1; cbn [za_planes]; apply set_nth_length |].
    split.
    + intros j o [[= <- <-] | Hjo]; [| apply Hdata; exact Hjo].
      rewrite Hother by (rewrite Z2Nat.id by lia; exact Hnot).
      unfold a1. cbn [za_planes]. apply nth_set_nth_same. lia.
    + intros j Hj. cbn [map fst In] in Hj.
      rewrite Hother by (intros C; apply Hj; right; exact C).
      unfold a1. cbn [za_planes]. apply nth_set_nth_other.
      intros C. apply Hj. left. lia.
Qed.

(** One scale of the downsampling loop. *)
Lemma add_downsampled_volume_content chunk_size len (root : zgroup) (vol : zarray)
    (s : Z) :
  1 <= len -> 0 <= s ->
  get_array root (Named "volume") = Some vol ->
  exists a,
    get_array (add_downsampled_volume rescale chunk_size len root s)
              (Downsampled "volume" s) = Some a
    /\ level_of_volume rescale vol len s a.
Proof.
  intros Hlen Hs Hvol. unfold add_downsampled_volume, level_of_volume.
  pose proof (Z.pow_pos_nonneg 2 s ltac:(lia) Hs) as Hpow.
  set (step := 2 ^ s) in *.
  assert (Hdepth : 1 <= (len + step - 1) / step)
    by (apply Z.div_le_lower_bound; lia).
  set (depth := (len + step - 1) / step) in *.
  assert (Hlen_ds : List.length (strided len step) = Z.to_nat depth)
    by apply strided_length.
  assert (Hfirst : nth_error (strided len step) 0 = Some 0).
  { change 0%nat with (Z.to_nat 0). rewrite nth_error_strided by (fold depth; lia).
    reflexivity. }
  destruct (strided len step) as [|o0 ds'] eqn:Hds; [discriminate |].
  cbn [nth_error] in Hfirst. injection Hfirst as ->. rewrite <- Hds in *.
  assert (Hen : enumerate (strided len step)
                = (0, 0) :: combine (range 1 (Z.of_nat (List.length (strided len step))))
                                    ds').
  { unfold enumerate. rewrite Hds at 2. rewrite range_cons by lia. reflexivity. }
  set (r0 := rescale (read_plane vol 0) s true).
  set (rootz := root_zeros root (Downsampled "volume" s)
                  (fst (fst r0), snd (fst r0),
                   Z.of_nat (List.length (strided len step)))
                  chunk_size None).
  assert (Hvolz : get_array rootz (Named "volume") = Some vol).
  { unfold rootz. rewrite root_zeros_other by reflexivity. exact Hvol. }
  assert (Hinit : downsample_planes rescale s chunk_size
                    (Z.of_nat (List.length (strided len step)))
                    (enumerate (strided len step)) root true
                  = downsample_planes rescale s chunk_size
                      (Z.of_nat (List.length (strided len step)))
                      (enumerate (strided len step)) rootz false).
  { rewrite Hen. cbn [downsample_planes]. rewrite Hvol, Hvolz. reflexivity. }
  rewrite Hinit.
  assert (Haz : exists az,
            get_array rootz (Downsampled "volume" s) = Some az
            /\ za_dtype az = float64
            /\ za_shape az = [fst (fst r0); snd (fst r0); depth]
            /\ List.length (za_planes az) = Z.to_nat depth).
  { unfold rootz, root_zeros. destruct chunk_size as [[c0 c1] c2].
    rewrite get_array_set_same. eexists. split; [reflexivity |].
    cbn [za_dtype za_shape za_planes]. split; [reflexivity |].
    split; [rewrite Hlen_ds; f_equal; f_equal; f_equal; lia |].
    rewrite repeat_length, Hlen_ds. lia. }
  destruct Haz as (az & Haz & Hdz & Hsz & Hlz).
  destruct (downsample_planes_content s chunk_size
              (Z.of_nat (List.length (strided len step)))
              (enumerate (strided len step)) rootz vol az Hvolz Haz)
    as (a' & Ha' & Hs' & Hd' & Hl' & Hdata & _).
  { rewrite enumerate_fst.
    apply (range_NoDup (List.length (strided len step))). lia. }
  { intros j o Hjo. apply enumerate_In in Hjo. rewrite Hlz, <- Hlen_ds.
    exact (proj1 Hjo). }
  exists a'. split; [exact Ha' |]. split; [rewrite Hd'; exact Hdz |].
  split; [rewrite Hs'; exact Hsz |]. split; [rewrite Hl'; exact Hlz |].
  intros j Hj. apply Hdata.
  rewrite <- (Z2Nat.id j) at 1 by lia. apply enumerate_nth_error.
  apply nth_error_strided. fold depth. exact Hj.
Qed.

Lemma add_downsampled_volumes_content chunk_size len (scales : list Z) :
  1 <= len -> (forall s, In s scales -> 0 <= s) ->
  forall root vol s,
    get_array root (Named "volume") = Some vol -> In s scales ->
    exists a,
      get_array (fold_left (add_downsampled_volume rescale chunk_size len)
                           scales root) (Downsampled "volume" s) = Some a
      /\ level_of_volume rescale vol len s a.
Proof.
  intros Hlen. induction scales as [|s' scales IH] using rev_ind;
    intros Hpos root vol s Hvol Hin; [contradiction |].
  rewrite fold_left_app. cbn [fold_left].
  destruct (add_downsampled_volumes_volume rescale chunk_size len scales root)
    as [Hkeep _].
  destruct (Z.eq_dec s' s) as [-> | Hne].
  - apply add_downsampled_volume_content; [exact Hlen | |].
    + apply Hpos. apply in_or_app. right. left. reflexivity.
    + rewrite Hkeep. exact Hvol.
  - unfold add_downsampled_volume at 1. rewrite downsample_planes_other
      by (cbn; apply Z.eqb_neq in Hne; rewrite Hne; reflexivity).
    apply IH; [| exact Hvol |].
    + intros x Hx. apply Hpos. apply in_or_app. left. exact Hx.
    + apply in_app_or in Hin. destruct Hin as [Hin | [Hin | []]];
        [exact Hin | contradiction].
Qed.

(** X21.  After a multiscale volume build that ended without exception, level
    [s] (from 1 to the stored [scale_levels]) exists and holds every
    [2^s]-th plane of level 0, each resampled by [1 / 2 ** s]: plane [j]
    comes from plane [j * 2^s], the depth is that of level 0 divided by
    [2^s] and rounded up, and the first two axes are those of the
    resampled first plane. *)
Theorem volume_levels_stride_the_depth
    (listdir : list string) (chunk_size : option (Z * Z * Z))
    (xlims ylims zlims : lims) (zstride : option Z) (root : zgroup)
    (Hbuild : build_from_tiffdir imread rescale None listdir chunk_size true
                                 xlims ylims zlims zstride
              = mkOutcome (Some root) None) :
  exists volume k,
    get_array root (Named "volume") = Some volume
    /\ attrs_get root "scale_levels" = Ok (AInt k)
    /\ forall s, 1 <= s <= k ->
         exists a,
           get_array root (Downsampled "volume" s) = Some a
           /\ level_of_volume rescale volume (nth 2 (za_shape volume) 0) s a.
Proof.
  unfold build_from_tiffdir in Hbuild. fold (volume_chunks chunk_size) in Hbuild.
  destruct (zrange_of _ _ _) as [zrange | e]; [| discriminate].
  destruct (first_missing _ _); [discriminate |].
  destruct (load_slices _ _ _ _ _ _ _ _ _ _) as [[root0 img_data] err] eqn:Hload.
  destruct err as [e |]; [discriminate |].
  destruct img_data as [img_data |]; [| discriminate].
  assert (Hne : zrange <> []).
  { intros ->. cbn in Hload. discriminate. }
  apply load_slices_volume in Hload. destruct Hload as (_ & Hvol & _).
  destruct (Hvol eq_refl (enumerate_nonempty zrange Hne)) as (f & v & Hv & Hs & _).
  destruct (compute_scale_levels _ _) as [k | e]; [| discriminate].
  injection Hbuild as <-.
  match goal with |- context [fold_left ?F ?l ?r] => set (root1 := r) end.
  assert (Hv1 : get_array root1 (Named "volume") = Some v).
  { unfold root1. rewrite !get_array_attrs_set. exact Hv. }
  destruct (add_downsampled_volumes_volume rescale (volume_chunks chunk_size)
              (Z.of_nat (List.length zrange)) (range 1 (k + 1)) root1)
    as [Hkeep Hattrs].
  exists v, k. split; [rewrite Hkeep; exact Hv1 |].
  split; [erewrite attrs_get_attrs by exact Hattrs; apply attrs_get_set_same |].
  intros s Hsk. rewrite Hs. cbn [nth].
  apply add_downsampled_volumes_content.
  - destruct zrange; [contradiction | cbn [List.length]; lia].
  - intros x Hx. apply in_range in Hx. lia.
  - exact Hv1.
  - apply in_range. lia.
Qed.

End VolumeLevelContent.

Lemma volume_levels_stride_the_depth_witness :
  exists root volume level1,
    dest (build_from_tiffdir constant_plane decimate None
            ["0.tif"; "1.tif"; "2.tif"]%string (Some (2, 2, 1)) true
            None None None None) = Some root
    /\ get_array root (Named "volume") = Some volume
    /\ get_array root (Downsampled "volume" 1) = Some level1
    /\ List.length (za_planes volume) = 3%nat
    /\ List.length (za_planes level1) = 2%nat.
Proof.
  destruct (volume_levels_stride_the_depth constant_plane decimate
              ["0.tif"; "1.tif"; "2.tif"]%string (Some (2, 2, 1))
              None None None None _ eq_refl) as (volume & k & Hv & Hk & Hlev).
  vm_compute in Hk. injection Hk as <-.
  destruct (Hlev 1 ltac:(lia)) as (a & Ha & _ & _ & Hl & _).
  vm_compute in Hv. injection Hv as <-.
  eexists. eexists. exists a. split; [reflexivity |]. split; [reflexivity |].
  split; [exact Ha |]. split; [reflexivity |]. exact Hl.
Defined.
